(** * SignalFlow feedback worker: classification, summarisation and
      aggregation handlers

    A shallow embedding of the request handlers of [src/index.js]
    (both [feedback-analyser] and [feedback-analyser-2]) together with the
    parts of the JavaScript runtime and of the D1/SQLite store they rely
    on.

    Conventions.
    - JavaScript strings and SQLite TEXT values are byte strings
      ([String.string]); a UTF-16 code unit above 127 stands for its
      CESU-8 bytes.  Every character the handlers inspect is ASCII.
    - JavaScript numbers that the handlers produce are integers or decimal
      literals; they are kept exact (binary64 rounding is not modelled).
    - SQLite REAL values are exact rationals ([Qc]).
    - A handler reads one snapshot of the [feedback] relation, given as
      the list of its rows in the store's scan order. *)

From Stdlib Require Import List String Ascii ZArith NArith Bool Lia.
From Stdlib Require Import Sorted Permutation QArith Qcanon DecimalString.
Import ListNotations.

Set Warnings "-register-all".
Local Open Scope string_scope.
Local Open Scope Z_scope.

(* ================================================================== *)
(** ** JavaScript values and completions *)
(* ================================================================== *)

Module Js.

(** A thrown [Error]; the handlers only ever read its [message]. *)
Record JsError := mkError { message : string }.

(** Outcome of evaluating an expression that may throw. *)
Inductive Completion (A : Type) : Type :=
| Normal (a : A)
| Throw (e : JsError).
Arguments Normal {A} a.
Arguments Throw {A} e.

(** Values produced by [JSON.parse] and consumed by [JSON.stringify].
    A number [JNum m e] is the decimal [m * 10^e].  An object is the list
    of its own properties in insertion order, without duplicate keys. *)
Inductive JsValue : Type :=
| JNull
| JBool (b : bool)
| JNum (m e : Z)
| JStr (s : string)
| JArr (items : list JsValue)
| JObj (props : list (string * JsValue)).

(** [obj[k] = v] on the property list. *)
Fixpoint obj_set (props : list (string * JsValue)) (k : string) (v : JsValue)
  : list (string * JsValue) :=
  match props with
  | [] => [(k, v)]
  | (k', v') :: rest =>
      if String.eqb k' k then (k, v) :: rest else (k', v') :: obj_set rest k v
  end.

Fixpoint obj_get (props : list (string * JsValue)) (k : string) : option JsValue :=
  match props with
  | [] => None
  | (k', v) :: rest => if String.eqb k' k then Some v else obj_get rest k
  end.

(** Property read [v.k]; [None] is [undefined]. *)
Definition get_prop (v : JsValue) (k : string) : option JsValue :=
  match v with
  | JObj props => obj_get props k
  | _ => None
  end.

(** The double quote and line feed characters. *)
Definition dquote : ascii := "034"%char.
Definition lf : ascii := "010"%char.

(** Writes a text containing double quotes with apostrophes in their
    place. *)
Fixpoint requote (s : string) : string :=
  match s with
  | EmptyString => EmptyString
  | String c r => String (if Ascii.eqb c "'" then dquote else c) (requote r)
  end.

(* ------------------------------------------------------------------ *)
(** *** [String.prototype.match] with the pattern [/\{[\s\S]*\}/] *)

(** Longest prefix of [s] that ends with a closing brace. *)
Fixpoint upto_last_close (s : string) : option string :=
  match s with
  | EmptyString => None
  | String c r =>
      match upto_last_close r with
      | Some p => Some (String c p)
      | None => if Ascii.eqb c "}" then Some (String c EmptyString) else None
      end
  end.

(** Suffix of [s] that follows its first opening brace. *)
Fixpoint after_first_open (s : string) : option string :=
  match s with
  | EmptyString => None
  | String c r => if Ascii.eqb c "{" then Some r else after_first_open r
  end.

(** [jsonMatch[0]] of [response.match(/\{[\s\S]*\}/)], or [None] when the
    match is [null]: the leftmost opening brace, then greedily up to the
    last closing brace behind it. *)
Definition match_braces (response : string) : option string :=
  match after_first_open response with
  | Some r =>
      match upto_last_close r with
      | Some body => Some (String "{" body)
      | None => None
      end
  | None => None
  end.

(* ------------------------------------------------------------------ *)
(** *** [JSON.parse] *)

Definition is_json_ws (c : ascii) : bool :=
  match c with
  | " "%char | "009"%char | "010"%char | "013"%char => true
  | _ => false
  end.

Fixpoint skip_ws (s : string) : string :=
  match s with
  | String c r => if is_json_ws c then skip_ws r else s
  | EmptyString => s
  end.

Definition digit_of (c : ascii) : option Z :=
  let n := Z.of_N (N_of_ascii c) in
  if (48 <=? n) && (n <=? 57) then Some (n - 48) else None.

Definition hex_of (c : ascii) : option Z :=
  let n := Z.of_N (N_of_ascii c) in
  if (48 <=? n) && (n <=? 57) then Some (n - 48)
  else if (65 <=? n) && (n <=? 70) then Some (n - 55)
  else if (97 <=? n) && (n <=? 102) then Some (n - 87)
  else None.

Definition byte (n : Z) : ascii := ascii_of_N (Z.to_N n).

(** CESU-8 bytes of one UTF-16 code unit. *)
Definition code_unit (u : Z) : string :=
  if u <? 128 then String (byte u) ""
  else if u <? 2048 then
    String (byte (192 + u / 64)) (String (byte (128 + u mod 64)) "")
  else
    String (byte (224 + u / 4096))
      (String (byte (128 + (u / 64) mod 64)) (String (byte (128 + u mod 64)) "")).

(** Maximal run of decimal digits: the digits read so far as a number,
    how many there were, and the rest. *)
Fixpoint take_digits (acc : Z) (n : Z) (s : string) : Z * Z * string :=
  match s with
  | String c r =>
      match digit_of c with
      | Some d => take_digits (10 * acc + d) (n + 1) r
      | None => (acc, n, s)
      end
  | EmptyString => (acc, n, s)
  end.

(** The body of a string literal, after its opening quote. *)
Fixpoint parse_string_body (s : string) : option (string * string) :=
  match s with
  | EmptyString => None
  | String c r =>
      if Ascii.eqb c dquote then Some ("", r)
      else if Ascii.eqb c "\" then
        match r with
        | String e r' =>
            let simple (out : ascii) :=
              match parse_string_body r' with
              | Some (str, rest) => Some (String out str, rest)
              | None => None
              end in
            if Ascii.eqb e dquote then simple dquote
            else if Ascii.eqb e "\" then simple "\"%char
            else if Ascii.eqb e "/" then simple "/"%char
            else if Ascii.eqb e "b" then simple "008"%char
            else if Ascii.eqb e "f" then simple "012"%char
            else if Ascii.eqb e "n" then simple "010"%char
            else if Ascii.eqb e "r" then simple "013"%char
            else if Ascii.eqb e "t" then simple "009"%char
            else if Ascii.eqb e "u" then
              match r' with
              | String h1 (String h2 (String h3 (String h4 r''))) =>
                  match hex_of h1, hex_of h2, hex_of h3, hex_of h4 with
                  | Some a, Some b, Some c', Some d =>
                      match parse_string_body r'' with
                      | Some (str, rest) =>
                          Some (code_unit (4096 * a + 256 * b + 16 * c' + d) ++ str,
                                rest)
                      | None => None
                      end
                  | _, _, _, _ => None
                  end
              | _ => None
              end
            else None
        | EmptyString => None
        end
      else if (N_of_ascii c <? 32)%N then None
      else
        match parse_string_body r with
        | Some (str, rest) => Some (String c str, rest)
        | None => None
        end
  end.

(** A number literal: [-? int frac? exp?]. *)
Definition parse_number (s : string) : option (JsValue * string) :=
  let (neg, s1) :=
    match s with
    | String "-" r => (true, r)
    | _ => (false, s)
    end in
  let int_part :=
    match s1 with
    | String "0" r => Some (0, r)
    | String c _ =>
        match digit_of c with
        | Some _ => let '(m, _, r) := take_digits 0 0 s1 in Some (m, r)
        | None => None
        end
    | EmptyString => None
    end in
  match int_part with
  | None => None
  | Some (m, s2) =>
      let frac :=
        match s2 with
        | String "." r =>
            let '(m', n, r') := take_digits m 0 r in
            if n =? 0 then None else Some (m', n, r')
        | _ => Some (m, 0, s2)
        end in
      match frac with
      | None => None
      | Some (m', scale, s3) =>
          let expo :=
            match s3 with
            | String c r =>
                if Ascii.eqb c "e" || Ascii.eqb c "E" then
                  let (eneg, r1) :=
                    match r with
                    | String "+" r' => (false, r')
                    | String "-" r' => (true, r')
                    | _ => (false, r)
                    end in
                  let '(e, n, r2) := take_digits 0 0 r1 in
                  if n =? 0 then None else Some ((if eneg then - e else e), r2)
                else Some (0, s3)
            | EmptyString => Some (0, s3)
            end in
          match expo with
          | None => None
          | Some (e, s4) => Some (JNum (if neg then - m' else m') (e - scale), s4)
          end
      end
  end.

Definition strip_prefix_opt (p s : string) : option string :=
  if String.prefix p s
  then Some (String.substring (String.length p) (String.length s - String.length p) s)
  else None.

(** One JSON value, with the nesting depth bounded by [fuel]; every
    recursive call happens behind at least one consumed character, so a
    fuel above the length of the text is never exhausted. *)
Fixpoint parse_value (fuel : nat) (s : string) {struct fuel}
  : option (JsValue * string) :=
  match fuel with
  | O => None
  | S f =>
      match skip_ws s with
      | String "{" r =>
          match skip_ws r with
          | String "}" r' => Some (JObj [], r')
          | _ => parse_members f r []
          end
      | String "[" r =>
          match skip_ws r with
          | String "]" r' => Some (JArr [], r')
          | _ => parse_elements f r []
          end
      | String c r as s' =>
          if Ascii.eqb c dquote then
            match parse_string_body r with
            | Some (str, rest) => Some (JStr str, rest)
            | None => None
            end
          else
            match strip_prefix_opt "true" s', strip_prefix_opt "false" s',
                  strip_prefix_opt "null" s' with
            | Some rest, _, _ => Some (JBool true, rest)
            | _, Some rest, _ => Some (JBool false, rest)
            | _, _, Some rest => Some (JNull, rest)
            | None, None, None => parse_number s'
            end
      | EmptyString => None
      end
  end
with parse_members (fuel : nat) (s : string) (acc : list (string * JsValue))
       {struct fuel} : option (JsValue * string) :=
  match fuel with
  | O => None
  | S f =>
      match skip_ws s with
      | String c r =>
          if Ascii.eqb c dquote then
            match parse_string_body r with
            | Some (k, r1) =>
                match skip_ws r1 with
                | String ":" r2 =>
                    match parse_value f r2 with
                    | Some (v, r3) =>
                        match skip_ws r3 with
                        | String "," r4 => parse_members f r4 (obj_set acc k v)
                        | String "}" r4 => Some (JObj (obj_set acc k v), r4)
                        | _ => None
                        end
                    | None => None
                    end
                | _ => None
                end
            | None => None
            end
          else None
      | EmptyString => None
      end
  end
with parse_elements (fuel : nat) (s : string) (acc : list JsValue)
       {struct fuel} : option (JsValue * string) :=
  match fuel with
  | O => None
  | S f =>
      match parse_value f s with
      | Some (v, r) =>
          match skip_ws r with
          | String "," r' => parse_elements f r' (acc ++ [v])
          | String "]" r' => Some (JArr (acc ++ [v]), r')
          | _ => None
          end
      | None => None
      end
  end.

(** [JSON.parse(text)]: one value surrounded by white space, a
    [SyntaxError] otherwise. *)
Definition json_parse (text : string) : Completion JsValue :=
  match parse_value (S (String.length text)) text with
  | Some (v, rest) =>
      match skip_ws rest with
      | EmptyString => Normal v
      | _ => Throw (mkError "Unexpected non-whitespace character after JSON")
      end
  | None => Throw (mkError "Unexpected token in JSON")
  end.

End Js.

(* ================================================================== *)
(** ** The generative-text capability ([env.AI.run]) *)
(* ================================================================== *)

Module Ai.

Record Message := mkMessage { role : string; content : string }.

(** The arguments of one [env.AI.run(model, { messages, max_tokens })]. *)
Record Request := mkRequest {
  model : string;
  messages : list Message;
  max_tokens : Z
}.

(** What awaiting the call yields: an object whose [response] is a text,
    or a rejection. *)
Inductive Outcome : Type :=
| Resolved (response : string)
| Rejected (e : Js.JsError).

(** A handler is a computation that may await the capability any number
    of times before it produces its result. *)
Inductive Handler (A : Type) : Type :=
| Return (a : A)
| Await (req : Request) (k : Outcome -> Handler A).
Arguments Return {A} a.
Arguments Await {A} req k.

(** Runs a handler against a capability; yields the requests sent, in
    order, and the result. *)
Fixpoint run {A : Type} (ai : Request -> Outcome) (h : Handler A)
  : list Request * A :=
  match h with
  | Return a => ([], a)
  | Await req k => let (log, a) := run ai (k (ai req)) in (req :: log, a)
  end.

End Ai.

(* ================================================================== *)
(** ** HTTP responses *)
(* ================================================================== *)

(** [new Response(JSON.stringify(body), { status, headers })]; the body is
    kept as the value handed to [JSON.stringify]. *)
Record Response (B : Type) := mkResponse { status : Z; body : B }.
Arguments mkResponse {B} status body.
Arguments status {B} r.
Arguments body {B} r.

Definition ok {B : Type} (b : B) : Response B := mkResponse 200 b.
Definition bad_request {B : Type} (b : B) : Response B := mkResponse 400 b.

(** Truthiness of a value that is a string, [null] or [undefined]. *)
Definition truthy (s : option string) : bool :=
  match s with
  | Some (String _ _) => true
  | _ => false
  end.

(* ================================================================== *)
(** ** Classification: [analyzeWithAI] *)
(* ================================================================== *)

Import Js.

Definition llama : string := "@cf/meta/llama-3-8b-instruct".

Definition analysis_prompt (content : string) : string :=
  requote "Analyze this product feedback and respond in JSON format only:

Feedback: '" ++ content ++ requote "'

Respond with exactly this JSON structure (no other text):
{
  'sentiment': 'positive' or 'neutral' or 'negative',
  'sentiment_score': number from -1.0 to 1.0,
  'theme': one of ['performance', 'pricing', 'documentation', 'developer-experience', 'reliability', 'feature-request', 'other'],
  'urgency': 'low' or 'medium' or 'high' or 'critical',
  'summary': 'one sentence summary of the feedback'
}".

Definition analysis_request (content : string) : Ai.Request :=
  Ai.mkRequest llama
    [ Ai.mkMessage "system"
        "You are a product feedback analyzer. Always respond with valid JSON only.";
      Ai.mkMessage "user" (analysis_prompt content) ]
    200.

(** The record built in the inner [catch]. *)
Definition parse_fallback (response : string) : JsValue :=
  JObj [ ("sentiment", JStr "neutral");
         ("sentiment_score", JNum 0 0);
         ("theme", JStr "other");
         ("urgency", JStr "medium");
         ("summary", JStr "Unable to parse AI response");
         ("raw_response", JStr response) ].

(** The record built in the outer [catch]. *)
Definition unavailable_fallback (e : JsError) : JsValue :=
  JObj [ ("sentiment", JStr "neutral");
         ("sentiment_score", JNum 0 0);
         ("theme", JStr "other");
         ("urgency", JStr "medium");
         ("summary", JStr "AI analysis unavailable");
         ("error", JStr (message e)) ].

(** [try { body } catch (e) { handler(e) }]. *)
Definition try_catch {A : Type} (body : Completion A)
  (handler : JsError -> Completion A) : Completion A :=
  match body with
  | Normal a => Normal a
  | Throw e => handler e
  end.

Section Classification.

(** The runtime's [JSON.parse]. *)
Variable JSON_parse : string -> Completion JsValue.

(** The inner [try] block: match, then parse, or throw. *)
Definition extract_analysis (response : string) : Completion JsValue :=
  match match_braces response with
  | Some json => JSON_parse json
  | None => Throw (mkError "No JSON found in response")
  end.

(** What follows [await env.AI.run(...)]: the outer [try] with its
    [catch], around the inner one. *)
Definition analysis_reply (outcome : Ai.Outcome) : Completion (Response JsValue) :=
  try_catch
    match outcome with
    | Ai.Resolved response =>
        match
          try_catch (extract_analysis response)
            (fun _parseError => Normal (parse_fallback response))
        with
        | Normal analysis => Normal (ok analysis)
        | Throw e => Throw e
        end
    | Ai.Rejected e => Throw e
    end
    (fun aiError => Normal (ok (unavailable_fallback aiError))).

(** [analyzeWithAI], from the point where [content] has been read from
    the request body.  The same text in both workers. *)
Definition analyzeWithAI (content : string) : Ai.Handler (Completion (Response JsValue)) :=
  if negb (truthy (Some content)) then
    Ai.Return (Normal (bad_request (JObj [("error", JStr "Content required")])))
  else
    Ai.Await (analysis_request content) (fun outcome =>
      Ai.Return (analysis_reply outcome)).

End Classification.

(* ================================================================== *)
(** ** Summarisation: [summarizeFeedback] (feedback-analyser-2) *)
(* ================================================================== *)

(** [Array.prototype.join]. *)
Fixpoint join (sep : string) (texts : list string) : string :=
  match texts with
  | [] => ""
  | [t] => t
  | t :: rest => t ++ sep ++ join sep rest
  end.

Definition separator : string := String lf ("---" ++ String lf "").

Definition summary_prompt (theme combinedFeedback : string) : string :=
  requote "You are a product manager analyzing customer feedback about '"
  ++ theme ++ requote "'. 

Here are the most recent feedback items:

" ++ combinedFeedback ++ "

Please provide a concise 2-3 sentence summary that:
1. Identifies the main pain points or requests
2. Notes any patterns or common themes
3. Suggests what action might be needed

Keep it actionable and professional.".

Definition summary_request (theme combinedFeedback : string) : Ai.Request :=
  Ai.mkRequest llama
    [ Ai.mkMessage "system"
        "You are a helpful product management assistant that summarizes customer feedback concisely and actionably.";
      Ai.mkMessage "user" (summary_prompt theme combinedFeedback) ]
    300.

Definition no_feedback : JsValue :=
  JObj [("summary", JStr "No feedback to summarize.")].

Definition summary_unavailable (aiError : JsError) : JsValue :=
  JObj [ ("summary",
          JStr "Unable to generate AI summary. Please review the feedback manually.");
         ("error", JStr (message aiError)) ].

(** What follows [await env.AI.run(...)] in [summarizeFeedback]. *)
Definition summary_reply (outcome : Ai.Outcome) : Completion (Response JsValue) :=
  try_catch
    match outcome with
    | Ai.Resolved response => Normal (ok (JObj [("summary", JStr response)]))
    | Ai.Rejected e => Throw e
    end
    (fun aiError => Normal (ok (summary_unavailable aiError))).

(** [summarizeFeedback], from the point where [feedbackTexts] (an array of
    strings, or absent) and [theme] have been read from the request
    body. *)
Definition summarizeFeedback (feedbackTexts : option (list string)) (theme : string)
  : Ai.Handler (Completion (Response JsValue)) :=
  match feedbackTexts with
  | None | Some [] => Ai.Return (Normal (ok no_feedback))
  | Some texts =>
      let combinedFeedback := join separator (firstn 10 texts) in
      Ai.Await (summary_request theme combinedFeedback) (fun outcome =>
        Ai.Return (summary_reply outcome))
  end.

(* ================================================================== *)
(** ** The D1 (SQLite) store *)
(* ================================================================== *)

Module Sql.

(** One row of the [feedback] relation ([schema.sql]).  Columns without
    [NOT NULL] may hold NULL ([None]). *)
Record Row := mkRow {
  id : Z;
  created_at : option string;
  channel : string;
  title : option string;
  content : string;
  author : option string;
  sentiment : option string;
  sentiment_score : option Qc;
  theme : option string;
  urgency : option string;
  value_score : option string;
  analyzed : option Z
}.

(** A bound statement parameter. *)
Inductive Value : Type :=
| VNull
| VInt (n : Z)
| VText (s : string).

(** *** Three-valued logic: [None] is NULL *)

Definition tri := option bool.

Definition text_eq (col : option string) (lit : string) : tri :=
  option_map (fun s => String.eqb s lit) col.

Definition text_ne (col : option string) (lit : string) : tri :=
  option_map (fun s => negb (String.eqb s lit)) col.

Definition text_in (col : option string) (lits : list string) : tri :=
  option_map (fun s => existsb (String.eqb s) lits) col.

Definition int_eq (col : option Z) (n : Z) : tri :=
  option_map (fun z => z =? n) col.

Definition tri_and (a b : tri) : tri :=
  match a, b with
  | Some false, _ | _, Some false => Some false
  | Some true, Some true => Some true
  | _, _ => None
  end.

(** A [WHERE] or [CASE WHEN] condition selects only when it is true. *)
Definition holds (t : tri) : bool :=
  match t with
  | Some true => true
  | _ => false
  end.

(** [CASE WHEN c THEN 1 ELSE 0 END]. *)
Definition case01 (c : tri) : Z := if holds c then 1 else 0.

(** *** Aggregates *)

(** [COUNT( * )]. *)
Definition COUNT {A : Type} (rows : list A) : Z := Z.of_nat (List.length rows).

(** [SUM(x)] over integer values that are never NULL: NULL when there is
    no row. *)
Definition SUM (xs : list Z) : option Z :=
  match xs with
  | [] => None
  | _ => Some (fold_right Z.add 0 xs)
  end.

Fixpoint non_null {A : Type} (xs : list (option A)) : list A :=
  match xs with
  | [] => []
  | Some x :: r => x :: non_null r
  | None :: r => non_null r
  end.

(** [AVG(x)]: the mean of the values that are not NULL, NULL when there
    is none. *)
Definition AVG (xs : list (option Qc)) : option Qc :=
  match non_null xs with
  | [] => None
  | v :: vs =>
      Some (fold_right Qcplus (Q2Qc 0) (v :: vs)
            / Q2Qc (inject_Z (Z.of_nat (List.length (v :: vs)))))%Qc
  end.

(** *** Value order

    NULL sorts before every other value; TEXT compares bytewise (the
    BINARY collation). *)

Definition null_first {A : Type} (cmp : A -> A -> comparison) (a b : option A)
  : comparison :=
  match a, b with
  | None, None => Eq
  | None, Some _ => Lt
  | Some _, None => Gt
  | Some x, Some y => cmp x y
  end.

Definition text_cmp : option string -> option string -> comparison :=
  null_first String.compare.

Definition int_cmp : option Z -> option Z -> comparison :=
  null_first Z.compare.

Definition not_gt (c : comparison) : bool :=
  match c with
  | Gt => false
  | _ => true
  end.

(** *** [GROUP BY], [ORDER BY], [LIMIT] *)

(** The distinct values of a list, in order of first occurrence. *)
Fixpoint distinct {K : Type} (eqb : K -> K -> bool) (ks : list K) : list K :=
  match ks with
  | [] => []
  | k :: r => k :: filter (fun k' => negb (eqb k k')) (distinct eqb r)
  end.

(** [GROUP BY key]: one group per distinct key (NULL keys form one
    group), each with its rows in scan order.  The order in which SQLite
    emits the groups is unspecified; the model emits them by first
    occurrence, and every statement below orders them afterwards. *)
Definition group_by {A K : Type} (eqb : K -> K -> bool) (key : A -> K)
  (rows : list A) : list (K * list A) :=
  map (fun k => (k, filter (fun r => eqb (key r) k) rows))
      (distinct eqb (map key rows)).

Fixpoint insert_by {A : Type} (before : A -> A -> bool) (x : A) (l : list A)
  : list A :=
  match l with
  | [] => [x]
  | y :: r => if before x y then x :: l else y :: insert_by before x r
  end.

(** [ORDER BY]: a sort by the reflexive order [before]; rows that compare
    equal keep their relative order. *)
Fixpoint order_by {A : Type} (before : A -> A -> bool) (l : list A) : list A :=
  match l with
  | [] => []
  | x :: r => insert_by before x (order_by before r)
  end.

(** [LIMIT n]: a negative [n] means no upper bound. *)
Definition LIMIT {A : Type} (n : Z) (l : list A) : list A :=
  if n <? 0 then l else firstn (Z.to_nat n) l.

Definition opt_eqb (a b : option string) : bool :=
  match a, b with
  | None, None => true
  | Some x, Some y => String.eqb x y
  | _, _ => false
  end.

(** The [WHERE analyzed = 1] every aggregate statement carries. *)
Definition is_analyzed (r : Row) : tri := int_eq (analyzed r) 1.

End Sql.

(* ================================================================== *)
(** ** Result rows of the aggregate statements *)
(* ================================================================== *)

(** [stats] of [getOverview]. *)
Module Stats.
Record t := mk {
  total_feedback : Z;
  positive : option Z;
  neutral : option Z;
  negative : option Z;
  critical_count : option Z;
  high_count : option Z;
  avg_sentiment : option Qc
}.
End Stats.

(** A row of [topThemes]. *)
Module ThemeCount.
Record t := mk {
  theme : option string;
  count : Z;
  avg_sentiment : option Qc;
  urgent_count : option Z
}.
End ThemeCount.

(** A row of [channels]. *)
Module ChannelCount.
Record t := mk { channel : string; count : Z }.
End ChannelCount.

(** [topTheme] of [getOverview] (feedback-analyser-2). *)
Module TopTheme.
Record t := mk {
  theme : option string;
  count : Z;
  avg_sentiment : option Qc;
  positive : option Z;
  negative : option Z;
  urgent_count : option Z
}.
End TopTheme.

Module Overview.
Record t := mk {
  stats : Stats.t;
  topThemes : list ThemeCount.t;
  channels : list ChannelCount.t;
  topTheme : option TopTheme.t
}.
End Overview.

(** A row of [getSentimentTrend]. *)
Module TrendDay.
Record t := mk {
  date : option string;
  total : Z;
  avg_sentiment : option Qc;
  positive : option Z;
  negative : option Z
}.
End TrendDay.

(** [stats] of [getThemeDetail] (feedback-analyser-2). *)
Module ThemeStats.
Record t := mk {
  total : Z;
  avg_sentiment : option Qc;
  positive : option Z;
  neutral : option Z;
  negative : option Z;
  critical : option Z;
  high : option Z;
  medium : option Z;
  low : option Z
}.
End ThemeStats.

(** A row of the [trend] of [getThemeDetail] (feedback-analyser-2). *)
Module ThemeDay.
Record t := mk {
  date : option string;
  count : Z;
  avg_sentiment : option Qc;
  positive : option Z;
  neutral : option Z;
  negative : option Z
}.
End ThemeDay.

Module ThemeDetail.
Record t := mk {
  theme : string;
  stats : ThemeStats.t;
  channels : list ChannelCount.t;
  samples : list Sql.Row;
  trend : list ThemeDay.t;
  recentFeedbackTexts : list string
}.
End ThemeDetail.

(** The older worker (feedback-analyser): fewer columns, a shorter
    trend, no texts for the summary. *)
Module V1.

Module ThemeStats.
Record t := mk {
  total : Z;
  avg_sentiment : option Qc;
  positive : option Z;
  neutral : option Z;
  negative : option Z;
  critical : option Z;
  high : option Z
}.
End ThemeStats.

Module ThemeDay.
Record t := mk {
  date : option string;
  count : Z;
  avg_sentiment : option Qc
}.
End ThemeDay.

Module ThemeDetail.
Record t := mk {
  theme : string;
  stats : ThemeStats.t;
  channels : list ChannelCount.t;
  samples : list Sql.Row;
  trend : list ThemeDay.t
}.
End ThemeDetail.

Module Overview.
Record t := mk {
  stats : Stats.t;
  topThemes : list ThemeCount.t;
  channels : list ChannelCount.t
}.
End Overview.

End V1.

(** A JSON body that is either [{ error }] or the data. *)
Inductive Body (A : Type) : Type :=
| ErrorBody (error : string)
| DataBody (data : A).
Arguments ErrorBody {A} error.
Arguments DataBody {A} data.

(* ================================================================== *)
(** ** Aggregation: [getOverview] *)
(* ================================================================== *)

Import Sql.

(** [SUM(CASE WHEN c THEN 1 ELSE 0 END)]. *)
Definition sum_case (c : Row -> tri) (rows : list Row) : option Z :=
  SUM (map (fun r => case01 (c r)) rows).

Definition avg_score (rows : list Row) : option Qc :=
  AVG (map sentiment_score rows).

Definition has_sentiment (s : string) (r : Row) : tri := text_eq (sentiment r) s.
Definition has_urgency (u : string) (r : Row) : tri := text_eq (urgency r) u.
Definition is_urgent (r : Row) : tri := text_in (urgency r) ["critical"; "high"].

(** [FROM feedback WHERE analyzed = 1]. *)
Definition analyzed_rows (db : list Row) : list Row :=
  filter (fun r => holds (is_analyzed r)) db.

(** [FROM feedback WHERE analyzed = 1 AND theme != 'uncategorized']. *)
Definition categorized_rows (db : list Row) : list Row :=
  filter (fun r => holds (tri_and (is_analyzed r) (text_ne (theme r) "uncategorized")))
         db.

Definition overview_stats (db : list Row) : Stats.t :=
  let rows := analyzed_rows db in
  Stats.mk (COUNT rows)
    (sum_case (has_sentiment "positive") rows)
    (sum_case (has_sentiment "neutral") rows)
    (sum_case (has_sentiment "negative") rows)
    (sum_case (has_urgency "critical") rows)
    (sum_case (has_urgency "high") rows)
    (avg_score rows).

(** [ORDER BY urgent_count DESC, count DESC]. *)
Definition urgent_then_count (a b : ThemeCount.t) : bool :=
  match int_cmp (ThemeCount.urgent_count a) (ThemeCount.urgent_count b) with
  | Gt => true
  | Lt => false
  | Eq => not_gt (Z.compare (ThemeCount.count b) (ThemeCount.count a))
  end.

Definition theme_count (g : option string * list Row) : ThemeCount.t :=
  let (k, rows) := g in
  ThemeCount.mk k (COUNT rows) (avg_score rows) (sum_case is_urgent rows).

Definition top_themes (db : list Row) : list ThemeCount.t :=
  LIMIT 5
    (order_by urgent_then_count
       (map theme_count (group_by opt_eqb theme (categorized_rows db)))).

Definition count_desc {A : Type} (count : A -> Z) (a b : A) : bool :=
  not_gt (Z.compare (count b) (count a)).

Definition channel_count (g : string * list Row) : ChannelCount.t :=
  let (k, rows) := g in ChannelCount.mk k (COUNT rows).

(** [SELECT channel, COUNT( * ) FROM feedback GROUP BY channel
    ORDER BY count DESC]: every row, analyzed or not. *)
Definition channel_distribution (db : list Row) : list ChannelCount.t :=
  order_by (count_desc ChannelCount.count)
    (map channel_count (group_by String.eqb channel db)).

Definition top_theme_row (g : option string * list Row) : TopTheme.t :=
  let (k, rows) := g in
  TopTheme.mk k (COUNT rows) (avg_score rows)
    (sum_case (has_sentiment "positive") rows)
    (sum_case (has_sentiment "negative") rows)
    (sum_case is_urgent rows).

(** [.first()] of the most discussed theme. *)
Definition top_theme (db : list Row) : option TopTheme.t :=
  hd_error
    (LIMIT 1
       (order_by (count_desc TopTheme.count)
          (map top_theme_row (group_by opt_eqb theme (categorized_rows db))))).

(** [getOverview] of feedback-analyser-2. *)
Definition getOverview (db : list Row) : Response Overview.t :=
  ok (Overview.mk (overview_stats db) (top_themes db) (channel_distribution db)
        (top_theme db)).

(** [getOverview] of feedback-analyser. *)
Definition getOverview_v1 (db : list Row) : Response V1.Overview.t :=
  ok (V1.Overview.mk (overview_stats db) (top_themes db) (channel_distribution db)).

(* ================================================================== *)
(** ** Aggregation: [getSentimentTrend] and [getThemeDetail] *)
(* ================================================================== *)

(** [ORDER BY date DESC]. *)
Definition date_desc {A : Type} (date : A -> option string) (a b : A) : bool :=
  not_gt (text_cmp (date b) (date a)).

(** [CASE urgency WHEN 'critical' THEN 1 WHEN 'high' THEN 2
    WHEN 'medium' THEN 3 ELSE 4 END]. *)
Definition severity (r : Row) : Z :=
  if holds (has_urgency "critical" r) then 1
  else if holds (has_urgency "high" r) then 2
  else if holds (has_urgency "medium" r) then 3
  else 4.

(** [ORDER BY CASE urgency ... END, created_at DESC]. *)
Definition severity_then_recent (a b : Row) : bool :=
  match Z.compare (severity a) (severity b) with
  | Lt => true
  | Gt => false
  | Eq => not_gt (text_cmp (created_at b) (created_at a))
  end.

Definition created_desc (a b : Row) : bool :=
  not_gt (text_cmp (created_at b) (created_at a)).

(** [FROM feedback WHERE theme = ? AND analyzed = 1], with [theme] bound. *)
Definition theme_rows (theme : string) (db : list Row) : list Row :=
  filter (fun r => holds (tri_and (text_eq (Sql.theme r) theme) (is_analyzed r))) db.

Section Trends.

(** SQLite's [DATE(text)]: the calendar day of a time value, NULL when
    the text is not one. *)
Variable DATE : string -> option string.

(** [DATE(created_at)]. *)
Definition day (r : Row) : option string :=
  match created_at r with
  | Some t => DATE t
  | None => None
  end.

Definition trend_day (g : option string * list Row) : TrendDay.t :=
  let (k, rows) := g in
  TrendDay.mk k (COUNT rows) (avg_score rows)
    (sum_case (has_sentiment "positive") rows)
    (sum_case (has_sentiment "negative") rows).

(** [getSentimentTrend]; the same text in both workers. *)
Definition getSentimentTrend (db : list Row) : Response (list TrendDay.t) :=
  let trend :=
    LIMIT 14
      (order_by (date_desc TrendDay.date)
         (map trend_day (group_by opt_eqb day (analyzed_rows db)))) in
  ok (rev trend).

Definition theme_stats (rows : list Row) : ThemeStats.t :=
  ThemeStats.mk (COUNT rows) (avg_score rows)
    (sum_case (has_sentiment "positive") rows)
    (sum_case (has_sentiment "neutral") rows)
    (sum_case (has_sentiment "negative") rows)
    (sum_case (has_urgency "critical") rows)
    (sum_case (has_urgency "high") rows)
    (sum_case (has_urgency "medium") rows)
    (sum_case (has_urgency "low") rows).

Definition theme_channels (rows : list Row) : list ChannelCount.t :=
  map channel_count (group_by String.eqb channel rows).

Definition theme_samples (rows : list Row) : list Row :=
  LIMIT 10 (order_by severity_then_recent rows).

Definition theme_day (g : option string * list Row) : ThemeDay.t :=
  let (k, rows) := g in
  ThemeDay.mk k (COUNT rows) (avg_score rows)
    (sum_case (has_sentiment "positive") rows)
    (sum_case (has_sentiment "neutral") rows)
    (sum_case (has_sentiment "negative") rows).

(** [getThemeDetail] of feedback-analyser-2; [theme] is
    [url.searchParams.get('theme')]. *)
Definition getThemeDetail (db : list Row) (theme : option string)
  : Response (Body ThemeDetail.t) :=
  match theme with
  | Some (String c rest) =>
      let theme := String c rest in
      let rows := theme_rows theme db in
      let trend :=
        LIMIT 14
          (order_by (date_desc ThemeDay.date)
             (map theme_day (group_by opt_eqb day rows))) in
      let recentForSummary := LIMIT 10 (order_by created_desc rows) in
      ok (DataBody
            (ThemeDetail.mk theme (theme_stats rows) (theme_channels rows)
               (theme_samples rows) (rev trend)
               (map content recentForSummary)))
  | _ => bad_request (ErrorBody "Theme parameter required")
  end.

Definition theme_stats_v1 (rows : list Row) : V1.ThemeStats.t :=
  V1.ThemeStats.mk (COUNT rows) (avg_score rows)
    (sum_case (has_sentiment "positive") rows)
    (sum_case (has_sentiment "neutral") rows)
    (sum_case (has_sentiment "negative") rows)
    (sum_case (has_urgency "critical") rows)
    (sum_case (has_urgency "high") rows).

Definition theme_day_v1 (g : option string * list Row) : V1.ThemeDay.t :=
  let (k, rows) := g in V1.ThemeDay.mk k (COUNT rows) (avg_score rows).

(** [getThemeDetail] of feedback-analyser. *)
Definition getThemeDetail_v1 (db : list Row) (theme : option string)
  : Response (Body V1.ThemeDetail.t) :=
  match theme with
  | Some (String c rest) =>
      let theme := String c rest in
      let rows := theme_rows theme db in
      let trend :=
        LIMIT 7
          (order_by (date_desc V1.ThemeDay.date)
             (map theme_day_v1 (group_by opt_eqb day rows))) in
      ok (DataBody
            (V1.ThemeDetail.mk theme (theme_stats_v1 rows) (theme_channels rows)
               (theme_samples rows) (rev trend)))
  | _ => bad_request (ErrorBody "Theme parameter required")
  end.

End Trends.

(* ================================================================== *)
(** ** Listing: [getFeedback] *)
(* ================================================================== *)

(** The statements [getFeedback] can prepare, as D1 reads them back:
    the fixed head, any number of [AND column = ?] filters, the fixed
    tail. *)
Inductive Column : Type := CSentiment | CTheme | CUrgency | CChannel.

Definition select_head : string := "SELECT * FROM feedback WHERE analyzed = 1".
Definition select_tail : string := " ORDER BY created_at DESC LIMIT ?".

Fixpoint parse_filters (fuel : nat) (s : string) : option (list Column) :=
  match fuel with
  | O => None
  | S f =>
      if String.eqb s select_tail then Some []
      else
        let next (c : Column) (rest : string) := option_map (cons c) (parse_filters f rest) in
        match strip_prefix_opt " AND sentiment = ?" s,
              strip_prefix_opt " AND theme = ?" s,
              strip_prefix_opt " AND urgency = ?" s,
              strip_prefix_opt " AND channel = ?" s with
        | Some rest, _, _, _ => next CSentiment rest
        | _, Some rest, _, _ => next CTheme rest
        | _, _, Some rest, _ => next CUrgency rest
        | _, _, _, Some rest => next CChannel rest
        | None, None, None, None => None
        end
  end.

Definition parse_select (query : string) : option (list Column) :=
  match strip_prefix_opt select_head query with
  | Some rest => parse_filters (S (String.length rest)) rest
  | None => None
  end.

Definition column (c : Column) (r : Row) : option string :=
  match c with
  | CSentiment => sentiment r
  | CTheme => theme r
  | CUrgency => urgency r
  | CChannel => Some (channel r)
  end.

(** [column = ?] on a TEXT column: an integer operand is compared as its
    decimal text. *)
Definition bound_eq (col : option string) (v : Value) : tri :=
  match v with
  | VNull => None
  | VText s => text_eq col s
  | VInt n => text_eq col (DecimalString.NilZero.string_of_int (Z.to_int n))
  end.

Fixpoint where_filters (filters : list (Column * Value)) (r : Row) : tri :=
  match filters with
  | [] => is_analyzed r
  | (c, v) :: rest => tri_and (where_filters rest r) (bound_eq (column c r) v)
  end.

(** The numbers SQLite takes as a [LIMIT]: a bound number must read as a
    64-bit integer strictly between the least and the greatest one; any
    other (such as [1e20]) is a datatype mismatch. *)
Definition limit_in_range (n : Z) : bool :=
  (-9223372036854775808 <? n) && (n <? 9223372036854775807).

(** [env.DB.prepare(query).bind(...params).all()] for those
    statements. *)
Definition d1_all (query : string) (params : list Value) (db : list Row)
  : Completion (list Row) :=
  match parse_select query with
  | None => Throw (mkError "D1_ERROR: syntax error")
  | Some cols =>
      if Nat.eqb (List.length params) (S (List.length cols)) then
        match nth (List.length cols) params VNull with
        | VInt n =>
            if limit_in_range n then
              Normal
                (LIMIT n
                   (order_by created_desc
                      (filter
                         (fun r => holds (where_filters (rev (combine cols params)) r))
                         db)))
            else Throw (mkError "D1_ERROR: datatype mismatch")
        | _ => Throw (mkError "D1_ERROR: datatype mismatch")
        end
      else Throw (mkError "D1_ERROR: Wrong number of parameter bindings")
  end.

(** The search parameters [getFeedback] reads; [None] when absent. *)
Module Params.
Record t := mk {
  sentiment : option string;
  theme : option string;
  urgency : option string;
  channel : option string;
  limit : option string
}.
End Params.

(** [if (v && v !== 'all') { query += clause; params.push(v); }]. *)
Definition add_filter (clause : string) (v : option string)
  (st : string * list Value) : string * list Value :=
  match v with
  | Some s =>
      if truthy v && negb (String.eqb s "all")
      then (fst st ++ clause, (snd st ++ [VText s])%list)
      else st
  | None => st
  end.

Section Listing.

(** The runtime's [parseInt] with one argument: the integer value of the
    number it returns; [None] is [NaN]. *)
Variable parseInt : string -> option Z.

(** [parseInt(url.searchParams.get('limit') || '50')]. *)
Definition requested_limit (p : Params.t) : option Z :=
  parseInt (if truthy (Params.limit p)
            then match Params.limit p with Some s => s | None => "50" end
            else "50").

(** A number handed to [bind]: an integer as such, [NaN] as NULL. *)
Definition bind_number (n : option Z) : Value :=
  match n with
  | Some z => VInt z
  | None => VNull
  end.

(** The statement text and the parameter array [getFeedback] builds. *)
Definition feedback_statement (p : Params.t) : string * list Value :=
  let st := (select_head, []) in
  let st := add_filter " AND sentiment = ?" (Params.sentiment p) st in
  let st := add_filter " AND theme = ?" (Params.theme p) st in
  let st := add_filter " AND urgency = ?" (Params.urgency p) st in
  let st := add_filter " AND channel = ?" (Params.channel p) st in
  (fst st ++ select_tail, (snd st ++ [bind_number (requested_limit p)])%list).

(** [getFeedback]; the same text in both workers. *)
Definition getFeedback (db : list Row) (p : Params.t)
  : Completion (Response (list Row)) :=
  let (query, params) := feedback_statement p in
  match d1_all query params db with
  | Normal results => Normal (ok results)
  | Throw e => Throw e
  end.

End Listing.

(* ================================================================== *)
(** ** Reference behaviour of the remaining builtins

    The handlers' properties are proved for every behaviour of
    [parseInt] and [DATE]; the instances below are what the runtime and
    SQLite compute on ordinary inputs, and serve the examples. *)
(* ================================================================== *)

Definition is_js_ws (c : ascii) : bool :=
  match c with
  | " "%char | "009"%char | "010"%char | "011"%char | "012"%char | "013"%char => true
  | _ => false
  end.

Fixpoint skip_js_ws (s : string) : string :=
  match s with
  | String c r => if is_js_ws c then skip_js_ws r else s
  | EmptyString => s
  end.

Fixpoint take_hex (acc : Z) (n : Z) (s : string) : Z * Z * string :=
  match s with
  | String c r =>
      match hex_of c with
      | Some d => take_hex (16 * acc + d) (n + 1) r
      | None => (acc, n, s)
      end
  | EmptyString => (acc, n, s)
  end.

(** [parseInt(s)]: leading white space (ASCII), a sign, then hexadecimal
    digits after [0x] or decimal digits otherwise; [NaN] without a
    digit. *)
Definition parse_int (s : string) : option Z :=
  let s1 := skip_js_ws s in
  let (neg, s2) :=
    match s1 with
    | String "+" r => (false, r)
    | String "-" r => (true, r)
    | _ => (false, s1)
    end in
  let '(m, n, _) :=
    match s2 with
    | String "0" (String x r) =>
        if Ascii.eqb x "x" || Ascii.eqb x "X" then take_hex 0 0 r
        else take_digits 0 0 s2
    | _ => take_digits 0 0 s2
    end in
  if n =? 0 then None else Some (if neg then - m else m).

Definition is_digit (c : ascii) : bool :=
  match digit_of c with
  | Some _ => true
  | None => false
  end.

(** [DATE(t)] on a time value written [YYYY-MM-DD], alone or followed by
    a time of day (as [datetime('now')] writes it): its first ten
    characters.  Other texts are taken to NULL. *)
Definition iso_day (t : string) : option string :=
  match t with
  | String y1 (String y2 (String y3 (String y4 (String "-"
      (String m1 (String m2 (String "-" (String d1 (String d2 rest))))))))) =>
      if forallb is_digit [y1; y2; y3; y4; m1; m2; d1; d2]
         && match rest with
            | EmptyString => true
            | String c _ => Ascii.eqb c " " || Ascii.eqb c "T"
            end
      then Some (String.substring 0 10 t)
      else None
  | _ => None
  end.

(* ================================================================== *)
(** ** Vocabulary of the statements *)
(* ================================================================== *)

(** The closed domains of the classification fields. *)
Definition sentiments : list string := ["positive"; "neutral"; "negative"].
Definition themes : list string :=
  ["performance"; "pricing"; "documentation"; "developer-experience";
   "reliability"; "feature-request"; "other"].
Definition urgencies : list string := ["low"; "medium"; "high"; "critical"].

(** Property [k] of [v] is a string of [domain]. *)
Definition member (v : JsValue) (k : string) (domain : list string) : Prop :=
  exists s, get_prop v k = Some (JStr s) /\ In s domain.

Definition in_domain (v : JsValue) : Prop :=
  member v "sentiment" sentiments
  /\ member v "theme" themes
  /\ member v "urgency" urgencies.

(** The fixed neutral classification, with a given summary text. *)
Definition is_fixed_neutral (summary : string) (v : JsValue) : Prop :=
  get_prop v "sentiment" = Some (JStr "neutral")
  /\ get_prop v "sentiment_score" = Some (JNum 0 0)
  /\ get_prop v "theme" = Some (JStr "other")
  /\ get_prop v "urgency" = Some (JStr "medium")
  /\ get_prop v "summary" = Some (JStr summary).

(** The property names of the documented classification record. *)
Definition classification_keys : list string :=
  ["sentiment"; "sentiment_score"; "theme"; "urgency"; "summary"].

Definition keys (v : JsValue) : list string :=
  match v with
  | JObj props => map fst props
  | _ => []
  end.

(** The ways the classifier can let [analyzeWithAI] down, each with the
    summary text of the fallback it leads to. *)
Inductive classifier_failure (JSON_parse : string -> Completion JsValue)
  : Ai.Outcome -> string -> Prop :=
| capability_failure (e : JsError) :
    classifier_failure JSON_parse (Ai.Rejected e) "AI analysis unavailable"
| extraction_failure (response : string) :
    match_braces response = None ->
    classifier_failure JSON_parse (Ai.Resolved response) "Unable to parse AI response"
| decode_failure (response json : string) (e : JsError) :
    match_braces response = Some json ->
    JSON_parse json = Throw e ->
    classifier_failure JSON_parse (Ai.Resolved response) "Unable to parse AI response".

(** What [analyzeWithAI] answers, given the capability. *)
Definition classify (JSON_parse : string -> Completion JsValue)
  (ai : Ai.Request -> Ai.Outcome) (content : string)
  : Completion (Response JsValue) :=
  snd (Ai.run ai (analyzeWithAI JSON_parse content)).

(** What [summarizeFeedback] answers, and the requests it sent. *)
Definition summarize (ai : Ai.Request -> Ai.Outcome)
  (feedbackTexts : option (list string)) (theme : string)
  : list Ai.Request * Completion (Response JsValue) :=
  Ai.run ai (summarizeFeedback feedbackTexts theme).

(* ================================================================== *)
(** ** Example inputs *)
(* ================================================================== *)

(** A response that wraps well-formed JSON in prose, with values outside
    every closed domain. *)
Definition off_domain_response : string :=
  requote "Sure! {'sentiment':'angry','sentiment_score':-0.9,'theme':'billing','urgency':'urgent','summary':'Customer is angry about an invoice'} Hope this helps.".

Definition off_domain_analysis : JsValue :=
  JObj [ ("sentiment", JStr "angry");
         ("sentiment_score", JNum (-9) (-1));
         ("theme", JStr "billing");
         ("urgency", JStr "urgent");
         ("summary", JStr "Customer is angry about an invoice") ].

Definition answers (response : string) : Ai.Request -> Ai.Outcome :=
  fun _ => Ai.Resolved response.

Definition fails (msg : string) : Ai.Request -> Ai.Outcome :=
  fun _ => Ai.Rejected (mkError msg).

Definition twelve_texts : list string :=
  ["t1"; "t2"; "t3"; "t4"; "t5"; "t6"; "t7"; "t8"; "t9"; "t10"; "t11"; "t12"].

(** The number of rows a condition selects. *)
Definition tally (c : Row -> tri) (rows : list Row) : Z :=
  fold_right Z.add 0 (map (fun r => case01 (c r)) rows).

(** The row is analyzed: [analyzed = 1]. *)
Definition analyzed_row (r : Row) : Prop := analyzed r = Some 1.

(** The sentiment of the row is one of positive, neutral, negative. *)
Definition sentiment_classified (r : Row) : Prop :=
  exists s, sentiment r = Some s /\ In s sentiments.

Definition sample_row (id : Z) (created_at channel sentiment theme urgency : string)
  (analyzed : Z) : Row :=
  mkRow id (Some created_at) channel None "text" None (Some sentiment)
    (Some (Q2Qc 0)) (Some theme) (Some urgency) (Some "medium") (Some analyzed).

(** A store in which nothing has been analyzed yet. *)
Definition pending_store : list Row :=
  [ sample_row 1 "2024-03-01 09:00:00" "github" "pending" "uncategorized" "low" 0;
    sample_row 2 "2024-03-02 09:00:00" "discord" "pending" "uncategorized" "low" 0 ].

Definition small_store : list Row :=
  [ sample_row 1 "2024-03-01 09:00:00" "github" "negative" "performance" "high" 1;
    sample_row 2 "2024-03-02 09:00:00" "discord" "positive" "pricing" "low" 1;
    sample_row 3 "2024-03-02 10:00:00" "support" "neutral" "pricing" "critical" 1;
    sample_row 4 "2024-03-03 09:00:00" "github" "pending" "uncategorized" "low" 0 ].

(** [a] sorts strictly before [b]; on calendar days written [YYYY-MM-DD]
    this is "earlier than". *)
Definition text_lt (a b : option string) : Prop := text_cmp a b = Lt.

(** The rows of one calendar day. *)
Definition rows_of_day (DATE : string -> option string) (d : option string)
  (rows : list Row) : list Row :=
  filter (fun r => opt_eqb (day DATE r) d) rows.

(** The [n] latest distinct days of the rows, oldest first. *)
Definition recent_days (DATE : string -> option string) (n : nat)
  (rows : list Row) : list (option string) :=
  rev (firstn n
         (order_by (fun a b => not_gt (text_cmp b a))
            (distinct opt_eqb (map (day DATE) rows)))).

(** The [trend] of a theme detail, for a theme that is given. *)
Definition theme_trend (DATE : string -> option string) (db : list Row)
  (theme : string) : list ThemeDay.t :=
  match body (getThemeDetail DATE db (Some theme)) with
  | DataBody detail => ThemeDetail.trend detail
  | ErrorBody _ => []
  end.

Definition theme_trend_v1 (DATE : string -> option string) (db : list Row)
  (theme : string) : list V1.ThemeDay.t :=
  match body (getThemeDetail_v1 DATE db (Some theme)) with
  | DataBody detail => V1.ThemeDetail.trend detail
  | ErrorBody _ => []
  end.

(** Eight days of pricing feedback, one row a day. *)
Definition eight_days : list Row :=
  [ sample_row 1 "2024-03-01 09:00:00" "github" "negative" "pricing" "high" 1;
    sample_row 2 "2024-03-02 09:00:00" "github" "negative" "pricing" "low" 1;
    sample_row 3 "2024-03-03 09:00:00" "github" "neutral" "pricing" "low" 1;
    sample_row 4 "2024-03-04 09:00:00" "forum" "positive" "pricing" "low" 1;
    sample_row 5 "2024-03-05 09:00:00" "forum" "positive" "pricing" "medium" 1;
    sample_row 6 "2024-03-06 09:00:00" "forum" "negative" "pricing" "low" 1;
    sample_row 7 "2024-03-07 09:00:00" "support" "neutral" "pricing" "low" 1;
    sample_row 8 "2024-03-08 09:00:00" "support" "negative" "pricing" "critical" 1 ].

(** The trend keeps the [n] latest days of the rows: a day that is left
    out is older than each of the [n] days kept. *)
Definition covers_latest {B : Type} (DATE : string -> option string)
  (date : B -> option string) (n : nat) (rows : list Row) (trend : list B) : Prop :=
  forall r, In r rows ->
    In (day DATE r) (map date trend)
    \/ (List.length trend = n
        /\ forall b, In b trend -> text_lt (day DATE r) (date b)).

(** The buckets are in strictly ascending order of date. *)
Definition ascending {B : Type} (date : B -> option string) (trend : list B) : Prop :=
  StronglySorted (fun a b => text_lt (date a) (date b)) trend.

(** [a] ranks no lower than [b]: more urgent rows, or as many and at
    least as many rows in all. *)
Definition ranks_no_lower (a b : ThemeCount.t) : Prop :=
  exists ua ub,
    ThemeCount.urgent_count a = Some ua
    /\ ThemeCount.urgent_count b = Some ub
    /\ (ua > ub \/ (ua = ub /\ ThemeCount.count a >= ThemeCount.count b)).

(** [b] stands before [a] in the list. *)
Definition ranks_above {A : Type} (l : list A) (b a : A) : Prop :=
  exists l1 l2 l3, l = (l1 ++ b :: l2 ++ a :: l3)%list.

(** The [topThemes] row of a theme, computed from its analyzed rows. *)
Definition theme_summary (t : string) (db : list Row) : ThemeCount.t :=
  theme_count (Some t, theme_rows t db).

Fixpoint repeat_rows (n : nat) (first_id : Z) (theme urgency : string) : list Row :=
  match n with
  | O => []
  | S k =>
      sample_row first_id "2024-03-01 09:00:00" "github" "negative" theme urgency 1
      :: repeat_rows k (first_id + 1) theme urgency
  end.

(** Theme [pricing]: five rows, one of them urgent; theme [reliability]:
    three rows, two of them urgent. *)
Definition two_themes : list Row :=
  (repeat_rows 4 1 "pricing" "low" ++ repeat_rows 1 5 "pricing" "high"
   ++ repeat_rows 1 6 "reliability" "medium" ++ repeat_rows 1 7 "reliability" "critical"
   ++ repeat_rows 1 8 "reliability" "high")%list.

(** The criterion constrains the listing: it is present, not empty, and
    not the sentinel [all]. *)
Definition is_active (v : option string) : bool :=
  match v with
  | Some s => truthy v && negb (String.eqb s "all")
  | None => false
  end.

Definition value_of (v : option string) : string :=
  match v with
  | Some s => s
  | None => ""
  end.

(** The statement text for a given set of active criteria. *)
Definition statement_text (sentiment theme urgency channel : bool) : string :=
  ((((select_head ++ (if sentiment then " AND sentiment = ?" else ""))
     ++ (if theme then " AND theme = ?" else ""))
    ++ (if urgency then " AND urgency = ?" else ""))
   ++ (if channel then " AND channel = ?" else ""))
  ++ select_tail.

(** The parameter a criterion contributes. *)
Definition bound (v : option string) : list Value :=
  if is_active v then [VText (value_of v)] else [].

(** An active criterion is met by the column. *)
Definition satisfies (v : option string) (col : option string) : Prop :=
  is_active v = true -> col = v.

Definition meets (v : option string) (col : option string) : bool :=
  if is_active v then holds (text_eq col (value_of v)) else true.

(** The rows the listing selects. *)
Definition selected (p : Params.t) (r : Row) : bool :=
  holds (is_analyzed r)
  && meets (Params.sentiment p) (sentiment r)
  && meets (Params.theme p) (theme r)
  && meets (Params.urgency p) (urgency r)
  && meets (Params.channel p) (Some (channel r)).

(** [a] was created no earlier than [b]. *)
Definition no_older (a b : Row) : Prop :=
  not_gt (text_cmp (created_at b) (created_at a)) = true.

Definition with_sentiment (v : option string) (p : Params.t) : Params.t :=
  Params.mk v (Params.theme p) (Params.urgency p) (Params.channel p) (Params.limit p).

Definition with_theme (v : option string) (p : Params.t) : Params.t :=
  Params.mk (Params.sentiment p) v (Params.urgency p) (Params.channel p) (Params.limit p).

Definition with_urgency (v : option string) (p : Params.t) : Params.t :=
  Params.mk (Params.sentiment p) (Params.theme p) v (Params.channel p) (Params.limit p).

Definition with_channel (v : option string) (p : Params.t) : Params.t :=
  Params.mk (Params.sentiment p) (Params.theme p) (Params.urgency p) v (Params.limit p).

(** [?sentiment=positive&theme=all&limit=2]. *)
Definition positive_two : Params.t :=
  Params.mk (Some "positive") (Some "all") None None (Some "2").

(** The columns the statement for a given set of active criteria
    filters on, in order. *)
Definition columns (sentiment theme urgency channel : bool) : list Column :=
  (if sentiment then [CSentiment] else []) ++ (if theme then [CTheme] else [])
  ++ (if urgency then [CUrgency] else []) ++ (if channel then [CChannel] else []).

(** The character occurs in the text. *)
Fixpoint has_char (c : ascii) (s : string) : bool :=
  match s with
  | EmptyString => false
  | String x r => Ascii.eqb x c || has_char c r
  end.

(** The rows of the theme-detail sample example: four urgencies at one
    instant. *)
Definition same_instant : list Row :=
  [ sample_row 1 "2024-03-01 09:00:00" "github" "negative" "pricing" "low" 1;
    sample_row 2 "2024-03-01 09:00:00" "github" "negative" "pricing" "critical" 1;
    sample_row 3 "2024-03-01 09:00:00" "github" "negative" "pricing" "medium" 1;
    sample_row 4 "2024-03-01 09:00:00" "github" "negative" "pricing" "high" 1 ].

Definition wrapped_response : string :=
  requote "Sure! {'sentiment':'positive','sentiment_score':0.7,'theme':'pricing','urgency':'low','summary':'ok'} done".

(* ================================================================== *)
(** ** Aggregation: [getThemes] and [getDistributions] *)
(* ================================================================== *)

(** A row of [getThemes]. *)
Module ThemeRow.
Record t := mk {
  theme : option string;
  total : Z;
  positive : option Z;
  negative : option Z;
  critical : option Z;
  high : option Z;
  avg_sentiment : option Qc
}.
End ThemeRow.

Definition theme_row (g : option string * list Row) : ThemeRow.t :=
  let (k, rows) := g in
  ThemeRow.mk k (COUNT rows)
    (sum_case (has_sentiment "positive") rows)
    (sum_case (has_sentiment "negative") rows)
    (sum_case (has_urgency "critical") rows)
    (sum_case (has_urgency "high") rows)
    (avg_score rows).

(** [getThemes]; the same text in both workers. *)
Definition getThemes (db : list Row) : Response (list ThemeRow.t) :=
  ok (order_by (count_desc ThemeRow.total)
        (map theme_row (group_by opt_eqb theme (categorized_rows db)))).

(** A row of a distribution: the grouped column (named [sentiment],
    [urgency], [value_score] or [theme] in the JSON) and its count. *)
Module Slice.
Record t := mk { key : option string; count : Z }.
End Slice.

Module Distributions.
Record t := mk {
  sentiment : list Slice.t;
  urgency : list Slice.t;
  value : list Slice.t;
  theme : list Slice.t
}.
End Distributions.

Definition slice (g : option string * list Row) : Slice.t :=
  let (k, rows) := g in Slice.mk k (COUNT rows).

(** [SELECT col, COUNT( * ) FROM feedback WHERE analyzed = 1 GROUP BY col]. *)
Definition distribution (col : Row -> option string) (db : list Row) : list Slice.t :=
  map slice (group_by opt_eqb col (analyzed_rows db)).

(** [getDistributions] (feedback-analyser-2). *)
Definition getDistributions (db : list Row) : Response Distributions.t :=
  ok (Distributions.mk
        (distribution sentiment db)
        (distribution urgency db)
        (distribution value_score db)
        (order_by (count_desc Slice.count)
           (map slice (group_by opt_eqb theme (categorized_rows db))))).

(** The sum of a list of counts. *)
Definition total_of (counts : list Z) : Z := fold_right Z.add 0 counts.

(** The urgency of the row is one of low, medium, high, critical. *)
Definition urgency_classified (r : Row) : Prop :=
  exists u, urgency r = Some u /\ In u urgencies.

(** The data of a theme detail, when the answer carries one. *)
Definition theme_detail (DATE : string -> option string) (db : list Row)
  (theme : option string) : option ThemeDetail.t :=
  match body (getThemeDetail DATE db theme) with
  | DataBody detail => Some detail
  | ErrorBody _ => None
  end.

Definition theme_detail_v1 (DATE : string -> option string) (db : list Row)
  (theme : option string) : option V1.ThemeDetail.t :=
  match body (getThemeDetail_v1 DATE db theme) with
  | DataBody detail => Some detail
  | ErrorBody _ => None
  end.

(** [a] may stand before [b] among the samples: it is more severe, or as
    severe and created no earlier. *)
Definition sample_order (a b : Row) : Prop :=
  severity a < severity b \/ (severity a = severity b /\ no_older a b).

Definition empty_theme_stats : ThemeStats.t :=
  ThemeStats.mk 0 None None None None None None None None.

Definition empty_theme_stats_v1 : V1.ThemeStats.t :=
  V1.ThemeStats.mk 0 None None None None None None.

(** A row whose sentiment is the text [ALL]. *)
Definition loud_row : Row :=
  sample_row 9 "2024-03-04 09:00:00" "forum" "ALL" "pricing" "low" 1.

Definition loud_store : list Row := loud_row :: small_store.


(* ================================================================== *)
(** ** The request dispatcher: [fetch] *)
(* ================================================================== *)

Module Http.

(** What the dispatcher reads of a request: its method, the path and the
    decoded search parameters of its URL, and its body text. *)
Record Request := mkRequest {
  method : string;
  pathname : string;
  search : list (string * string);
  text : string
}.

(** The body handed to [new Response]. *)
Inductive Payload : Type :=
| NoBody
| Text (s : string)
| ErrorJson (error : string)
| OverviewJson (o : Overview.t)
| OverviewV1Json (o : V1.Overview.t)
| FeedbackJson (rows : list Row)
| ThemesJson (rows : list ThemeRow.t)
| TrendJson (days : list TrendDay.t)
| ThemeDetailJson (d : ThemeDetail.t)
| ThemeDetailV1Json (d : V1.ThemeDetail.t)
| DistributionsJson (d : Distributions.t)
| ValueJson (v : JsValue).

(** A response: its status, the headers given to the constructor, its
    body. *)
Record Reply := mkReply {
  code : Z;
  headers : list (string * string);
  payload : Payload
}.

End Http.

Import Http.

(** [url.searchParams.get(name)]: the first value of that name. *)
Fixpoint search_get (params : list (string * string)) (name : string) : option string :=
  match params with
  | [] => None
  | (k, v) :: rest => if String.eqb k name then Some v else search_get rest name
  end.

Definition corsHeaders : list (string * string) :=
  [ ("Access-Control-Allow-Origin", "*");
    ("Access-Control-Allow-Methods", "GET, POST, OPTIONS");
    ("Access-Control-Allow-Headers", "Content-Type") ].

(** [{ ...corsHeaders, 'Content-Type': 'application/json' }]. *)
Definition json_headers : list (string * string) :=
  (corsHeaders ++ [("Content-Type", "application/json")])%list.

Definition json_reply {B : Type} (wrap : B -> Payload) (r : Response B) : Reply :=
  mkReply (status r) json_headers (wrap (body r)).

Definition body_payload {A : Type} (wrap : A -> Payload) (b : Body A) : Payload :=
  match b with
  | ErrorBody msg => ErrorJson msg
  | DataBody d => wrap d
  end.

(** The search parameters [getFeedback] reads. *)
Definition params_of (req : Request) : Params.t :=
  Params.mk (search_get (search req) "sentiment") (search_get (search req) "theme")
    (search_get (search req) "urgency") (search_get (search req) "channel")
    (search_get (search req) "limit").

Fixpoint handler_map {A B : Type} (f : A -> B) (h : Ai.Handler A) : Ai.Handler B :=
  match h with
  | Ai.Return a => Ai.Return (f a)
  | Ai.Await req k => Ai.Await req (fun o => handler_map f (k o))
  end.

Definition completion_map {A B : Type} (f : A -> B) (c : Completion A) : Completion B :=
  match c with
  | Normal a => Normal (f a)
  | Throw e => Throw e
  end.

(** The [TypeError]s the runtime raises; the wording is the engine's. *)
Definition cannot_destructure : JsError :=
  mkError "Cannot destructure property of null".
Definition not_a_function : JsError :=
  mkError "feedbackTexts.slice(...).join is not a function".

Section Dispatcher.

Variable JSON_parse : string -> Completion JsValue.
Variable parseInt : string -> option Z.
Variable DATE : string -> option string.

(** The runtime's conversion to a string of a number, an array or an
    object. *)
Variable ToString : JsValue -> string.

(** Whether the number written [m * 10^e] is read as zero. *)
Variable is_zero : Z -> Z -> bool.

(** The page [serveDashboard] returns in feedback-analyser-2. *)
Variable html : string.

(** The page [serveDashboard] returns in feedback-analyser. *)
Variable html_v1 : string.

(** Truthiness of a value read from a JSON body; [None] is
    [undefined]. *)
Definition to_boolean (v : option JsValue) : bool :=
  match v with
  | None | Some JNull => false
  | Some (JBool b) => b
  | Some (JNum m e) => negb (is_zero m e)
  | Some (JStr s) => truthy (Some s)
  | Some (JArr _) | Some (JObj _) => true
  end.

Definition to_string (v : JsValue) : string :=
  match v with
  | JStr s => s
  | JNull => "null"
  | JBool true => "true"
  | JBool false => "false"
  | other => ToString other
  end.

(** A value inside a template literal. *)
Definition template (v : option JsValue) : string :=
  match v with
  | None => "undefined"
  | Some value => to_string value
  end.

(** An element under [Array.prototype.join]. *)
Definition element_text (v : JsValue) : string :=
  match v with
  | JNull => ""
  | other => to_string other
  end.

(** [await request.json()] followed by a destructuring pattern: the
    parsed body, unless it is [null]. *)
Definition request_json (text : string) : Completion JsValue :=
  match JSON_parse text with
  | Normal JNull => Throw cannot_destructure
  | other => other
  end.

(** [analyzeWithAI(env, request, corsHeaders)], body included. *)
Definition analyze_body (text : string)
  : Ai.Handler (Completion (Response JsValue)) :=
  match request_json text with
  | Throw e => Ai.Return (Throw e)
  | Normal parsed =>
      let content := get_prop parsed "content" in
      if negb (to_boolean content) then
        Ai.Return (Normal (bad_request (JObj [("error", JStr "Content required")])))
      else
        Ai.Await (analysis_request (template content)) (fun outcome =>
          Ai.Return (analysis_reply JSON_parse outcome))
  end.

(** [feedbackTexts.length === 0]. *)
Definition length_is_zero (v : option JsValue) : bool :=
  match v with
  | Some (JArr []) => true
  | Some (JStr "") => true
  | Some (JObj props) =>
      match obj_get props "length" with
      | Some (JNum m e) => is_zero m e
      | _ => false
      end
  | _ => false
  end.

(** [summarizeFeedback(env, request, corsHeaders)], body included. *)
Definition summarize_body (text : string)
  : Ai.Handler (Completion (Response JsValue)) :=
  match request_json text with
  | Throw e => Ai.Return (Throw e)
  | Normal parsed =>
      let feedbackTexts := get_prop parsed "feedbackTexts" in
      let theme := get_prop parsed "theme" in
      if negb (to_boolean feedbackTexts) || length_is_zero feedbackTexts then
        Ai.Return (Normal (ok no_feedback))
      else
        match feedbackTexts with
        | Some (JArr items) =>
            let combinedFeedback :=
              join separator (map element_text (firstn 10 items)) in
            Ai.Await (summary_request (template theme) combinedFeedback)
              (fun outcome => Ai.Return (summary_reply outcome))
        | _ => Ai.Return (Throw not_a_function)
        end
  end.

Definition serveDashboard : Reply :=
  mkReply 200 [("Content-Type", "text/html")] (Text html).

(** [serveDashboard] of feedback-analyser: another page, served the same
    way. *)
Definition serveDashboard_v1 : Reply :=
  mkReply 200 [("Content-Type", "text/html")] (Text html_v1).

Definition not_found : Reply := mkReply 404 [] (Text "Not Found").

Definition is_path (req : Request) (path : string) : bool :=
  String.eqb (pathname req) path.

Definition is_post (req : Request) : bool := String.eqb (method req) "POST".

(** The [try] block of [fetch] in feedback-analyser-2. *)
Definition route (db : list Row) (req : Request) : Ai.Handler (Completion Reply) :=
  if is_path req "/" || is_path req "/index.html" then
    Ai.Return (Normal serveDashboard)
  else if is_path req "/api/overview" then
    Ai.Return (Normal (json_reply OverviewJson (getOverview db)))
  else if is_path req "/api/feedback" then
    Ai.Return (completion_map (json_reply FeedbackJson)
                 (getFeedback parseInt db (params_of req)))
  else if is_path req "/api/themes" then
    Ai.Return (Normal (json_reply ThemesJson (getThemes db)))
  else if is_path req "/api/sentiment-trend" then
    Ai.Return (Normal (json_reply TrendJson (getSentimentTrend DATE db)))
  else if is_path req "/api/analyze" && is_post req then
    handler_map (completion_map (json_reply ValueJson)) (analyze_body (text req))
  else if is_path req "/api/theme-detail" then
    Ai.Return (Normal (json_reply (body_payload ThemeDetailJson)
                         (getThemeDetail DATE db (search_get (search req) "theme"))))
  else if is_path req "/api/distributions" then
    Ai.Return (Normal (json_reply DistributionsJson (getDistributions db)))
  else if is_path req "/api/summarize" && is_post req then
    handler_map (completion_map (json_reply ValueJson)) (summarize_body (text req))
  else Ai.Return (Normal not_found).

(** The [try] block of [fetch] in feedback-analyser. *)
Definition route_v1 (db : list Row) (req : Request) : Ai.Handler (Completion Reply) :=
  if is_path req "/" || is_path req "/index.html" then
    Ai.Return (Normal serveDashboard_v1)
  else if is_path req "/api/overview" then
    Ai.Return (Normal (json_reply OverviewV1Json (getOverview_v1 db)))
  else if is_path req "/api/feedback" then
    Ai.Return (completion_map (json_reply FeedbackJson)
                 (getFeedback parseInt db (params_of req)))
  else if is_path req "/api/themes" then
    Ai.Return (Normal (json_reply ThemesJson (getThemes db)))
  else if is_path req "/api/sentiment-trend" then
    Ai.Return (Normal (json_reply TrendJson (getSentimentTrend DATE db)))
  else if is_path req "/api/analyze" && is_post req then
    handler_map (completion_map (json_reply ValueJson)) (analyze_body (text req))
  else if is_path req "/api/theme-detail" then
    Ai.Return (Normal (json_reply (body_payload ThemeDetailV1Json)
                         (getThemeDetail_v1 DATE db (search_get (search req) "theme"))))
  else Ai.Return (Normal not_found).

(** The [catch] of [fetch]. *)
Definition internal_error (c : Completion Reply) : Reply :=
  match c with
  | Normal r => r
  | Throw error => mkReply 500 json_headers (ErrorJson (message error))
  end.

Definition preflight : Reply := mkReply 200 corsHeaders NoBody.

(** [fetch(request, env, ctx)] of feedback-analyser-2. *)
Definition fetch (db : list Row) (req : Request) : Ai.Handler Reply :=
  if String.eqb (method req) "OPTIONS" then Ai.Return preflight
  else handler_map internal_error (route db req).

(** [fetch(request, env, ctx)] of feedback-analyser. *)
Definition fetch_v1 (db : list Row) (req : Request) : Ai.Handler Reply :=
  if String.eqb (method req) "OPTIONS" then Ai.Return preflight
  else handler_map internal_error (route_v1 db req).

End Dispatcher.

(** The request has a route in feedback-analyser-2. *)
Definition routed (req : Request) : bool :=
  existsb (is_path req)
    ["/"; "/index.html"; "/api/overview"; "/api/feedback"; "/api/themes";
     "/api/sentiment-trend"; "/api/theme-detail"; "/api/distributions"]
  || (existsb (is_path req) ["/api/analyze"; "/api/summarize"] && is_post req).

Definition is_page (req : Request) : bool :=
  is_path req "/" || is_path req "/index.html".

(** Example requests. *)
Definition get (path : string) : Request := mkRequest "GET" path [] "".
Definition post (path body : string) : Request := mkRequest "POST" path [] body.

(** A handler's answer, or the dispatcher's 500: JSON headers, and one of
    three statuses. *)
Definition json_answer (reply : Reply) : Prop :=
  headers reply = json_headers
  /\ (code reply = 200 \/ code reply = 400 \/ code reply = 500).

(* ================================================================== *)
(** * Properties of the classification pipeline *)
(* ================================================================== *)

Local Open Scope list_scope.

(** *** The match of [/\{[\s\S]*\}/] *)

Lemma has_char_app (c : ascii) (s t : string) :
  has_char c (s ++ t)%string = has_char c s || has_char c t.
Proof.
  induction s as [|x s IH]; simpl; [reflexivity|].
  rewrite IH, orb_assoc. reflexivity.
Qed.

Lemma after_first_open_some (s r : string) :
  after_first_open s = Some r ->
  exists pre, s = (pre ++ String "{" r)%string /\ has_char "{" pre = false.
Proof.
  revert r. induction s as [|x s IH]; simpl; intros r H; [discriminate|].
  destruct (Ascii.eqb_spec x "{") as [->|Hne].
  - injection H as <-. exists ""%string. split; reflexivity.
  - destruct (IH r H) as (pre & -> & Hpre).
    exists (String x pre). split; [reflexivity|]. simpl.
    rewrite Hpre. destruct (Ascii.eqb_spec x "{"); [contradiction|reflexivity].
Qed.

Lemma after_first_open_none (s : string) :
  after_first_open s = None -> has_char "{" s = false.
Proof.
  induction s as [|x s IH]; simpl; intros H; [reflexivity|].
  destruct (Ascii.eqb x "{"); [discriminate|]. apply IH, H.
Qed.

Lemma upto_last_close_some (s p : string) :
  upto_last_close s = Some p ->
  exists mid post,
    p = (mid ++ "}")%string /\ s = (p ++ post)%string /\ has_char "}" post = false.
Proof.
  revert p. induction s as [|x s IH]; simpl; intros p H; [discriminate|].
  destruct (upto_last_close s) as [q|] eqn:E.
  - injection H as <-. destruct (IH q eq_refl) as (mid & post & -> & -> & Hpost).
    exists (String x mid), post. repeat split. exact Hpost.
  - destruct (Ascii.eqb_spec x "}") as [->|Hne]; [|discriminate].
    injection H as <-. exists ""%string, s. repeat split.
    clear IH. induction s as [|y s IHs]; [reflexivity|].
    simpl in E |- *. destruct (upto_last_close s); [discriminate|].
    destruct (Ascii.eqb y "}"); [discriminate|]. apply IHs. reflexivity.
Qed.

Lemma upto_last_close_none (s : string) :
  upto_last_close s = None -> has_char "}" s = false.
Proof.
  induction s as [|x s IH]; simpl; intros H; [reflexivity|].
  destruct (upto_last_close s); [discriminate|].
  destruct (Ascii.eqb x "}"); [discriminate|]. apply IH. reflexivity.
Qed.

(** A match runs from the first opening brace of the response to its last
    closing brace; there is none exactly when no closing brace follows
    the first opening brace. *)
Lemma match_braces_spec (response : string) :
  match match_braces response with
  | Some m =>
      exists pre mid post,
        response = (pre ++ m ++ post)%string
        /\ m = (String "{" mid ++ "}")%string
        /\ has_char "{" pre = false
        /\ has_char "}" post = false
  | None =>
      has_char "{" response = false
      \/ exists pre rest,
           response = (pre ++ String "{" rest)%string
           /\ has_char "{" pre = false
           /\ has_char "}" rest = false
  end.
Proof.
  unfold match_braces.
  destruct (after_first_open response) as [r|] eqn:Eo.
  - destruct (after_first_open_some _ _ Eo) as (pre & -> & Hpre).
    destruct (upto_last_close r) as [body|] eqn:Ec.
    + destruct (upto_last_close_some _ _ Ec) as (mid & post & -> & -> & Hpost).
      exists pre, mid, post. repeat split; assumption.
    + right. exists pre, r. repeat split; [assumption|].
      apply upto_last_close_none, Ec.
  - left. apply after_first_open_none, Eo.
Qed.

Section ClassificationFacts.

Variable JSON_parse : string -> Completion JsValue.
Variable ai : Ai.Request -> Ai.Outcome.

(** With a content to analyse, the handler asks the capability once and
    answers with what follows the call. *)
Lemma classify_nonempty (content : string) :
  content <> "" ->
  classify JSON_parse ai content
  = analysis_reply JSON_parse (ai (analysis_request content)).
Proof.
  intros Hne. destruct content as [|c rest]; [congruence|].
  reflexivity.
Qed.

Lemma analysis_reply_failure (outcome : Ai.Outcome) (summary : string) :
  classifier_failure JSON_parse outcome summary ->
  (exists e, outcome = Ai.Rejected e
             /\ analysis_reply JSON_parse outcome = Normal (ok (unavailable_fallback e)))
  \/ (exists response, outcome = Ai.Resolved response
             /\ analysis_reply JSON_parse outcome = Normal (ok (parse_fallback response))).
Proof.
  intros Hfail. destruct Hfail as [e | response Hnone | response json e Hsome Hthrow].
  - left. exists e. split; reflexivity.
  - right. exists response. split; [reflexivity|].
    unfold analysis_reply, extract_analysis. rewrite Hnone. reflexivity.
  - right. exists response. split; [reflexivity|].
    unfold analysis_reply, extract_analysis. rewrite Hsome, Hthrow. reflexivity.
Qed.

(** The handler never completes abruptly. *)
Lemma classify_total (content : string) :
  exists r, classify JSON_parse ai content = Normal r.
Proof.
  destruct content as [|c rest].
  - eexists. reflexivity.
  - rewrite classify_nonempty by discriminate.
    unfold analysis_reply, extract_analysis.
    destruct (ai _) as [response | e]; [|eexists; reflexivity].
    destruct (match_braces response) as [json|]; [|eexists; reflexivity].
    destruct (JSON_parse json); eexists; reflexivity.
Qed.

End ClassificationFacts.

Lemma parse_fallback_neutral (response : string) :
  is_fixed_neutral "Unable to parse AI response" (parse_fallback response).
Proof. repeat split. Qed.

Lemma unavailable_fallback_neutral (e : JsError) :
  is_fixed_neutral "AI analysis unavailable" (unavailable_fallback e).
Proof. repeat split. Qed.

Lemma fixed_neutral_in_domain (summary : string) (v : JsValue) :
  is_fixed_neutral summary v -> in_domain v.
Proof.
  intros (Hs & _ & Ht & Hu & _).
  repeat split; eexists; (split; [eassumption|]); simpl; tauto.
Qed.

(** C4. For every content, when the classifier call fails, or its
    response holds no [{...}] substring, or that substring does not
    decode as JSON, [analyzeWithAI] completes normally with status 200
    and the fixed neutral record: sentiment neutral, score 0, theme
    other, urgency medium, and the fixed summary of the failure at
    hand. *)
Theorem analyzeWithAI_fallback :
  forall (JSON_parse : string -> Completion JsValue)
         (ai : Ai.Request -> Ai.Outcome) (content summary : string),
    content <> "" ->
    classifier_failure JSON_parse (ai (analysis_request content)) summary ->
    exists b,
      classify JSON_parse ai content = Normal (mkResponse 200 b)
      /\ is_fixed_neutral summary b.
Proof.
  intros JSON_parse ai content summary Hne Hfail.
  rewrite classify_nonempty by assumption.
  pose proof Hfail as Hsum.
  destruct (analysis_reply_failure JSON_parse _ _ Hfail)
    as [(e & Hout & Hreply) | (response & Hout & Hreply)];
    rewrite Hreply; eexists; (split; [reflexivity|]);
    rewrite Hout in Hsum; inversion Hsum; subst.
  - apply unavailable_fallback_neutral.
  - apply parse_fallback_neutral.
  - apply parse_fallback_neutral.
Qed.

Lemma analyzeWithAI_fallback_witness :
  "slow" <> ""
  /\ classifier_failure json_parse (Ai.Resolved "not json at all")
       "Unable to parse AI response"
  /\ exists b,
       classify json_parse (fun _ => Ai.Resolved "not json at all") "slow"
       = Normal (mkResponse 200 b)
       /\ is_fixed_neutral "Unable to parse AI response" b.
Proof.
  split; [discriminate|].
  split; [apply extraction_failure; reflexivity|].
  apply (analyzeWithAI_fallback json_parse
           (fun _ => Ai.Resolved "not json at all") "slow").
  - discriminate.
  - apply extraction_failure. reflexivity.
Defined.

(** C10. Whenever [analyzeWithAI] takes a fallback path, the record it
    returns has one property beyond the five of the classification
    record: [raw_response], the classifier's whole response text, after
    an extraction or decode failure; [error], the error's message, after
    a failure of the call. *)
Theorem fallback_exposes_classifier_text :
  forall (JSON_parse : string -> Completion JsValue)
         (ai : Ai.Request -> Ai.Outcome) (content summary : string),
    content <> "" ->
    classifier_failure JSON_parse (ai (analysis_request content)) summary ->
    exists b,
      classify JSON_parse ai content = Normal (ok b)
      /\ match ai (analysis_request content) with
         | Ai.Resolved response =>
             keys b = (classification_keys ++ ["raw_response"])%list
             /\ get_prop b "raw_response" = Some (JStr response)
         | Ai.Rejected e =>
             keys b = (classification_keys ++ ["error"])%list
             /\ get_prop b "error" = Some (JStr (message e))
         end.
Proof.
  intros JSON_parse ai content summary Hne Hfail.
  rewrite classify_nonempty by assumption.
  destruct (analysis_reply_failure JSON_parse _ _ Hfail)
    as [(e & Hout & Hreply) | (response & Hout & Hreply)];
    rewrite Hreply, Hout; eexists; (split; [reflexivity|]); split; reflexivity.
Qed.

Lemma fallback_exposes_classifier_text_witness :
  "slow" <> ""
  /\ classifier_failure json_parse (answers "{ not json }" (analysis_request "slow"))
       "Unable to parse AI response"
  /\ exists b,
       classify json_parse (answers "{ not json }") "slow" = Normal (ok b)
       /\ keys b = (classification_keys ++ ["raw_response"])%list
       /\ get_prop b "raw_response" = Some (JStr "{ not json }").
Proof.
  assert (Hfail : classifier_failure json_parse
                    (answers "{ not json }" (analysis_request "slow"))
                    "Unable to parse AI response").
  { eapply decode_failure; reflexivity. }
  split; [discriminate|]. split; [exact Hfail|].
  exact (fallback_exposes_classifier_text json_parse (answers "{ not json }")
           "slow" _ ltac:(discriminate) Hfail).
Defined.

(** C1, as stated, fails: a response whose JSON decodes but names a
    sentiment, a theme and an urgency outside the closed domains is
    returned as it is. *)
Lemma analyzeWithAI_off_domain_counterexample :
  classify json_parse (answers off_domain_response) "The invoice is wrong"
  = Normal (ok off_domain_analysis)
  /\ off_domain_analysis <> parse_fallback off_domain_response
  /\ ~ in_domain off_domain_analysis.
Proof.
  split; [vm_compute; reflexivity|].
  split; [discriminate|].
  intros [(s & Hs & Hin) _].
  vm_compute in Hs. injection Hs as <-.
  simpl in Hin. intuition discriminate.
Qed.

(** C1, amended. For every non-empty content and every response text:
    when the response holds no [{...}] substring, or the substring does
    not decode as JSON, the result is the fixed fallback record, whose
    sentiment, theme and urgency are members of their closed domains;
    when the substring decodes, the decoded value is the result, with no
    check of its sentiment, theme or urgency. *)
Theorem analyzeWithAI_result :
  forall (JSON_parse : string -> Completion JsValue)
         (ai : Ai.Request -> Ai.Outcome) (content response : string),
    content <> "" ->
    ai (analysis_request content) = Ai.Resolved response ->
    match match_braces response with
    | Some json =>
        match JSON_parse json with
        | Normal decoded => classify JSON_parse ai content = Normal (ok decoded)
        | Throw _ =>
            classify JSON_parse ai content = Normal (ok (parse_fallback response))
            /\ in_domain (parse_fallback response)
        end
    | None =>
        classify JSON_parse ai content = Normal (ok (parse_fallback response))
        /\ in_domain (parse_fallback response)
    end.
Proof.
  intros JSON_parse ai content response Hne Hout.
  rewrite classify_nonempty by assumption. rewrite Hout.
  assert (Hdom : in_domain (parse_fallback response)).
  { eapply fixed_neutral_in_domain, parse_fallback_neutral. }
  unfold analysis_reply, extract_analysis.
  destruct (match_braces response) as [json|]; [|split; [reflexivity|exact Hdom]].
  destruct (JSON_parse json); [reflexivity|split; [reflexivity|exact Hdom]].
Qed.

Lemma analyzeWithAI_result_witness :
  "The invoice is wrong" <> ""
  /\ answers off_domain_response (analysis_request "The invoice is wrong")
     = Ai.Resolved off_domain_response
  /\ classify json_parse (answers off_domain_response) "The invoice is wrong"
     = Normal (ok off_domain_analysis).
Proof.
  split; [discriminate|]. split; [reflexivity|].
  exact (analyzeWithAI_result json_parse (answers off_domain_response)
           "The invoice is wrong" off_domain_response
           ltac:(discriminate) eq_refl).
Defined.

(** A response that wraps the expected object in prose yields exactly
    that object's fields. *)
Example classify_wrapped_response :
  classify json_parse (answers wrapped_response) "Great pricing"
  = Normal (ok (JObj [ ("sentiment", JStr "positive");
                       ("sentiment_score", JNum 7 (-1));
                       ("theme", JStr "pricing");
                       ("urgency", JStr "low");
                       ("summary", JStr "ok") ])).
Proof. vm_compute. reflexivity. Qed.

Example classify_not_json :
  classify json_parse (answers "not json at all") "Great pricing"
  = Normal (ok (parse_fallback "not json at all")).
Proof. vm_compute. reflexivity. Qed.

Example classify_empty_content :
  Ai.run (answers wrapped_response) (analyzeWithAI json_parse "")
  = ([], Normal (bad_request (JObj [("error", JStr "Content required")]))).
Proof. reflexivity. Qed.

(* ================================================================== *)
(** * Properties of the summarisation pipeline *)
(* ================================================================== *)

Lemma firstn_idem {A : Type} (n : nat) (l : list A) :
  firstn n (firstn n l) = firstn n l.
Proof. rewrite firstn_firstn, Nat.min_id. reflexivity. Qed.

(** C9. [summarizeFeedback] reads at most the first ten texts: the
    request it sends, and so its answer, are those for the first ten
    alone.  With no texts (an empty array, or none) it answers the fixed
    message and sends nothing to the capability.  When the capability
    fails it answers the fixed unavailable-summary message, with status
    200. *)
Theorem summarizeFeedback_policy :
  forall (ai : Ai.Request -> Ai.Outcome) (texts : list string) (theme : string),
    summarize ai (Some texts) theme = summarize ai (Some (firstn 10 texts)) theme
    /\ summarize ai None theme = ([], Normal (ok no_feedback))
    /\ summarize ai (Some []) theme = ([], Normal (ok no_feedback))
    /\ (texts <> [] ->
        fst (summarize ai (Some texts) theme)
        = [summary_request theme (join separator (firstn 10 texts))])
    /\ (forall e,
          texts <> [] ->
          ai (summary_request theme (join separator (firstn 10 texts)))
          = Ai.Rejected e ->
          snd (summarize ai (Some texts) theme)
          = Normal (mkResponse 200 (summary_unavailable e))).
Proof.
  intros ai texts theme. unfold summarize.
  split; [|split; [reflexivity|split; [reflexivity|split]]].
  - destruct texts as [|t rest]; [reflexivity|].
    assert (Hfirst : firstn 10 (t :: rest) = t :: firstn 9 rest) by reflexivity.
    rewrite Hfirst at 1.
    unfold summarizeFeedback. rewrite <- Hfirst, firstn_idem. reflexivity.
  - intros Hne. destruct texts as [|t rest]; [congruence|].
    unfold summarizeFeedback, Ai.run. reflexivity.
  - intros e Hne Hout. destruct texts as [|t rest]; [congruence|].
    unfold summarizeFeedback, Ai.run. rewrite Hout. reflexivity.
Qed.

Lemma summarizeFeedback_policy_witness :
  twelve_texts <> []
  /\ fails "quota exceeded"
       (summary_request "pricing" (join separator (firstn 10 twelve_texts)))
     = Ai.Rejected (mkError "quota exceeded")
  /\ snd (summarize (fails "quota exceeded") (Some twelve_texts) "pricing")
     = Normal (mkResponse 200 (summary_unavailable (mkError "quota exceeded"))).
Proof.
  split; [discriminate|]. split; [reflexivity|].
  apply (summarizeFeedback_policy (fails "quota exceeded") twelve_texts "pricing").
  - discriminate.
  - reflexivity.
Defined.

(* ================================================================== *)
(** * Properties of the overview counters *)
(* ================================================================== *)

Lemma analyzed_rows_In (db : list Row) (r : Row) :
  In r (analyzed_rows db) <-> In r db /\ analyzed_row r.
Proof.
  unfold analyzed_rows, analyzed_row, is_analyzed, int_eq.
  rewrite filter_In. split; intros [Hin H]; split; try assumption.
  - destruct (analyzed r) as [z|]; simpl in H; [|discriminate].
    destruct (Z.eqb_spec z 1); [subst; reflexivity|discriminate].
  - rewrite H. reflexivity.
Qed.

Lemma sum_case_nonempty (c : Row -> tri) (rows : list Row) :
  rows <> [] -> sum_case c rows = Some (tally c rows).
Proof. destruct rows; [congruence|reflexivity]. Qed.

Lemma COUNT_cons {A : Type} (x : A) (l : list A) : COUNT (x :: l) = 1 + COUNT l.
Proof. unfold COUNT. simpl List.length. lia. Qed.

Lemma COUNT_nonneg {A : Type} (l : list A) : 0 <= COUNT l.
Proof. unfold COUNT. lia. Qed.

Lemma tally_cons (c : Row -> tri) (r : Row) (rows : list Row) :
  tally c (r :: rows) = case01 (c r) + tally c rows.
Proof. reflexivity. Qed.

Lemma sentiment_cases (r : Row) :
  sentiment_classified r ->
  case01 (has_sentiment "positive" r) + case01 (has_sentiment "neutral" r)
  + case01 (has_sentiment "negative" r) = 1.
Proof.
  intros (s & Hs & Hin). unfold has_sentiment. rewrite Hs.
  simpl in Hin. destruct Hin as [<- | [<- | [<- | []]]]; reflexivity.
Qed.

Lemma tally_sentiments (rows : list Row) :
  Forall sentiment_classified rows ->
  tally (has_sentiment "positive") rows + tally (has_sentiment "neutral") rows
  + tally (has_sentiment "negative") rows = COUNT rows.
Proof.
  induction 1 as [|r rows Hr _ IH]; [reflexivity|].
  rewrite !tally_cons, COUNT_cons.
  pose proof (sentiment_cases r Hr). lia.
Qed.

(** C8. For every store with at least one analyzed row, in which every
    analyzed row has a sentiment among positive, neutral and negative,
    the positive, neutral and negative counts of the overview add up to
    its total. *)
Theorem getOverview_counts_sum :
  forall (db : list Row),
    (exists r, In r db /\ analyzed_row r) ->
    (forall r, In r db -> analyzed_row r -> sentiment_classified r) ->
    let stats := Overview.stats (body (getOverview db)) in
    exists p n g,
      Stats.positive stats = Some p
      /\ Stats.neutral stats = Some n
      /\ Stats.negative stats = Some g
      /\ p + n + g = Stats.total_feedback stats
      /\ V1.Overview.stats (body (getOverview_v1 db)) = stats.
Proof.
  intros db (r0 & Hin0 & Han0) Hdom. simpl.
  assert (Hne : analyzed_rows db <> []).
  { intros Hnil.
    assert (Hin : In r0 (analyzed_rows db)) by (apply analyzed_rows_In; tauto).
    rewrite Hnil in Hin. exact Hin. }
  assert (Hall : Forall sentiment_classified (analyzed_rows db)).
  { apply Forall_forall. intros r Hr. apply analyzed_rows_In in Hr.
    apply Hdom; tauto. }
  exists (tally (has_sentiment "positive") (analyzed_rows db)),
         (tally (has_sentiment "neutral") (analyzed_rows db)),
         (tally (has_sentiment "negative") (analyzed_rows db)).
  rewrite !sum_case_nonempty by assumption.
  repeat split. apply tally_sentiments, Hall.
Qed.

Lemma getOverview_counts_sum_witness :
  (exists r, In r small_store /\ analyzed_row r)
  /\ exists p n g,
       Stats.positive (Overview.stats (body (getOverview small_store))) = Some p
       /\ Stats.neutral (Overview.stats (body (getOverview small_store))) = Some n
       /\ Stats.negative (Overview.stats (body (getOverview small_store))) = Some g
       /\ p + n + g
          = Stats.total_feedback (Overview.stats (body (getOverview small_store)))
       /\ V1.Overview.stats (body (getOverview_v1 small_store))
          = Overview.stats (body (getOverview small_store)).
Proof.
  assert (Hex : exists r, In r small_store /\ analyzed_row r).
  { eexists. split; [left; reflexivity|reflexivity]. }
  split; [exact Hex|].
  apply (getOverview_counts_sum small_store Hex).
  intros r Hin Han. unfold small_store in Hin. simpl in Hin.
  destruct Hin as [<- | [<- | [<- | [<- | []]]]];
    try (eexists; split; [reflexivity|simpl; tauto]).
  discriminate Han.
Defined.

(** C2, as stated, fails: with no analyzed row the total is 0 but the
    mean sentiment is NULL, not 0. *)
Lemma overview_mean_null_counterexample :
  Stats.total_feedback (Overview.stats (body (getOverview []))) = 0
  /\ Stats.avg_sentiment (Overview.stats (body (getOverview []))) = None
  /\ Stats.avg_sentiment (Overview.stats (body (getOverview []))) <> Some (Q2Qc 0).
Proof. repeat split. discriminate. Qed.

(** C2, amended. When no row is analyzed, the overview is answered with
    status 200 and a total of 0; its mean sentiment is NULL (JSON
    [null]), and so are its sentiment and urgency counts. *)
Theorem getOverview_empty :
  forall (db : list Row),
    (forall r, In r db -> ~ analyzed_row r) ->
    status (getOverview db) = 200
    /\ Overview.stats (body (getOverview db))
       = Stats.mk 0 None None None None None None
    /\ status (getOverview_v1 db) = 200
    /\ V1.Overview.stats (body (getOverview_v1 db))
       = Stats.mk 0 None None None None None None.
Proof.
  intros db Hnone.
  assert (Hnil : analyzed_rows db = []).
  { destruct (analyzed_rows db) as [|r rows] eqn:E; [reflexivity|].
    assert (Hin : In r (analyzed_rows db)) by (rewrite E; left; reflexivity).
    apply analyzed_rows_In in Hin. destruct Hin as [Hin Han].
    destruct (Hnone r Hin Han). }
  simpl. unfold overview_stats. rewrite Hnil. repeat split.
Qed.

Lemma getOverview_empty_witness :
  (forall r, In r pending_store -> ~ analyzed_row r)
  /\ Overview.stats (body (getOverview pending_store))
     = Stats.mk 0 None None None None None None.
Proof.
  assert (H : forall r, In r pending_store -> ~ analyzed_row r).
  { intros r Hin. unfold pending_store in Hin. simpl in Hin.
    destruct Hin as [<- | [<- | []]]; discriminate. }
  split; [exact H|].
  apply (getOverview_empty pending_store H).
Defined.

(* ================================================================== *)
(** * The store's operators: [ORDER BY], [LIMIT], [GROUP BY] *)
(* ================================================================== *)

Section OrderBy.

Context {A : Type}.
Variable before : A -> A -> bool.

Let R (a b : A) : Prop := before a b = true.

Lemma insert_by_perm (x : A) (l : list A) :
  Permutation (insert_by before x l) (x :: l).
Proof.
  induction l as [|y l IH]; simpl; [reflexivity|].
  destruct (before x y); [reflexivity|].
  rewrite IH. apply perm_swap.
Qed.

Lemma order_by_perm (l : list A) : Permutation (order_by before l) l.
Proof.
  induction l as [|x l IH]; simpl; [reflexivity|].
  rewrite insert_by_perm. constructor. exact IH.
Qed.

Lemma order_by_In (l : list A) (x : A) : In x (order_by before l) <-> In x l.
Proof.
  split; apply Permutation_in; [|symmetry]; apply order_by_perm.
Qed.

Lemma order_by_length (l : list A) : List.length (order_by before l) = List.length l.
Proof. apply Permutation_length, order_by_perm. Qed.

Hypothesis before_total : forall a b, before a b = true \/ before b a = true.
Hypothesis before_trans :
  forall a b c, before a b = true -> before b c = true -> before a c = true.

Lemma insert_by_sorted (x : A) (l : list A) :
  StronglySorted R l -> StronglySorted R (insert_by before x l).
Proof.
  induction 1 as [|y l Hl IH Hy]; simpl.
  - repeat constructor.
  - destruct (before x y) eqn:Hxy.
    + constructor; [constructor; assumption|].
      constructor; [exact Hxy|].
      eapply Forall_impl; [|exact Hy]. intros z Hz. eapply before_trans; eassumption.
    + constructor; [exact IH|].
      assert (Hyx : before y x = true).
      { destruct (before_total x y) as [H|H]; [congruence|exact H]. }
      eapply Permutation_Forall; [symmetry; apply insert_by_perm|].
      constructor; assumption.
Qed.

Lemma order_by_sorted (l : list A) : StronglySorted R (order_by before l).
Proof.
  induction l as [|x l IH]; simpl; [constructor|].
  apply insert_by_sorted, IH.
Qed.

End OrderBy.

Lemma insert_by_ext {A : Type} (f g : A -> A -> bool) (x : A) (l : list A) :
  (forall a b, f a b = g a b) -> insert_by f x l = insert_by g x l.
Proof.
  intros Hfg. induction l as [|y l IH]; simpl; [reflexivity|].
  rewrite Hfg, IH. reflexivity.
Qed.

Lemma order_by_ext {A : Type} (f g : A -> A -> bool) (l : list A) :
  (forall a b, f a b = g a b) -> order_by f l = order_by g l.
Proof.
  intros Hfg. induction l as [|x l IH]; simpl; [reflexivity|].
  rewrite IH. apply insert_by_ext, Hfg.
Qed.

Lemma insert_by_map {A B : Type} (g : A -> B) (before : B -> B -> bool)
  (x : A) (l : list A) :
  insert_by before (g x) (map g l)
  = map g (insert_by (fun a b => before (g a) (g b)) x l).
Proof.
  induction l as [|y l IH]; simpl; [reflexivity|].
  destruct (before (g x) (g y)); simpl; [reflexivity|].
  rewrite IH. reflexivity.
Qed.

(** Sorting images is sorting by the image. *)
Lemma order_by_map {A B : Type} (g : A -> B) (before : B -> B -> bool) (l : list A) :
  order_by before (map g l) = map g (order_by (fun a b => before (g a) (g b)) l).
Proof.
  induction l as [|x l IH]; simpl; [reflexivity|].
  rewrite IH. apply insert_by_map.
Qed.

Section StronglySortedFacts.

Context {A : Type}.
Variable R : A -> A -> Prop.

Lemma StronglySorted_app_inv (l1 l2 : list A) :
  StronglySorted R (l1 ++ l2) ->
  StronglySorted R l1 /\ StronglySorted R l2
  /\ forall x y, In x l1 -> In y l2 -> R x y.
Proof.
  induction l1 as [|a l1 IH]; simpl; intros H.
  - repeat split; [constructor|exact H|intros x y []].
  - inversion H as [|? ? Hs Hall]; subst.
    destruct (IH Hs) as (H1 & H2 & H12).
    rewrite Forall_app in Hall. destruct Hall as [Ha1 Ha2].
    repeat split.
    + constructor; assumption.
    + exact H2.
    + intros x y [<- | Hx] Hy.
      * rewrite Forall_forall in Ha2. apply Ha2, Hy.
      * apply H12; assumption.
Qed.

Lemma StronglySorted_firstn (n : nat) (l : list A) :
  StronglySorted R l -> StronglySorted R (firstn n l).
Proof.
  intros H. rewrite <- (firstn_skipn n l) in H.
  apply StronglySorted_app_inv in H. tauto.
Qed.

Lemma StronglySorted_app (l1 l2 : list A) :
  StronglySorted R l1 -> StronglySorted R l2 ->
  (forall x y, In x l1 -> In y l2 -> R x y) ->
  StronglySorted R (l1 ++ l2).
Proof.
  induction 1 as [|a l1 Hs IH Ha]; simpl; intros H2 H12; [exact H2|].
  constructor.
  - apply IH; [exact H2|]. intros x y Hx Hy. apply H12; [right|]; assumption.
  - rewrite Forall_app. split; [exact Ha|].
    apply Forall_forall. intros y Hy. apply H12; [left; reflexivity|exact Hy].
Qed.

End StronglySortedFacts.

Section StronglySortedMore.

Context {A : Type}.
Variable R : A -> A -> Prop.

Lemma StronglySorted_rev (l : list A) :
  StronglySorted R l -> StronglySorted (fun a b => R b a) (rev l).
Proof.
  induction 1 as [|a l Hs IH Ha]; simpl; [constructor|].
  apply StronglySorted_app.
  - exact IH.
  - repeat constructor.
  - intros x y Hx [<- | []]. rewrite Forall_forall in Ha.
    apply Ha. apply in_rev. exact Hx.
Qed.

Lemma StronglySorted_impl_NoDup (R' : A -> A -> Prop) (l : list A) :
  (forall a b, R a b -> a <> b -> R' a b) ->
  NoDup l -> StronglySorted R l -> StronglySorted R' l.
Proof.
  intros Himp Hnd Hs. induction Hs as [|a l Hs IH Ha]; [constructor|].
  inversion Hnd as [|? ? Hnotin Hnd']; subst.
  constructor; [apply IH, Hnd'|].
  rewrite Forall_forall in *. intros b Hb.
  apply Himp; [apply Ha, Hb|]. intros ->. contradiction.
Qed.

Lemma StronglySorted_map {B : Type} (f : B -> A) (l : list B) :
  StronglySorted (fun a b => R (f a) (f b)) l <-> StronglySorted R (map f l).
Proof.
  induction l as [|x l IH]; simpl; split; intros H;
    try constructor; inversion H; subst.
  - apply IH. assumption.
  - rewrite Forall_map. assumption.
  - apply IH. assumption.
  - rewrite <- Forall_map. assumption.
Qed.

(** Two lists sorted by an irreflexive, transitive order that hold the
    same elements are the same list. *)
Lemma StronglySorted_unique (l1 l2 : list A) :
  (forall a b, R a b -> R b a -> False) ->
  StronglySorted R l1 -> StronglySorted R l2 -> Permutation l1 l2 -> l1 = l2.
Proof.
  intros Hasym H1. revert l2.
  induction H1 as [|a l1 Hs1 IH Ha]; intros l2 H2 Hp.
  - apply Permutation_nil in Hp. subst. reflexivity.
  - destruct l2 as [|b l2].
    { symmetry in Hp. apply Permutation_nil in Hp. discriminate. }
    inversion H2 as [|? ? Hs2 Hb]; subst.
    assert (Hab : a = b).
    { assert (Hin_a : In a (b :: l2)).
      { eapply Permutation_in; [exact Hp|left; reflexivity]. }
      assert (Hin_b : In b (a :: l1)).
      { eapply Permutation_in; [symmetry; exact Hp|left; reflexivity]. }
      destruct Hin_a as [->|Hin_a]; [reflexivity|].
      destruct Hin_b as [->|Hin_b]; [reflexivity|].
      rewrite Forall_forall in Ha, Hb.
      destruct (Hasym a b (Ha b Hin_b) (Hb a Hin_a)). }
    subst b. f_equal. apply IH; [exact Hs2|].
    eapply Permutation_cons_inv. exact Hp.
Qed.

(** Of two distinct members of a sorted list with no [R b a], [a]
    comes first. *)
Lemma StronglySorted_before (l : list A) (a b : A) :
  StronglySorted R l -> In a l -> In b l -> a <> b -> ~ R b a ->
  exists l1 l2 l3, l = l1 ++ a :: l2 ++ b :: l3.
Proof.
  intros Hs Ha Hb Hne Hnot.
  destruct (in_split _ _ Ha) as (l1 & r & ->).
  apply in_app_or in Hb. destruct Hb as [Hb | [Hb | Hb]].
  - exfalso. destruct (in_split _ _ Hb) as (l0 & l2 & ->).
    rewrite <- app_assoc in Hs. simpl in Hs.
    apply StronglySorted_app_inv in Hs. destruct Hs as (_ & Hs & _).
    inversion Hs as [|? ? _ Hall]; subst.
    rewrite Forall_forall in Hall. apply Hnot, Hall.
    apply in_or_app. right. left. reflexivity.
  - congruence.
  - destruct (in_split _ _ Hb) as (l2 & l3 & ->).
    exists l1, l2, l3. reflexivity.
Qed.

End StronglySortedMore.

Lemma In_firstn {A : Type} (n : nat) (l : list A) (x : A) :
  In x (firstn n l) -> In x l.
Proof.
  intros H. rewrite <- (firstn_skipn n l). apply in_or_app. left. exact H.
Qed.

Lemma LIMIT_nat {A : Type} (n : nat) (l : list A) :
  LIMIT (Z.of_nat n) l = firstn n l.
Proof.
  unfold LIMIT. destruct (Z.ltb_spec (Z.of_nat n) 0); [lia|].
  rewrite Nat2Z.id. reflexivity.
Qed.

Lemma LIMIT_length {A : Type} (n : Z) (l : list A) :
  0 <= n -> COUNT (LIMIT n l) <= n.
Proof.
  intros Hn. unfold LIMIT, COUNT. destruct (Z.ltb_spec n 0); [lia|].
  rewrite length_firstn. lia.
Qed.

Lemma LIMIT_In {A : Type} (n : Z) (l : list A) (x : A) :
  In x (LIMIT n l) -> In x l.
Proof.
  unfold LIMIT. destruct (n <? 0); [tauto|]. apply In_firstn.
Qed.

Lemma LIMIT_sorted {A : Type} (R : A -> A -> Prop) (n : Z) (l : list A) :
  StronglySorted R l -> StronglySorted R (LIMIT n l).
Proof.
  unfold LIMIT. destruct (n <? 0); [tauto|]. apply StronglySorted_firstn.
Qed.

(* ================================================================== *)
(** * The order of SQLite values *)
(* ================================================================== *)

Lemma ascii_compare_refl (a : ascii) : Ascii.compare a a = Eq.
Proof. unfold Ascii.compare. apply N.compare_refl. Qed.

Lemma ascii_compare_lt_trans (a b c : ascii) :
  Ascii.compare a b = Lt -> Ascii.compare b c = Lt -> Ascii.compare a c = Lt.
Proof.
  unfold Ascii.compare. rewrite !N.compare_lt_iff. apply N.lt_trans.
Qed.

Lemma string_compare_refl (s : string) : String.compare s s = Eq.
Proof.
  induction s as [|a s IH]; simpl; [reflexivity|].
  rewrite ascii_compare_refl. exact IH.
Qed.

Lemma string_compare_lt_trans (a b c : string) :
  String.compare a b = Lt -> String.compare b c = Lt -> String.compare a c = Lt.
Proof.
  revert b c. induction a as [|x a IH]; intros [|y b] [|z c]; simpl;
    try discriminate; try reflexivity.
  destruct (Ascii.compare x y) eqn:Exy; try discriminate;
    destruct (Ascii.compare y z) eqn:Eyz; try discriminate; intros Hab Hbc.
  - apply Ascii.compare_eq_iff in Exy, Eyz. subst.
    rewrite ascii_compare_refl. eapply IH; eassumption.
  - apply Ascii.compare_eq_iff in Exy. subst. rewrite Eyz. reflexivity.
  - apply Ascii.compare_eq_iff in Eyz. subst. rewrite Exy. reflexivity.
  - rewrite (ascii_compare_lt_trans _ _ _ Exy Eyz). reflexivity.
Qed.

Section NullFirst.

Context {A : Type}.
Variable cmp : A -> A -> comparison.
Hypothesis cmp_refl : forall a, cmp a a = Eq.
Hypothesis cmp_eq : forall a b, cmp a b = Eq -> a = b.
Hypothesis cmp_antisym : forall a b, cmp a b = CompOpp (cmp b a).
Hypothesis cmp_lt_trans : forall a b c, cmp a b = Lt -> cmp b c = Lt -> cmp a c = Lt.

Lemma null_first_refl (a : option A) : null_first cmp a a = Eq.
Proof. destruct a; simpl; auto. Qed.

Lemma null_first_eq (a b : option A) : null_first cmp a b = Eq -> a = b.
Proof.
  destruct a, b; simpl; try discriminate; try reflexivity.
  intros H. f_equal. apply cmp_eq, H.
Qed.

Lemma null_first_antisym (a b : option A) :
  null_first cmp a b = CompOpp (null_first cmp b a).
Proof. destruct a, b; simpl; auto. Qed.

Lemma null_first_lt_trans (a b c : option A) :
  null_first cmp a b = Lt -> null_first cmp b c = Lt -> null_first cmp a c = Lt.
Proof.
  destruct a, b, c; simpl; try discriminate; try reflexivity. apply cmp_lt_trans.
Qed.

(** [a <= b]: [a] does not sort after [b]. *)
Lemma not_gt_total (a b : option A) :
  not_gt (null_first cmp a b) = true \/ not_gt (null_first cmp b a) = true.
Proof.
  rewrite (null_first_antisym a b).
  destruct (null_first cmp b a); simpl; auto.
Qed.

Lemma not_gt_trans (a b c : option A) :
  not_gt (null_first cmp a b) = true -> not_gt (null_first cmp b c) = true ->
  not_gt (null_first cmp a c) = true.
Proof.
  destruct (null_first cmp a b) eqn:Eab; try discriminate;
    destruct (null_first cmp b c) eqn:Ebc; try discriminate; intros _ _.
  - apply null_first_eq in Eab, Ebc. subst. rewrite null_first_refl. reflexivity.
  - apply null_first_eq in Eab. subst. rewrite Ebc. reflexivity.
  - apply null_first_eq in Ebc. subst. rewrite Eab. reflexivity.
  - rewrite (null_first_lt_trans _ _ _ Eab Ebc). reflexivity.
Qed.

Lemma not_gt_strict (a b : option A) :
  not_gt (null_first cmp a b) = true -> a <> b -> null_first cmp a b = Lt.
Proof.
  destruct (null_first cmp a b) eqn:E; try discriminate; intros _ Hne.
  - apply null_first_eq in E. contradiction.
  - reflexivity.
Qed.

Lemma null_first_lt_asym (a b : option A) :
  null_first cmp a b = Lt -> null_first cmp b a = Lt -> False.
Proof.
  intros Hab Hba. rewrite null_first_antisym, Hba in Hab. discriminate.
Qed.

End NullFirst.

Lemma text_le_total (a b : option string) :
  not_gt (text_cmp a b) = true \/ not_gt (text_cmp b a) = true.
Proof. apply not_gt_total, String.compare_antisym. Qed.

Lemma text_le_trans (a b c : option string) :
  not_gt (text_cmp a b) = true -> not_gt (text_cmp b c) = true ->
  not_gt (text_cmp a c) = true.
Proof.
  apply not_gt_trans.
  - apply string_compare_refl.
  - apply String.compare_eq_iff.
  - apply string_compare_lt_trans.
Qed.

Lemma text_le_strict (a b : option string) :
  not_gt (text_cmp a b) = true -> a <> b -> text_lt a b.
Proof. apply not_gt_strict, String.compare_eq_iff. Qed.

Lemma text_lt_asym (a b : option string) : text_lt a b -> text_lt b a -> False.
Proof. apply null_first_lt_asym, String.compare_antisym. Qed.

Lemma opt_eqb_spec (a b : option string) : reflect (a = b) (opt_eqb a b).
Proof.
  destruct a as [x|], b as [y|]; simpl; try (constructor; congruence).
  destruct (String.eqb_spec x y); constructor; congruence.
Qed.

Section Distinct.

Context {K : Type}.
Variable eqb : K -> K -> bool.
Hypothesis eqb_spec : forall a b, reflect (a = b) (eqb a b).

Lemma distinct_In (ks : list K) (k : K) : In k (distinct eqb ks) <-> In k ks.
Proof.
  induction ks as [|x ks IH]; simpl; [tauto|].
  rewrite filter_In, IH.
  destruct (eqb_spec x k) as [->|Hne]; simpl; [tauto|].
  intuition congruence.
Qed.

Lemma distinct_NoDup (ks : list K) : NoDup (distinct eqb ks).
Proof.
  induction ks as [|x ks IH]; simpl; constructor.
  - rewrite filter_In. intros [_ H].
    destruct (eqb_spec x x); [discriminate|congruence].
  - apply NoDup_filter, IH.
Qed.

Lemma distinct_perm (ks ks' : list K) :
  Permutation ks ks' -> Permutation (distinct eqb ks) (distinct eqb ks').
Proof.
  intros Hp. apply NoDup_Permutation; try apply distinct_NoDup.
  intros k. rewrite !distinct_In.
  split; apply Permutation_in; [|symmetry]; exact Hp.
Qed.

End Distinct.

(* ================================================================== *)
(** * Properties of the per-day trends *)
(* ================================================================== *)

Section RecentDays.

Variable DATE : string -> option string.
Variable n : nat.

Let newest_first (a b : option string) : bool := not_gt (text_cmp b a).

Lemma newest_first_sorted (ks : list (option string)) :
  NoDup ks ->
  StronglySorted (fun a b => text_lt b a) (order_by newest_first ks).
Proof.
  intros Hnd.
  apply StronglySorted_impl_NoDup with (R := fun a b => newest_first a b = true).
  - intros a b Hab Hne. apply text_le_strict; [exact Hab|congruence].
  - eapply Permutation_NoDup; [symmetry; apply order_by_perm|exact Hnd].
  - apply order_by_sorted.
    + intros a b. apply text_le_total.
    + intros a b c Hab Hbc. unfold newest_first in *.
      eapply text_le_trans; eassumption.
Qed.

Lemma recent_days_ascending (rows : list Row) :
  StronglySorted text_lt (recent_days DATE n rows).
Proof.
  unfold recent_days.
  apply (StronglySorted_rev (fun a b => text_lt b a)).
  apply StronglySorted_firstn, newest_first_sorted.
  apply distinct_NoDup, opt_eqb_spec.
Qed.

Lemma recent_days_length (rows : list Row) :
  (List.length (recent_days DATE n rows) <= n)%nat.
Proof. unfold recent_days. rewrite length_rev. apply firstn_le_length. Qed.

Lemma recent_days_In (rows : list Row) (d : option string) :
  In d (recent_days DATE n rows) -> exists r, In r rows /\ day DATE r = d.
Proof.
  unfold recent_days. rewrite <- in_rev. intros H.
  apply In_firstn in H.
  apply (proj1 (order_by_In _ _ _)) in H.
  apply (proj1 (distinct_In _ opt_eqb_spec _ _)) in H.
  apply in_map_iff in H. destruct H as (r & Hr & Hin). eauto.
Qed.

(** A day that is left out is older than every day kept, and then [n]
    days are kept. *)
Lemma recent_days_latest (rows : list Row) (r : Row) :
  In r rows ->
  In (day DATE r) (recent_days DATE n rows)
  \/ (List.length (recent_days DATE n rows) = n
      /\ forall d, In d (recent_days DATE n rows) -> text_lt (day DATE r) d).
Proof.
  intros Hin. unfold recent_days.
  set (sorted := order_by _ (distinct opt_eqb (map (day DATE) rows))).
  assert (Hs : StronglySorted (fun a b => text_lt b a) sorted).
  { apply newest_first_sorted, distinct_NoDup, opt_eqb_spec. }
  assert (Hmem : In (day DATE r) sorted).
  { apply (proj2 (order_by_In _ _ _)).
    apply (proj2 (distinct_In _ opt_eqb_spec _ _)). apply in_map, Hin. }
  rewrite <- (firstn_skipn n sorted) in Hmem, Hs.
  apply in_app_or in Hmem. destruct Hmem as [Hfirst | Hrest].
  - left. apply -> in_rev. exact Hfirst.
  - right. split.
    + rewrite length_rev, length_firstn.
      destruct (Nat.le_gt_cases (List.length sorted) n) as [Hle|Hgt]; [|lia].
      rewrite skipn_all2 in Hrest by exact Hle. destruct Hrest.
    + intros d Hd. apply in_rev in Hd.
      apply StronglySorted_app_inv in Hs. destruct Hs as (_ & _ & Hcross).
      apply (Hcross d (day DATE r)); assumption.
Qed.

(** The days kept do not depend on the order in which the store lists
    its rows. *)
Lemma recent_days_perm (rows rows' : list Row) :
  Permutation rows rows' -> recent_days DATE n rows = recent_days DATE n rows'.
Proof.
  intros Hp. unfold recent_days. do 2 f_equal.
  apply (StronglySorted_unique (fun a b => text_lt b a)).
  - intros a b Hab Hba. exact (text_lt_asym _ _ Hab Hba).
  - apply newest_first_sorted, distinct_NoDup, opt_eqb_spec.
  - apply newest_first_sorted, distinct_NoDup, opt_eqb_spec.
  - rewrite !order_by_perm.
    apply distinct_perm; [apply opt_eqb_spec|]. apply Permutation_map, Hp.
Qed.

Context {B : Type}.
Variable mk : option string * list Row -> B.
Variable date : B -> option string.
Hypothesis date_mk : forall g, date (mk g) = fst g.

(** What a trend statement followed by [.reverse()] yields: one bucket
    per recent day, oldest first. *)
Lemma trend_buckets (rows : list Row) :
  rev (LIMIT (Z.of_nat n)
         (order_by (date_desc date) (map mk (group_by opt_eqb (day DATE) rows))))
  = map (fun d => mk (d, rows_of_day DATE d rows)) (recent_days DATE n rows).
Proof.
  rewrite LIMIT_nat. unfold group_by, recent_days.
  rewrite map_map, order_by_map, firstn_map, <- map_rev.
  unfold rows_of_day. do 3 f_equal. apply order_by_ext. intros a b.
  unfold date_desc. rewrite !date_mk. reflexivity.
Qed.

Lemma trend_dates (rows : list Row) :
  map date (map (fun d => mk (d, rows_of_day DATE d rows)) (recent_days DATE n rows))
  = recent_days DATE n rows.
Proof.
  rewrite map_map. rewrite <- (map_id (recent_days DATE n rows)) at 2.
  apply map_ext. intros d. apply date_mk.
Qed.

End RecentDays.

Lemma Permutation_filter {A : Type} (f : A -> bool) (l l' : list A) :
  Permutation l l' -> Permutation (filter f l) (filter f l').
Proof.
  induction 1 as [|x l l' _ IH|x y l|l l' l'' _ IH1 _ IH2]; simpl.
  - constructor.
  - destruct (f x); [constructor|]; exact IH.
  - destruct (f x), (f y); try reflexivity. apply perm_swap.
  - etransitivity; eassumption.
Qed.

Lemma rows_of_day_count (DATE : string -> option string) (d : option string)
  (rows rows' : list Row) :
  Permutation rows rows' ->
  COUNT (rows_of_day DATE d rows) = COUNT (rows_of_day DATE d rows').
Proof.
  intros Hp. unfold COUNT, rows_of_day. f_equal.
  apply Permutation_length, Permutation_filter, Hp.
Qed.

Section TrendFacts.

Variable DATE : string -> option string.
Variable n : nat.
Context {B : Type}.
Variable mk : option string * list Row -> B.
Variable date : B -> option string.
Hypothesis date_mk : forall g, date (mk g) = fst g.

Let trend_of (rows : list Row) : list B :=
  rev (LIMIT (Z.of_nat n)
         (order_by (date_desc date) (map mk (group_by opt_eqb (day DATE) rows)))).

Lemma trend_of_dates (rows : list Row) :
  map date (trend_of rows) = recent_days DATE n rows.
Proof.
  unfold trend_of. rewrite (trend_buckets DATE n mk date date_mk).
  apply trend_dates, date_mk.
Qed.

Lemma trend_of_ascending (rows : list Row) :
  StronglySorted (fun a b => text_lt (date a) (date b)) (trend_of rows).
Proof.
  apply (StronglySorted_map text_lt date).
  rewrite trend_of_dates. apply recent_days_ascending.
Qed.

Lemma trend_of_length (rows : list Row) : (List.length (trend_of rows) <= n)%nat.
Proof.
  rewrite <- (length_map date), trend_of_dates. apply recent_days_length.
Qed.

(** Every bucket aggregates the rows of its day, of which there is at
    least one. *)
Lemma trend_of_bucket (rows : list Row) (b : B) :
  In b (trend_of rows) ->
  rows_of_day DATE (date b) rows <> []
  /\ b = mk (date b, rows_of_day DATE (date b) rows).
Proof.
  unfold trend_of. rewrite (trend_buckets DATE n mk date date_mk).
  intros Hin. apply in_map_iff in Hin. destruct Hin as (d & <- & Hd).
  rewrite date_mk. simpl. split; [|reflexivity].
  apply recent_days_In in Hd. destruct Hd as (r & Hr & Hday).
  intros Hnil.
  assert (Hin : In r (rows_of_day DATE d rows)).
  { apply filter_In. split; [exact Hr|]. rewrite Hday.
    destruct (opt_eqb_spec d d); congruence. }
  rewrite Hnil in Hin. exact Hin.
Qed.

Lemma trend_of_latest (rows : list Row) (r : Row) :
  In r rows ->
  In (day DATE r) (map date (trend_of rows))
  \/ (List.length (trend_of rows) = n
      /\ forall b, In b (trend_of rows) -> text_lt (day DATE r) (date b)).
Proof.
  intros Hin. rewrite <- (length_map date (trend_of rows)), trend_of_dates.
  destruct (recent_days_latest DATE n rows r Hin) as [H | [Hlen Hall]];
    [left; exact H|right].
  split; [exact Hlen|]. intros b Hb. apply Hall.
  rewrite <- trend_of_dates. apply in_map, Hb.
Qed.

Lemma trend_of_perm (rows rows' : list Row) :
  Permutation rows rows' ->
  map date (trend_of rows') = map date (trend_of rows).
Proof.
  intros Hp. rewrite !trend_of_dates. symmetry. apply recent_days_perm, Hp.
Qed.

End TrendFacts.

Lemma analyzed_rows_perm (db db' : list Row) :
  Permutation db db' -> Permutation (analyzed_rows db) (analyzed_rows db').
Proof. apply Permutation_filter. Qed.

Lemma trend_day_date (g : option string * list Row) :
  TrendDay.date (trend_day g) = fst g.
Proof. destruct g. reflexivity. Qed.

Lemma trend_day_total (g : option string * list Row) :
  TrendDay.total (trend_day g) = COUNT (snd g).
Proof. destruct g. reflexivity. Qed.

(** C6. For every store, the sentiment trend lists its buckets in
    strictly ascending order of date and has at most 14 of them; each
    bucket aggregates the analyzed rows of its day; a day of an analyzed
    row that is left out is older than each of the 14 days kept; and the
    dates and totals are the same whatever order the store lists its rows
    in. *)
Theorem getSentimentTrend_recent_ascending :
  forall (DATE : string -> option string) (db : list Row),
    let trend := body (getSentimentTrend DATE db) in
    ascending TrendDay.date trend
    /\ (List.length trend <= 14)%nat
    /\ (forall b, In b trend ->
          rows_of_day DATE (TrendDay.date b) (analyzed_rows db) <> []
          /\ b = trend_day (TrendDay.date b,
                            rows_of_day DATE (TrendDay.date b) (analyzed_rows db)))
    /\ covers_latest DATE TrendDay.date 14 (analyzed_rows db) trend
    /\ (forall db', Permutation db db' ->
          map TrendDay.date (body (getSentimentTrend DATE db'))
          = map TrendDay.date trend
          /\ map TrendDay.total (body (getSentimentTrend DATE db'))
             = map TrendDay.total trend).
Proof.
  intros DATE db. simpl. change 14 with (Z.of_nat 14).
  split; [apply (trend_of_ascending DATE 14 trend_day _ trend_day_date)|].
  split; [apply (trend_of_length DATE 14 trend_day _ trend_day_date)|].
  split; [intros b; apply (trend_of_bucket DATE 14 trend_day _ trend_day_date)|].
  split; [intros r; apply (trend_of_latest DATE 14 trend_day _ trend_day_date)|].
  intros db' Hp. apply analyzed_rows_perm in Hp.
  split; [apply (trend_of_perm DATE 14 trend_day _ trend_day_date _ _ Hp)|].
  rewrite !(trend_buckets DATE 14 trend_day _ trend_day_date).
  rewrite <- (recent_days_perm DATE 14 _ _ Hp), !map_map.
  apply map_ext. intros d.
  rewrite !trend_day_total. simpl. symmetry. apply rows_of_day_count, Hp.
Qed.

Lemma getSentimentTrend_recent_ascending_witness :
  map TrendDay.date (body (getSentimentTrend iso_day (rev eight_days)))
  = map TrendDay.date (body (getSentimentTrend iso_day eight_days))
  /\ map TrendDay.total (body (getSentimentTrend iso_day (rev eight_days)))
     = map TrendDay.total (body (getSentimentTrend iso_day eight_days)).
Proof.
  apply (getSentimentTrend_recent_ascending iso_day eight_days).
  apply Permutation_rev.
Defined.

Lemma theme_day_date (g : option string * list Row) :
  ThemeDay.date (theme_day g) = fst g.
Proof. destruct g. reflexivity. Qed.

Lemma theme_day_v1_date (g : option string * list Row) :
  V1.ThemeDay.date (theme_day_v1 g) = fst g.
Proof. destruct g. reflexivity. Qed.

Lemma theme_trend_eq (DATE : string -> option string) (db : list Row) (theme : string) :
  theme <> "" ->
  theme_trend DATE db theme
  = rev (LIMIT (Z.of_nat 14)
           (order_by (date_desc ThemeDay.date)
              (map theme_day (group_by opt_eqb (day DATE) (theme_rows theme db))))).
Proof. destruct theme; [congruence|reflexivity]. Qed.

Lemma theme_trend_v1_eq (DATE : string -> option string) (db : list Row) (theme : string) :
  theme <> "" ->
  theme_trend_v1 DATE db theme
  = rev (LIMIT (Z.of_nat 7)
           (order_by (date_desc V1.ThemeDay.date)
              (map theme_day_v1 (group_by opt_eqb (day DATE) (theme_rows theme db))))).
Proof. destruct theme; [congruence|reflexivity]. Qed.

(** C3, as stated, fails in the older worker: of eight days of pricing
    feedback its trend keeps seven and leaves the oldest out. *)
Lemma getThemeDetail_v1_trend_counterexample :
  map V1.ThemeDay.date (theme_trend_v1 iso_day eight_days "pricing")
  = [ Some "2024-03-02"; Some "2024-03-03"; Some "2024-03-04"; Some "2024-03-05";
      Some "2024-03-06"; Some "2024-03-07"; Some "2024-03-08" ]
  /\ ~ covers_latest iso_day V1.ThemeDay.date 14 (theme_rows "pricing" eight_days)
        (theme_trend_v1 iso_day eight_days "pricing").
Proof.
  split; [vm_compute; reflexivity|].
  intros Hcov.
  destruct (Hcov (sample_row 1 "2024-03-01 09:00:00" "github" "negative" "pricing"
                    "high" 1)) as [Hin | [Hlen _]].
  - vm_compute. left. reflexivity.
  - vm_compute in Hin. intuition discriminate.
  - vm_compute in Hlen. discriminate.
Qed.

(** C3, amended. For a given theme, the per-day trend of the theme
    detail is in strictly ascending order of date in both workers; it
    keeps the 14 latest days of the theme's analyzed rows in
    feedback-analyser-2 and the 7 latest in feedback-analyser; each
    bucket aggregates the rows of its day. *)
Theorem getThemeDetail_trend :
  forall (DATE : string -> option string) (db : list Row) (theme : string),
    theme <> "" ->
    let rows := theme_rows theme db in
    let trend := theme_trend DATE db theme in
    let trend_v1 := theme_trend_v1 DATE db theme in
    (ascending ThemeDay.date trend
     /\ (List.length trend <= 14)%nat
     /\ covers_latest DATE ThemeDay.date 14 rows trend
     /\ forall b, In b trend ->
          b = theme_day (ThemeDay.date b, rows_of_day DATE (ThemeDay.date b) rows))
    /\ (ascending V1.ThemeDay.date trend_v1
        /\ (List.length trend_v1 <= 7)%nat
        /\ covers_latest DATE V1.ThemeDay.date 7 rows trend_v1
        /\ forall b, In b trend_v1 ->
             b = theme_day_v1 (V1.ThemeDay.date b,
                               rows_of_day DATE (V1.ThemeDay.date b) rows)).
Proof.
  intros DATE db theme Hne. simpl.
  rewrite theme_trend_eq, theme_trend_v1_eq by assumption.
  split.
  - split; [apply (trend_of_ascending DATE 14 theme_day _ theme_day_date)|].
    split; [apply (trend_of_length DATE 14 theme_day _ theme_day_date)|].
    split; [intros r; apply (trend_of_latest DATE 14 theme_day _ theme_day_date)|].
    intros b Hb. apply (trend_of_bucket DATE 14 theme_day _ theme_day_date), Hb.
  - split; [apply (trend_of_ascending DATE 7 theme_day_v1 _ theme_day_v1_date)|].
    split; [apply (trend_of_length DATE 7 theme_day_v1 _ theme_day_v1_date)|].
    split; [intros r; apply (trend_of_latest DATE 7 theme_day_v1 _ theme_day_v1_date)|].
    intros b Hb. apply (trend_of_bucket DATE 7 theme_day_v1 _ theme_day_v1_date), Hb.
Qed.

Lemma getThemeDetail_trend_witness :
  "pricing" <> ""
  /\ ascending ThemeDay.date (theme_trend iso_day eight_days "pricing")
  /\ covers_latest iso_day ThemeDay.date 14 (theme_rows "pricing" eight_days)
       (theme_trend iso_day eight_days "pricing")
  /\ covers_latest iso_day V1.ThemeDay.date 7 (theme_rows "pricing" eight_days)
       (theme_trend_v1 iso_day eight_days "pricing").
Proof.
  assert (Hne : "pricing" <> "") by discriminate.
  pose proof (getThemeDetail_trend iso_day eight_days "pricing" Hne) as H.
  simpl in H. destruct H as ((Hasc & _ & Hcov & _) & (_ & _ & Hcov1 & _)).
  repeat split; assumption.
Defined.

(* ================================================================== *)
(** * Properties of the top themes *)
(* ================================================================== *)

Lemma firstn_sorted_cut {A : Type} (R : A -> A -> Prop) (n : nat) (l : list A) (x : A) :
  StronglySorted R l -> In x l ->
  In x (firstn n l)
  \/ (List.length (firstn n l) = n /\ forall a, In a (firstn n l) -> R a x).
Proof.
  intros Hs Hin. rewrite <- (firstn_skipn n l) in Hs, Hin.
  apply in_app_or in Hin. destruct Hin as [Hfirst | Hrest]; [left; exact Hfirst|].
  right. split.
  - rewrite length_firstn.
    destruct (Nat.le_gt_cases (List.length l) n) as [Hle|Hgt]; [|lia].
    rewrite skipn_all2 in Hrest by exact Hle. destruct Hrest.
  - intros a Ha. apply StronglySorted_app_inv in Hs.
    destruct Hs as (_ & _ & Hcross). apply Hcross; assumption.
Qed.

Ltac order_cases :=
  unfold urgent_then_count, int_cmp, null_first, not_gt;
  repeat match goal with
         | |- context [ThemeCount.urgent_count ?a] =>
             destruct (ThemeCount.urgent_count a)
         end;
  repeat match goal with
         | |- context [Z.compare ?x ?y] => destruct (Z.compare_spec x y)
         end;
  intros; subst; try discriminate; auto; try lia.

Lemma urgent_then_count_total (a b : ThemeCount.t) :
  urgent_then_count a b = true \/ urgent_then_count b a = true.
Proof. order_cases. Qed.

Lemma urgent_then_count_trans (a b c : ThemeCount.t) :
  urgent_then_count a b = true -> urgent_then_count b c = true ->
  urgent_then_count a c = true.
Proof. order_cases. Qed.

Lemma urgent_then_count_ranks (a b : ThemeCount.t) (ua ub : Z) :
  ThemeCount.urgent_count a = Some ua ->
  ThemeCount.urgent_count b = Some ub ->
  urgent_then_count a b = true ->
  ranks_no_lower a b.
Proof.
  intros Ha Hb. unfold urgent_then_count, int_cmp, null_first, not_gt.
  rewrite Ha, Hb. intros H. exists ua, ub.
  split; [exact Ha|]. split; [exact Hb|].
  destruct (Z.compare_spec ua ub); try discriminate; [right|left; lia].
  destruct (Z.compare_spec (ThemeCount.count b) (ThemeCount.count a));
    try discriminate; lia.
Qed.

Lemma filter_filter {A : Type} (f g : A -> bool) (l : list A) :
  filter f (filter g l) = filter (fun x => g x && f x) l.
Proof.
  induction l as [|x l IH]; simpl; [reflexivity|].
  destruct (g x); simpl; [destruct (f x)|]; rewrite IH; reflexivity.
Qed.

(** The group of a categorized theme holds the analyzed rows of that
    theme. *)
Lemma categorized_group (t : string) (db : list Row) :
  t <> "uncategorized" ->
  filter (fun r => opt_eqb (theme r) (Some t)) (categorized_rows db)
  = theme_rows t db.
Proof.
  intros Hne. unfold categorized_rows, theme_rows. rewrite filter_filter.
  apply filter_ext. intros r.
  unfold is_analyzed, int_eq, text_ne, text_eq, tri_and, holds, opt_eqb.
  destruct (theme r) as [s|]; simpl.
  - destruct (String.eqb_spec s t) as [->|Hst].
    + destruct (String.eqb_spec t "uncategorized"); [contradiction|].
      destruct (analyzed r) as [z|]; simpl; [destruct (z =? 1)|]; reflexivity.
    + destruct (analyzed r) as [z|]; simpl; [destruct (z =? 1)|];
        destruct (s =? "uncategorized")%string; reflexivity.
  - destruct (analyzed r) as [z|]; simpl; [destruct (z =? 1)|]; reflexivity.
Qed.

Lemma categorized_theme (db : list Row) (r : Row) :
  In r (categorized_rows db) <->
  In r db /\ analyzed_row r
  /\ exists t, theme r = Some t /\ t <> "uncategorized".
Proof.
  unfold categorized_rows. rewrite filter_In.
  unfold analyzed_row, is_analyzed, int_eq, text_ne, tri_and, holds.
  split.
  - intros [Hin H]. split; [exact Hin|].
    destruct (analyzed r) as [z|], (theme r) as [t|]; simpl in H;
      try discriminate;
      try (destruct (z =? 1); discriminate);
      try (destruct (t =? "uncategorized")%string; discriminate).
    destruct (Z.eqb_spec z 1), (String.eqb_spec t "uncategorized");
      simpl in H; try discriminate.
    subst z. split; [reflexivity|]. exists t. split; [reflexivity|assumption].
  - intros (Hin & Han & t & Ht & Hne). split; [exact Hin|].
    rewrite Han, Ht. simpl.
    destruct (String.eqb_spec t "uncategorized"); [contradiction|reflexivity].
Qed.

Lemma theme_count_theme (g : option string * list Row) :
  ThemeCount.theme (theme_count g) = fst g.
Proof. destruct g. reflexivity. Qed.

(** The rows [topThemes] is cut from: one per categorized theme. *)
Lemma theme_groups (db : list Row) (a : ThemeCount.t) :
  In a (map theme_count (group_by opt_eqb theme (categorized_rows db))) <->
  exists t, t <> "uncategorized" /\ theme_rows t db <> [] /\ a = theme_summary t db.
Proof.
  unfold group_by. rewrite map_map, in_map_iff. split.
  - intros (k & <- & Hk).
    apply (proj1 (distinct_In _ opt_eqb_spec _ _)) in Hk.
    apply in_map_iff in Hk. destruct Hk as (r & <- & Hr).
    pose proof Hr as Hcat. apply categorized_theme in Hcat.
    destruct Hcat as (_ & _ & t & Ht & Hne).
    exists t. rewrite Ht. split; [exact Hne|].
    rewrite (categorized_group t db Hne). split; [|reflexivity].
    rewrite <- (categorized_group t db Hne). intros Hnil.
    assert (Hin : In r (filter (fun r => opt_eqb (theme r) (Some t))
                          (categorized_rows db))).
    { apply filter_In. split; [exact Hr|]. rewrite Ht.
      destruct (opt_eqb_spec (Some t) (Some t)); congruence. }
    rewrite Hnil in Hin. exact Hin.
  - intros (t & Hne & Hrows & ->). exists (Some t).
    rewrite (categorized_group t db Hne). split; [reflexivity|].
    apply (proj2 (distinct_In _ opt_eqb_spec _ _)).
    rewrite <- (categorized_group t db Hne) in Hrows.
    destruct (filter _ (categorized_rows db)) as [|r rest] eqn:E; [congruence|].
    assert (Hin : In r (filter (fun r => opt_eqb (theme r) (Some t))
                          (categorized_rows db))) by (rewrite E; left; reflexivity).
    apply filter_In in Hin. destruct Hin as [Hin Heq].
    destruct (opt_eqb_spec (theme r) (Some t)) as [<-|]; [|discriminate].
    apply in_map, Hin.
Qed.

Lemma theme_groups_NoDup (db : list Row) :
  NoDup (map ThemeCount.theme
           (map theme_count (group_by opt_eqb theme (categorized_rows db)))).
Proof.
  unfold group_by. rewrite !map_map.
  erewrite map_ext; [rewrite map_id; apply distinct_NoDup, opt_eqb_spec|].
  intros k. reflexivity.
Qed.

Lemma theme_summary_urgent (t : string) (db : list Row) :
  theme_rows t db <> [] ->
  ThemeCount.urgent_count (theme_summary t db)
  = Some (tally is_urgent (theme_rows t db)).
Proof. intros Hne. apply sum_case_nonempty, Hne. Qed.

Lemma StronglySorted_weaken {A : Type} (R R' : A -> A -> Prop) (l : list A) :
  (forall a b, In a l -> In b l -> R a b -> R' a b) ->
  StronglySorted R l -> StronglySorted R' l.
Proof.
  intros Himp Hs. induction Hs as [|a l Hs IH Ha]; [constructor|].
  constructor.
  - apply IH. intros x y Hx Hy. apply Himp; right; assumption.
  - rewrite Forall_forall in *. intros b Hb.
    apply Himp; [left; reflexivity|right; exact Hb|apply Ha, Hb].
Qed.

Lemma top_themes_In (db : list Row) (a : ThemeCount.t) :
  In a (top_themes db) ->
  exists t, t <> "uncategorized" /\ theme_rows t db <> [] /\ a = theme_summary t db.
Proof.
  unfold top_themes. intros Hin. apply LIMIT_In in Hin.
  apply (proj1 (order_by_In _ _ _)) in Hin. apply theme_groups, Hin.
Qed.

Lemma top_themes_sorted (db : list Row) :
  StronglySorted ranks_no_lower (top_themes db).
Proof.
  apply StronglySorted_weaken
    with (R := fun a b => urgent_then_count a b = true).
  - intros a b Ha Hb.
    destruct (top_themes_In db a Ha) as (ta & _ & Hra & ->).
    destruct (top_themes_In db b Hb) as (tb & _ & Hrb & ->).
    eapply urgent_then_count_ranks; apply theme_summary_urgent; assumption.
  - unfold top_themes. apply LIMIT_sorted, order_by_sorted.
    + apply urgent_then_count_total.
    + apply urgent_then_count_trans.
Qed.

(** C5. The top themes of the overview are the rows of categorized
    themes (analyzed rows, theme other than uncategorized), each with
    its number of rows and of urgent rows (urgency critical or high); they
    are at most 5, of distinct themes, ordered by urgent count descending
    and then by count descending; a theme that is left out ranks no higher
    than any of the 5 kept; and a theme with count 3 and urgent count 2
    stands before one with count 5 and urgent count 1. *)
Theorem top_themes_ranking :
  forall (db : list Row),
    let top := Overview.topThemes (body (getOverview db)) in
    StronglySorted ranks_no_lower top
    /\ (List.length top <= 5)%nat
    /\ NoDup (map ThemeCount.theme top)
    /\ (forall a, In a top ->
          exists t,
            t <> "uncategorized" /\ theme_rows t db <> []
            /\ ThemeCount.theme a = Some t
            /\ ThemeCount.count a = COUNT (theme_rows t db)
            /\ ThemeCount.urgent_count a = Some (tally is_urgent (theme_rows t db)))
    /\ (forall t, t <> "uncategorized" -> theme_rows t db <> [] ->
          In (theme_summary t db) top
          \/ (List.length top = 5%nat
              /\ forall a, In a top -> ranks_no_lower a (theme_summary t db)))
    /\ (forall a b, In a top -> In b top ->
          ThemeCount.count a = 5 -> ThemeCount.urgent_count a = Some 1 ->
          ThemeCount.count b = 3 -> ThemeCount.urgent_count b = Some 2 ->
          ranks_above top b a)
    /\ V1.Overview.topThemes (body (getOverview_v1 db)) = top.
Proof.
  intros db. simpl.
  split; [apply top_themes_sorted|].
  split.
  { unfold top_themes. change 5 with (Z.of_nat 5). rewrite LIMIT_nat.
    apply firstn_le_length. }
  split.
  { unfold top_themes. change 5 with (Z.of_nat 5). rewrite LIMIT_nat.
    rewrite <- firstn_map.
    assert (Hnd : NoDup (map ThemeCount.theme
                           (order_by urgent_then_count
                              (map theme_count
                                 (group_by opt_eqb theme (categorized_rows db)))))).
    { eapply Permutation_NoDup; [|apply theme_groups_NoDup].
      apply Permutation_map. symmetry. apply order_by_perm. }
    rewrite <- (firstn_skipn 5) in Hnd. apply NoDup_app_remove_r in Hnd.
    exact Hnd. }
  split.
  { intros a Ha. destruct (top_themes_In db a Ha) as (t & Hne & Hrows & ->).
    exists t. repeat split; try assumption.
    apply theme_summary_urgent, Hrows. }
  split.
  { intros t Hne Hrows. unfold top_themes at 1 2 3.
    change 5 with (Z.of_nat 5). rewrite LIMIT_nat.
    assert (Hin : In (theme_summary t db)
                    (order_by urgent_then_count
                       (map theme_count
                          (group_by opt_eqb theme (categorized_rows db))))).
    { apply (proj2 (order_by_In _ _ _)). apply theme_groups. eauto. }
    destruct (firstn_sorted_cut (fun a b => urgent_then_count a b = true) 5 _ _
                (order_by_sorted _ urgent_then_count_total urgent_then_count_trans _)
                Hin) as [H | [Hlen Hall]]; [left; exact H|right].
    split; [exact Hlen|]. intros a Ha.
    assert (Ha' : In a (top_themes db)).
    { unfold top_themes. change 5 with (Z.of_nat 5). rewrite LIMIT_nat. exact Ha. }
    destruct (top_themes_In db a Ha') as (ta & _ & Hra & ->).
    eapply urgent_then_count_ranks; try (apply theme_summary_urgent; assumption).
    apply Hall, Ha. }
  split; [|reflexivity].
  intros a b Ha Hb Hca Hua Hcb Hub.
  apply (StronglySorted_before ranks_no_lower); try assumption.
  - apply top_themes_sorted.
  - intros ->. congruence.
  - intros (ua & ub & Ea & Eb & Hord).
    rewrite Hua in Ea. rewrite Hub in Eb.
    injection Ea as <-. injection Eb as <-. lia.
Qed.

Lemma top_themes_ranking_witness :
  map (fun a => (ThemeCount.theme a, ThemeCount.count a, ThemeCount.urgent_count a))
      (Overview.topThemes (body (getOverview two_themes)))
  = [ (Some "reliability", 3, Some 2); (Some "pricing", 5, Some 1) ]
  /\ ranks_above (Overview.topThemes (body (getOverview two_themes)))
       (theme_summary "reliability" two_themes) (theme_summary "pricing" two_themes).
Proof.
  split; [vm_compute; reflexivity|].
  apply (top_themes_ranking two_themes).
  - right. left. reflexivity.
  - left. reflexivity.
  - reflexivity.
  - reflexivity.
  - reflexivity.
  - reflexivity.
Defined.

(* ================================================================== *)
(** * Properties of the feedback listing *)
(* ================================================================== *)

Lemma string_app_nil_r (s : string) : (s ++ "")%string = s.
Proof. induction s as [|c s IH]; simpl; [reflexivity|]. rewrite IH. reflexivity. Qed.

Lemma add_filter_spec (clause : string) (v : option string) (st : string * list Value) :
  add_filter clause v st
  = ((fst st ++ (if is_active v then clause else ""))%string, snd st ++ bound v).
Proof.
  unfold add_filter, bound, is_active. destruct v as [s|].
  - destruct (truthy (Some s) && negb (s =? "all")%string); [reflexivity|].
    rewrite string_app_nil_r, app_nil_r. destruct st; reflexivity.
  - rewrite string_app_nil_r, app_nil_r. destruct st; reflexivity.
Qed.

(** The text depends on which criteria are active only; their values go
    to the parameter array. *)
Lemma feedback_statement_spec (parseInt : string -> option Z) (p : Params.t) :
  feedback_statement parseInt p
  = (statement_text (is_active (Params.sentiment p)) (is_active (Params.theme p))
       (is_active (Params.urgency p)) (is_active (Params.channel p)),
     bound (Params.sentiment p) ++ bound (Params.theme p)
     ++ bound (Params.urgency p) ++ bound (Params.channel p)
     ++ [bind_number (requested_limit parseInt p)]).
Proof.
  unfold feedback_statement, statement_text. rewrite !add_filter_spec. simpl.
  rewrite <- !app_assoc. reflexivity.
Qed.

Lemma parse_select_text (s t u c : bool) :
  parse_select (statement_text s t u c) = Some (columns s t u c).
Proof. destruct s, t, u, c; vm_compute; reflexivity. Qed.

Lemma holds_tri_and (a b : tri) : holds (tri_and a b) = holds a && holds b.
Proof. destruct a as [[]|], b as [[]|]; reflexivity. Qed.

Lemma meets_satisfies (v col : option string) :
  meets v col = true -> satisfies v col.
Proof.
  unfold meets, satisfies. intros H Hact. rewrite Hact in H.
  destruct v as [s|]; [|discriminate]. simpl in H.
  destruct col as [c|]; [|discriminate]. simpl in H.
  destruct (String.eqb_spec c s); [subst; reflexivity|discriminate].
Qed.

Arguments limit_in_range : simpl never.

(** The rows a listing with limit [n] returns. *)
Lemma getFeedback_rows (parseInt : string -> option Z) (db : list Row)
  (p : Params.t) (n : Z) :
  requested_limit parseInt p = Some n ->
  limit_in_range n = true ->
  getFeedback parseInt db p
  = Normal (ok (LIMIT n (order_by created_desc (filter (selected p) db)))).
Proof.
  intros Hn Hrange. unfold getFeedback. rewrite feedback_statement_spec, Hn.
  unfold d1_all. rewrite parse_select_text.
  unfold bound, selected, meets, columns.
  destruct (is_active (Params.sentiment p)), (is_active (Params.theme p)),
    (is_active (Params.urgency p)), (is_active (Params.channel p));
    simpl; rewrite Hrange; do 4 f_equal; apply filter_ext; intros r;
    rewrite ?holds_tri_and, ?andb_true_r; reflexivity.
Qed.

(** A limit that does not read as a 64-bit integer makes the statement
    fail. *)
Lemma getFeedback_out_of_range (parseInt : string -> option Z) (db : list Row)
  (p : Params.t) (n : Z) :
  requested_limit parseInt p = Some n ->
  limit_in_range n = false ->
  getFeedback parseInt db p = Throw (mkError "D1_ERROR: datatype mismatch").
Proof.
  intros Hn Hrange. unfold getFeedback. rewrite feedback_statement_spec, Hn.
  unfold d1_all. rewrite parse_select_text.
  unfold bound, columns.
  destruct (is_active (Params.sentiment p)), (is_active (Params.theme p)),
    (is_active (Params.urgency p)), (is_active (Params.channel p));
    simpl; rewrite Hrange; reflexivity.
Qed.

Lemma created_desc_total (a b : Row) :
  created_desc a b = true \/ created_desc b a = true.
Proof. apply text_le_total. Qed.

Lemma created_desc_trans (a b c : Row) :
  created_desc a b = true -> created_desc b c = true -> created_desc a c = true.
Proof. unfold created_desc. intros Hab Hbc. eapply text_le_trans; eassumption. Qed.

Lemma selected_In (p : Params.t) (db : list Row) (r : Row) :
  In r (filter (selected p) db) ->
  In r db /\ analyzed_row r
  /\ satisfies (Params.sentiment p) (sentiment r)
  /\ satisfies (Params.theme p) (theme r)
  /\ satisfies (Params.urgency p) (urgency r)
  /\ satisfies (Params.channel p) (Some (channel r)).
Proof.
  rewrite filter_In. unfold selected. rewrite !andb_true_iff.
  intros (Hin & ((((Han & Hs) & Ht) & Hu) & Hc)).
  split; [exact Hin|]. split.
  - apply (analyzed_rows_In db r). unfold analyzed_rows.
    apply filter_In. split; assumption.
  - repeat split; apply meets_satisfies; assumption.
Qed.

(** C7. For every store and every filter assignment: a criterion set to
    [all] gives the same answer as the criterion left out; the statement
    text is fixed by which criteria are active, their values being bound
    parameters; without a [limit] parameter the limit is that of [50];
    when the limit is an integer [n] that reads as a 64-bit integer, the
    listing is answered with rows of the store that are analyzed and meet
    every active criterion, newest first by [created_at], at most [n] of
    them when [n] is not negative; when the limit is an integer outside
    that range the statement fails and no listing is answered. *)
Theorem getFeedback_listing :
  forall (parseInt : string -> option Z) (db : list Row) (p : Params.t),
    getFeedback parseInt db (with_sentiment (Some "all") p)
    = getFeedback parseInt db (with_sentiment None p)
    /\ getFeedback parseInt db (with_theme (Some "all") p)
       = getFeedback parseInt db (with_theme None p)
    /\ getFeedback parseInt db (with_urgency (Some "all") p)
       = getFeedback parseInt db (with_urgency None p)
    /\ getFeedback parseInt db (with_channel (Some "all") p)
       = getFeedback parseInt db (with_channel None p)
    /\ feedback_statement parseInt p
       = (statement_text (is_active (Params.sentiment p))
            (is_active (Params.theme p)) (is_active (Params.urgency p))
            (is_active (Params.channel p)),
          bound (Params.sentiment p) ++ bound (Params.theme p)
          ++ bound (Params.urgency p) ++ bound (Params.channel p)
          ++ [bind_number (requested_limit parseInt p)])
    /\ (Params.limit p = None -> requested_limit parseInt p = parseInt "50")
    /\ (forall n, requested_limit parseInt p = Some n ->
          limit_in_range n = true ->
          exists results,
            getFeedback parseInt db p = Normal (mkResponse 200 results)
            /\ (forall r, In r results ->
                  In r db /\ analyzed_row r
                  /\ satisfies (Params.sentiment p) (sentiment r)
                  /\ satisfies (Params.theme p) (theme r)
                  /\ satisfies (Params.urgency p) (urgency r)
                  /\ satisfies (Params.channel p) (Some (channel r)))
            /\ StronglySorted no_older results
            /\ (0 <= n -> COUNT results <= n))
    /\ (forall n, requested_limit parseInt p = Some n ->
          limit_in_range n = false ->
          exists e, getFeedback parseInt db p = Throw e).
Proof.
  intros parseInt db p.
  split; [reflexivity|]. split; [reflexivity|].
  split; [reflexivity|]. split; [reflexivity|].
  split; [apply feedback_statement_spec|].
  split.
  { intros Hnone. unfold requested_limit. rewrite Hnone. reflexivity. }
  split; [|intros n Hn Hrange; eexists;
           apply (getFeedback_out_of_range parseInt db p n Hn Hrange)].
  intros n Hn Hrange. eexists.
  split; [apply (getFeedback_rows parseInt db p n Hn Hrange)|].
  split; [|split].
  - intros r Hr. apply LIMIT_In in Hr.
    apply (proj1 (order_by_In _ _ _)) in Hr. apply selected_In, Hr.
  - apply LIMIT_sorted.
    apply (order_by_sorted created_desc created_desc_total created_desc_trans).
  - apply LIMIT_length.
Qed.

Lemma getFeedback_listing_witness :
  requested_limit parse_int positive_two = Some 2
  /\ limit_in_range 2 = true
  /\ exists results,
       getFeedback parse_int small_store positive_two
       = Normal (mkResponse 200 results)
       /\ StronglySorted no_older results
       /\ (0 <= 2 -> COUNT results <= 2).
Proof.
  split; [reflexivity|]. split; [reflexivity|].
  destruct (getFeedback_listing parse_int small_store positive_two)
    as (_ & _ & _ & _ & _ & _ & H & _).
  destruct (H 2 eq_refl eq_refl) as (results & Heq & _ & Hsorted & Hcap).
  exists results. repeat split; assumption.
Defined.

(** Samples of a theme detail come most severe first. *)
Example theme_samples_by_severity :
  map urgency (theme_samples (theme_rows "pricing" same_instant))
  = [Some "critical"; Some "high"; Some "medium"; Some "low"].
Proof. vm_compute. reflexivity. Qed.

Example getFeedback_positive_two :
  getFeedback parse_int small_store positive_two
  = Normal (ok [ sample_row 2 "2024-03-02 09:00:00" "discord" "positive" "pricing"
                   "low" 1 ]).
Proof. vm_compute. reflexivity. Qed.

Example getFeedback_default_limit :
  requested_limit parse_int (Params.mk None None None None None) = Some 50
  /\ requested_limit parse_int (Params.mk None None None None (Some "")) = Some 50
  /\ requested_limit parse_int (Params.mk None None None None (Some "10")) = Some 10.
Proof. repeat split. Qed.

(* ================================================================== *)
(** * Grouping partitions the rows *)
(* ================================================================== *)

Lemma total_of_cons (x : Z) (xs : list Z) : total_of (x :: xs) = x + total_of xs.
Proof. reflexivity. Qed.

Arguments total_of : simpl never.
Arguments COUNT : simpl never.

Lemma total_of_map_add {K : Type} (f g : K -> Z) (ks : list K) :
  total_of (map (fun k => f k + g k) ks) = total_of (map f ks) + total_of (map g ks).
Proof.
  induction ks as [|k ks IH]; simpl; [reflexivity|].
  rewrite !total_of_cons, IH. lia.
Qed.

Lemma total_of_perm (xs ys : list Z) :
  Permutation xs ys -> total_of xs = total_of ys.
Proof.
  induction 1 as [| x xs ys _ IH | x y xs | xs ys zs _ IH1 _ IH2];
    rewrite ?total_of_cons; lia.
Qed.

Section GroupBy.

Context {A K : Type}.
Variable eqb : K -> K -> bool.
Hypothesis eqb_spec : forall a b, reflect (a = b) (eqb a b).
Variable key : A -> K.

Lemma indicator_absent (x : K) (ks : list K) :
  ~ In x ks -> total_of (map (fun k => if eqb x k then 1 else 0) ks) = 0.
Proof.
  induction ks as [|k ks IH]; simpl; intros Hnot; [reflexivity|].
  rewrite total_of_cons, IH by tauto.
  destruct (eqb_spec x k) as [->|]; [|reflexivity]. exfalso. tauto.
Qed.

Lemma indicator_once (x : K) (ks : list K) :
  NoDup ks -> In x ks ->
  total_of (map (fun k => if eqb x k then 1 else 0) ks) = 1.
Proof.
  induction 1 as [|k ks Hnotin Hnd IH]; simpl; intros Hin; [destruct Hin|].
  rewrite total_of_cons. destruct (eqb_spec x k) as [->|Hne].
  - rewrite indicator_absent by assumption. reflexivity.
  - rewrite IH; [reflexivity|]. destruct Hin as [<-|Hin]; [congruence|exact Hin].
Qed.

(** The sizes of the groups add up to the number of rows. *)
Lemma filter_sizes (ks : list K) (rows : list A) :
  NoDup ks -> (forall r, In r rows -> In (key r) ks) ->
  total_of (map (fun k => COUNT (filter (fun r => eqb (key r) k) rows)) ks)
  = COUNT rows.
Proof.
  intros Hnd. induction rows as [|r rows IH]; intros Hall.
  - clear Hnd Hall. induction ks as [|k ks IHk]; [reflexivity|].
    cbn [map]. rewrite total_of_cons, IHk. reflexivity.
  - rewrite COUNT_cons, <- IH by (intros x Hx; apply Hall; right; exact Hx).
    rewrite <- (indicator_once (key r) ks Hnd) by (apply Hall; left; reflexivity).
    rewrite <- total_of_map_add. f_equal. apply map_ext. intros k. simpl.
    destruct (eqb (key r) k); [apply COUNT_cons|reflexivity].
Qed.

Lemma group_by_sizes (rows : list A) :
  total_of (map (fun g => COUNT (snd g)) (group_by eqb key rows)) = COUNT rows.
Proof.
  unfold group_by. rewrite map_map. simpl.
  apply filter_sizes.
  - apply distinct_NoDup, eqb_spec.
  - intros r Hr. apply (proj2 (distinct_In _ eqb_spec _ _)). apply in_map, Hr.
Qed.

Lemma group_by_keys (rows : list A) :
  map fst (group_by eqb key rows) = distinct eqb (map key rows).
Proof.
  unfold group_by. rewrite map_map. simpl. apply map_id.
Qed.

Lemma group_by_NoDup (rows : list A) : NoDup (map fst (group_by eqb key rows)).
Proof. rewrite group_by_keys. apply distinct_NoDup, eqb_spec. Qed.

(** A group is the rows of one key that occurs, in scan order. *)
Lemma group_by_In (rows : list A) (g : K * list A) :
  In g (group_by eqb key rows) <->
  (exists r, In r rows /\ key r = fst g)
  /\ snd g = filter (fun r => eqb (key r) (fst g)) rows.
Proof.
  unfold group_by. rewrite in_map_iff. split.
  - intros (k & <- & Hk). simpl. split; [|reflexivity].
    apply (proj1 (distinct_In _ eqb_spec _ _)) in Hk.
    apply in_map_iff in Hk. destruct Hk as (r & Hr & Hin). eauto.
  - intros [(r & Hr & Hkey) Hsnd]. exists (fst g). split.
    + destruct g as [k rs]. simpl in *. subst rs. reflexivity.
    + apply (proj2 (distinct_In _ eqb_spec _ _)). rewrite <- Hkey.
      apply in_map, Hr.
Qed.

Lemma group_by_nonempty (rows : list A) (g : K * list A) :
  In g (group_by eqb key rows) -> 0 < COUNT (snd g).
Proof.
  intros Hg. apply group_by_In in Hg. destruct Hg as [(r & Hr & Hkey) Hsnd].
  assert (Hin : In r (snd g)).
  { rewrite Hsnd. apply filter_In. split; [exact Hr|]. rewrite Hkey.
    destruct (eqb_spec (fst g) (fst g)); congruence. }
  destruct (snd g) as [|x l]; [destruct Hin|]. rewrite COUNT_cons.
  pose proof (COUNT_nonneg l). lia.
Qed.

End GroupBy.

Lemma string_eqb_spec (a b : string) : reflect (a = b) (String.eqb a b).
Proof. apply String.eqb_spec. Qed.

(** The groups of the categorized rows by theme. *)
Lemma categorized_groups (db : list Row) (g : option string * list Row) :
  In g (group_by opt_eqb theme (categorized_rows db)) <->
  exists t, t <> "uncategorized" /\ theme_rows t db <> [] /\ g = (Some t, theme_rows t db).
Proof.
  rewrite (group_by_In opt_eqb opt_eqb_spec). split.
  - intros [(r & Hr & Hkey) Hsnd].
    pose proof Hr as Hcat. apply categorized_theme in Hcat.
    destruct Hcat as (_ & _ & t & Ht & Hne). exists t.
    rewrite Ht in Hkey. rewrite <- Hkey, (categorized_group t db Hne) in Hsnd.
    split; [exact Hne|]. split.
    + rewrite <- (categorized_group t db Hne). intros Hnil.
      assert (Hin : In r (filter (fun r => opt_eqb (theme r) (Some t))
                            (categorized_rows db))).
      { apply filter_In. split; [exact Hr|]. rewrite Ht.
        destruct (opt_eqb_spec (Some t) (Some t)); congruence. }
      rewrite Hnil in Hin. exact Hin.
    + destruct g as [k rs]. simpl in *. congruence.
  - intros (t & Hne & Hrows & ->). simpl.
    rewrite (categorized_group t db Hne). split; [|reflexivity].
    rewrite <- (categorized_group t db Hne) in Hrows.
    destruct (filter _ (categorized_rows db)) as [|r rest] eqn:E; [congruence|].
    assert (Hin : In r (filter (fun r => opt_eqb (theme r) (Some t))
                          (categorized_rows db))) by (rewrite E; left; reflexivity).
    apply filter_In in Hin. destruct Hin as [Hin Heq].
    destruct (opt_eqb_spec (theme r) (Some t)) as [Ht|]; [|discriminate].
    exists r. split; assumption.
Qed.

(* ================================================================== *)
(** * Properties of the theme table and of the distributions *)
(* ================================================================== *)

Section CountDesc.

Context {A : Type}.
Variable count : A -> Z.

Lemma count_desc_ge (a b : A) : count_desc count a b = true <-> count a >= count b.
Proof.
  unfold count_desc, not_gt.
  destruct (Z.compare_spec (count b) (count a)); split; intros; try lia;
    try reflexivity; discriminate.
Qed.

Lemma count_desc_sorted (l : list A) :
  StronglySorted (fun a b => count a >= count b) (order_by (count_desc count) l).
Proof.
  apply StronglySorted_weaken with (R := fun a b => count_desc count a b = true).
  - intros a b _ _. apply count_desc_ge.
  - apply order_by_sorted.
    + intros a b. rewrite !count_desc_ge. lia.
    + intros a b c. rewrite !count_desc_ge. lia.
Qed.

End CountDesc.

Lemma theme_row_theme (g : option string * list Row) :
  ThemeRow.theme (theme_row g) = fst g.
Proof. destruct g. reflexivity. Qed.

Lemma theme_row_total (g : option string * list Row) :
  ThemeRow.total (theme_row g) = COUNT (snd g).
Proof. destruct g. reflexivity. Qed.

Lemma categorized_analyzed (db : list Row) :
  COUNT (categorized_rows db) <= COUNT (analyzed_rows db).
Proof.
  unfold categorized_rows, analyzed_rows, COUNT.
  induction db as [|r db IH]; simpl; [lia|].
  rewrite holds_tri_and. destruct (holds (is_analyzed r)); simpl.
  - destruct (holds (text_ne (theme r) "uncategorized")); simpl; lia.
  - exact IH.
Qed.

Lemma themes_table_In (db : list Row) (row : ThemeRow.t) :
  In row (body (getThemes db)) <->
  exists t, t <> "uncategorized" /\ theme_rows t db <> []
            /\ row = theme_row (Some t, theme_rows t db).
Proof.
  unfold getThemes, ok. cbn [body]. rewrite order_by_In, in_map_iff. split.
  - intros (g & <- & Hg). apply categorized_groups in Hg.
    destruct Hg as (t & Hne & Hrows & ->). eauto.
  - intros (t & Hne & Hrows & ->). exists (Some t, theme_rows t db).
    split; [reflexivity|]. apply categorized_groups. eauto.
Qed.

(** X1. The theme table has one row for each theme, other than
    uncategorized, that has an analyzed row, and no other row; the row
    aggregates the analyzed rows of its theme; the rows come by total,
    largest first. *)
Theorem getThemes_table :
  forall (db : list Row),
    let table := body (getThemes db) in
    StronglySorted (fun a b => ThemeRow.total a >= ThemeRow.total b) table
    /\ NoDup (map ThemeRow.theme table)
    /\ (forall row, In row table <->
          exists t, t <> "uncategorized" /\ theme_rows t db <> []
                    /\ row = theme_row (Some t, theme_rows t db)).
Proof.
  intros db. unfold getThemes, ok. cbn [body].
  split; [apply count_desc_sorted|]. split.
  - eapply Permutation_NoDup.
    + apply Permutation_map. symmetry. apply order_by_perm.
    + rewrite map_map. erewrite map_ext; [apply (group_by_NoDup opt_eqb opt_eqb_spec)|].
      intros g. apply theme_row_theme.
  - intros row. apply (themes_table_In db row).
Qed.

(** X2. The totals of the theme table add up to the number of analyzed
    rows whose theme is neither NULL nor uncategorized, which is at most
    the overview's total. *)
Theorem getThemes_totals :
  forall (db : list Row),
    total_of (map ThemeRow.total (body (getThemes db))) = COUNT (categorized_rows db)
    /\ COUNT (categorized_rows db)
       <= Stats.total_feedback (Overview.stats (body (getOverview db))).
Proof.
  intros db. split; [|apply categorized_analyzed].
  unfold getThemes, ok. cbn [body]. rewrite (total_of_perm _ (map ThemeRow.total
                    (map theme_row (group_by opt_eqb theme (categorized_rows db))))).
  - rewrite map_map. erewrite map_ext; [apply (group_by_sizes opt_eqb opt_eqb_spec)|].
    intros g. apply theme_row_total.
  - apply Permutation_map, order_by_perm.
Qed.

Lemma urgent_cases (r : Row) :
  case01 (is_urgent r)
  = case01 (has_urgency "critical" r) + case01 (has_urgency "high" r).
Proof.
  unfold is_urgent, has_urgency, text_in, text_eq.
  destruct (urgency r) as [u|]; [|reflexivity]. simpl.
  destruct (String.eqb_spec u "critical") as [->|]; [reflexivity|].
  destruct (String.eqb_spec u "high"); reflexivity.
Qed.

Lemma tally_urgent (rows : list Row) :
  tally is_urgent rows
  = tally (has_urgency "critical") rows + tally (has_urgency "high") rows.
Proof.
  induction rows as [|r rows IH]; [reflexivity|].
  rewrite !tally_cons, IH, urgent_cases. lia.
Qed.

(** X3. Every row of the overview's top themes is a row of the theme
    table: same theme, count equal to the table's total, and urgent count
    equal to the table's critical and high counts added. *)
Theorem top_themes_in_table :
  forall (db : list Row) (a : ThemeCount.t),
    In a (Overview.topThemes (body (getOverview db))) ->
    exists row c h,
      In row (body (getThemes db))
      /\ ThemeRow.theme row = ThemeCount.theme a
      /\ ThemeRow.total row = ThemeCount.count a
      /\ ThemeRow.critical row = Some c
      /\ ThemeRow.high row = Some h
      /\ ThemeCount.urgent_count a = Some (c + h).
Proof.
  intros db a Ha. simpl in Ha.
  destruct (top_themes_In db a Ha) as (t & Hne & Hrows & ->).
  exists (theme_row (Some t, theme_rows t db)),
         (tally (has_urgency "critical") (theme_rows t db)),
         (tally (has_urgency "high") (theme_rows t db)).
  split; [apply themes_table_In; eauto|].
  split; [reflexivity|]. split; [reflexivity|].
  split; [apply sum_case_nonempty, Hrows|].
  split; [apply sum_case_nonempty, Hrows|].
  rewrite theme_summary_urgent by assumption. f_equal. apply tally_urgent.
Qed.

Lemma top_themes_in_table_witness :
  exists row c h,
    In row (body (getThemes two_themes))
    /\ ThemeRow.theme row = Some "reliability"
    /\ ThemeRow.total row = 3
    /\ ThemeRow.critical row = Some c
    /\ ThemeRow.high row = Some h
    /\ Some 2 = Some (c + h).
Proof.
  apply (top_themes_in_table two_themes (theme_summary "reliability" two_themes)).
  left. reflexivity.
Defined.

Lemma slice_key (g : option string * list Row) : Slice.key (slice g) = fst g.
Proof. destruct g. reflexivity. Qed.

Lemma slice_count (g : option string * list Row) : Slice.count (slice g) = COUNT (snd g).
Proof. destruct g. reflexivity. Qed.

Lemma distribution_total (col : Row -> option string) (db : list Row) :
  total_of (map Slice.count (distribution col db)) = COUNT (analyzed_rows db).
Proof.
  unfold distribution. rewrite map_map.
  erewrite map_ext; [apply (group_by_sizes opt_eqb opt_eqb_spec)|].
  intros g. apply slice_count.
Qed.

Lemma distribution_NoDup (col : Row -> option string) (db : list Row) :
  NoDup (map Slice.key (distribution col db)).
Proof.
  unfold distribution. rewrite map_map.
  erewrite map_ext; [apply (group_by_NoDup opt_eqb opt_eqb_spec)|].
  intros g. apply slice_key.
Qed.

Lemma distribution_positive (col : Row -> option string) (db : list Row) (s : Slice.t) :
  In s (distribution col db) -> 0 < Slice.count s.
Proof.
  unfold distribution. rewrite in_map_iff. intros (g & <- & Hg).
  rewrite slice_count. eapply (group_by_nonempty opt_eqb opt_eqb_spec), Hg.
Qed.

(** X4. In the distributions, the sentiment counts, the urgency counts
    and the value counts each add up to the overview's total; within
    each, no value of the column occurs twice and every count is
    positive. *)
Theorem getDistributions_totals :
  forall (db : list Row),
    let d := body (getDistributions db) in
    let total := Stats.total_feedback (Overview.stats (body (getOverview db))) in
    total_of (map Slice.count (Distributions.sentiment d)) = total
    /\ total_of (map Slice.count (Distributions.urgency d)) = total
    /\ total_of (map Slice.count (Distributions.value d)) = total
    /\ NoDup (map Slice.key (Distributions.sentiment d))
    /\ NoDup (map Slice.key (Distributions.urgency d))
    /\ NoDup (map Slice.key (Distributions.value d))
    /\ (forall s,
          In s (Distributions.sentiment d ++ Distributions.urgency d
                ++ Distributions.value d) ->
          0 < Slice.count s).
Proof.
  intros db. unfold getDistributions, getOverview, ok. cbn [body].
  cbn [Distributions.sentiment Distributions.urgency Distributions.value
       Overview.stats Stats.total_feedback overview_stats].
  repeat split; try apply distribution_total; try apply distribution_NoDup.
  intros s Hs. rewrite !in_app_iff in Hs.
  destruct Hs as [Hs | [Hs | Hs]]; eapply distribution_positive; eassumption.
Qed.

(** X5. The theme distribution and the theme table list the same themes
    with the same numbers: a theme and count occur in the one exactly when
    a row with that theme and total occurs in the other.  The
    distribution comes by count, largest first. *)
Theorem theme_distribution_matches_table :
  forall (db : list Row),
    let slices := Distributions.theme (body (getDistributions db)) in
    StronglySorted (fun a b => Slice.count a >= Slice.count b) slices
    /\ (forall k n,
          In (Slice.mk k n) slices <->
          exists row, In row (body (getThemes db))
                      /\ ThemeRow.theme row = k /\ ThemeRow.total row = n).
Proof.
  intros db. unfold getDistributions, getThemes, ok. cbn [body Distributions.theme].
  split; [apply count_desc_sorted|].
  intros k n. rewrite order_by_In, in_map_iff. split.
  - intros (g & Hs & Hg). exists (theme_row g). split.
    + apply (proj2 (order_by_In _ _ _)). apply in_map, Hg.
    + destruct g as [k' rows]. simpl in Hs. injection Hs as <- <-.
      split; reflexivity.
  - intros (row & Hrow & <- & <-).
    apply (proj1 (order_by_In _ _ _)) in Hrow. apply in_map_iff in Hrow.
    destruct Hrow as (g & <- & Hg). exists g. split; [|exact Hg].
    destruct g. reflexivity.
Qed.

Lemma channel_count_channel (g : string * list Row) :
  ChannelCount.channel (channel_count g) = fst g.
Proof. destruct g. reflexivity. Qed.

Lemma channel_count_count (g : string * list Row) :
  ChannelCount.count (channel_count g) = COUNT (snd g).
Proof. destruct g. reflexivity. Qed.

(** X6. The channel breakdown of the overview counts every row of the
    store, analyzed or not: its counts add up to the number of rows; each
    channel occurs once, with a positive count; the channels come by
    count, largest first. *)
Theorem overview_channels :
  forall (db : list Row),
    let channels := Overview.channels (body (getOverview db)) in
    total_of (map ChannelCount.count channels) = COUNT db
    /\ NoDup (map ChannelCount.channel channels)
    /\ StronglySorted (fun a b => ChannelCount.count a >= ChannelCount.count b) channels
    /\ (forall c, In c channels ->
          ChannelCount.count c
          = COUNT (filter (fun r => String.eqb (channel r) (ChannelCount.channel c)) db)
          /\ 0 < ChannelCount.count c)
    /\ V1.Overview.channels (body (getOverview_v1 db)) = channels.
Proof.
  intros db. unfold getOverview, getOverview_v1, ok.
  cbn [body Overview.channels V1.Overview.channels]. unfold channel_distribution.
  split.
  { rewrite (total_of_perm _ (map ChannelCount.count
                (map channel_count (group_by String.eqb channel db)))).
    - rewrite map_map.
      erewrite map_ext; [apply (group_by_sizes String.eqb string_eqb_spec)|].
      intros g. apply channel_count_count.
    - apply Permutation_map, order_by_perm. }
  split.
  { eapply Permutation_NoDup.
    - apply Permutation_map. symmetry. apply order_by_perm.
    - rewrite map_map.
      erewrite map_ext; [apply (group_by_NoDup String.eqb string_eqb_spec)|].
      intros g. apply channel_count_channel. }
  split; [apply count_desc_sorted|]. split; [|reflexivity].
  intros c Hc. apply (proj1 (order_by_In _ _ _)) in Hc.
  apply in_map_iff in Hc. destruct Hc as (g & <- & Hg).
  rewrite channel_count_count, channel_count_channel. split.
  - apply (group_by_In String.eqb string_eqb_spec) in Hg.
    destruct Hg as [_ ->]. reflexivity.
  - eapply (group_by_nonempty String.eqb string_eqb_spec), Hg.
Qed.

Lemma top_theme_row_count (g : option string * list Row) :
  TopTheme.count (top_theme_row g) = COUNT (snd g).
Proof. destruct g. reflexivity. Qed.

(** X7. The most discussed theme of the overview is absent exactly when
    no analyzed row has a theme other than uncategorized; otherwise it is
    the aggregate of one such theme, and no such theme has more analyzed
    rows. *)
Theorem overview_top_theme :
  forall (db : list Row),
    match Overview.topTheme (body (getOverview db)) with
    | None => categorized_rows db = []
    | Some top =>
        (exists t, t <> "uncategorized" /\ theme_rows t db <> []
                   /\ top = top_theme_row (Some t, theme_rows t db))
        /\ forall t, t <> "uncategorized" ->
             COUNT (theme_rows t db) <= TopTheme.count top
    end.
Proof.
  intros db. unfold getOverview, ok. cbn [body Overview.topTheme]. unfold top_theme.
  change 1 with (Z.of_nat 1). rewrite LIMIT_nat.
  set (groups := group_by opt_eqb theme (categorized_rows db)).
  pose proof (count_desc_sorted TopTheme.count (map top_theme_row groups)) as Hsorted.
  pose proof (order_by_In (count_desc TopTheme.count) (map top_theme_row groups))
    as Hmem.
  destruct (order_by (count_desc TopTheme.count) (map top_theme_row groups))
    as [|top rest] eqn:E; cbn [firstn hd_error].
  - destruct (categorized_rows db) as [|r rows] eqn:Ec; [reflexivity|]. exfalso.
    assert (Hlen : List.length (map top_theme_row groups) = 0%nat).
    { rewrite <- (order_by_length (count_desc TopTheme.count)), E. reflexivity. }
    subst groups. unfold group_by in Hlen. rewrite ?Ec in Hlen.
    simpl in Hlen. discriminate Hlen.
  - assert (Htop : In top (map top_theme_row groups)).
    { apply Hmem. left. reflexivity. }
    apply in_map_iff in Htop. destruct Htop as (g & <- & Hg).
    apply categorized_groups in Hg. destruct Hg as (t & Hne & Hrows & ->).
    split; [eauto|]. intros t' Hne'.
    destruct (theme_rows t' db) as [|r rows] eqn:E'.
    { rewrite top_theme_row_count. apply COUNT_nonneg. }
    assert (Hin : In (top_theme_row (Some t', theme_rows t' db))
                    (top_theme_row (Some t, theme_rows t db) :: rest)).
    { apply Hmem. apply in_map. apply categorized_groups.
      exists t'. rewrite E'. repeat split; [assumption|discriminate]. }
    rewrite <- E'. destruct Hin as [Heq | Hin].
    + rewrite Heq, top_theme_row_count. simpl. lia.
    + inversion Hsorted as [|? ? _ Hall]; subst.
      rewrite Forall_forall in Hall. specialize (Hall _ Hin).
      rewrite !top_theme_row_count in *. simpl in *. lia.
Qed.

(* ================================================================== *)
(** * Properties of the theme detail *)
(* ================================================================== *)

Lemma theme_detail_eq (DATE : string -> option string) (db : list Row) (t : string) :
  t <> "" ->
  getThemeDetail DATE db (Some t)
  = ok (DataBody
          (ThemeDetail.mk t (theme_stats (theme_rows t db))
             (theme_channels (theme_rows t db)) (theme_samples (theme_rows t db))
             (theme_trend DATE db t)
             (map content (LIMIT 10 (order_by created_desc (theme_rows t db)))))).
Proof. destruct t; [congruence|reflexivity]. Qed.

Lemma theme_detail_v1_eq (DATE : string -> option string) (db : list Row) (t : string) :
  t <> "" ->
  getThemeDetail_v1 DATE db (Some t)
  = ok (DataBody
          (V1.ThemeDetail.mk t (theme_stats_v1 (theme_rows t db))
             (theme_channels (theme_rows t db)) (theme_samples (theme_rows t db))
             (theme_trend_v1 DATE db t))).
Proof. destruct t; [congruence|reflexivity]. Qed.

(** X8. A theme without analyzed rows — an unknown theme, say — is
    answered with status 200 and an empty detail: total 0, every other
    statistic NULL, no channels, samples, trend or texts.  Both workers. *)
Theorem getThemeDetail_no_rows :
  forall (DATE : string -> option string) (db : list Row) (t : string),
    t <> "" ->
    theme_rows t db = [] ->
    getThemeDetail DATE db (Some t)
    = mkResponse 200 (DataBody (ThemeDetail.mk t empty_theme_stats [] [] [] []))
    /\ getThemeDetail_v1 DATE db (Some t)
       = mkResponse 200 (DataBody (V1.ThemeDetail.mk t empty_theme_stats_v1 [] [] [])).
Proof.
  intros DATE db t Hne Hnil.
  rewrite theme_detail_eq, theme_detail_v1_eq by assumption.
  rewrite theme_trend_eq, theme_trend_v1_eq by assumption.
  rewrite Hnil. split; reflexivity.
Qed.

Lemma getThemeDetail_no_rows_witness :
  "billing" <> ""
  /\ theme_rows "billing" small_store = []
  /\ getThemeDetail iso_day small_store (Some "billing")
     = mkResponse 200 (DataBody (ThemeDetail.mk "billing" empty_theme_stats [] [] [] [])).
Proof.
  split; [discriminate|]. split; [reflexivity|].
  apply (getThemeDetail_no_rows iso_day small_store "billing");
    [discriminate|reflexivity].
Defined.

(** X9. For a theme of the theme table, the statistics of its detail
    are those of its table row: total, positive, negative, critical and
    high counts and mean sentiment. *)
Theorem getThemeDetail_matches_table :
  forall (DATE : string -> option string) (db : list Row) (t : string)
         (detail : ThemeDetail.t),
    t <> "" -> t <> "uncategorized" -> theme_rows t db <> [] ->
    theme_detail DATE db (Some t) = Some detail ->
    exists row,
      In row (body (getThemes db))
      /\ ThemeRow.theme row = Some t
      /\ ThemeRow.total row = ThemeStats.total (ThemeDetail.stats detail)
      /\ ThemeRow.positive row = ThemeStats.positive (ThemeDetail.stats detail)
      /\ ThemeRow.negative row = ThemeStats.negative (ThemeDetail.stats detail)
      /\ ThemeRow.critical row = ThemeStats.critical (ThemeDetail.stats detail)
      /\ ThemeRow.high row = ThemeStats.high (ThemeDetail.stats detail)
      /\ ThemeRow.avg_sentiment row
         = ThemeStats.avg_sentiment (ThemeDetail.stats detail).
Proof.
  intros DATE db t detail Hne Hcat Hrows Hdetail.
  unfold theme_detail in Hdetail. rewrite theme_detail_eq in Hdetail by assumption.
  cbn [body ok] in Hdetail. injection Hdetail as <-.
  exists (theme_row (Some t, theme_rows t db)).
  split; [apply themes_table_In; eauto|].
  repeat split.
Qed.

Lemma getThemeDetail_matches_table_witness :
  exists row,
    In row (body (getThemes small_store))
    /\ ThemeRow.theme row = Some "pricing"
    /\ ThemeRow.total row = 2.
Proof.
  destruct (getThemeDetail_matches_table iso_day small_store "pricing"
              (ThemeDetail.mk "pricing" (theme_stats (theme_rows "pricing" small_store))
                 (theme_channels (theme_rows "pricing" small_store))
                 (theme_samples (theme_rows "pricing" small_store))
                 (theme_trend iso_day small_store "pricing")
                 (map content
                    (LIMIT 10 (order_by created_desc (theme_rows "pricing" small_store))))))
    as (row & Hin & Htheme & Htotal & _);
    [discriminate | discriminate | discriminate | reflexivity |].
  exists row. repeat split; assumption.
Defined.

Lemma urgency_cases (r : Row) :
  urgency_classified r ->
  case01 (has_urgency "critical" r) + case01 (has_urgency "high" r)
  + case01 (has_urgency "medium" r) + case01 (has_urgency "low" r) = 1.
Proof.
  intros (u & Hu & Hin). unfold has_urgency. rewrite Hu.
  simpl in Hin. destruct Hin as [<- | [<- | [<- | [<- | []]]]]; reflexivity.
Qed.

Lemma tally_urgencies (rows : list Row) :
  Forall urgency_classified rows ->
  tally (has_urgency "critical") rows + tally (has_urgency "high") rows
  + tally (has_urgency "medium") rows + tally (has_urgency "low") rows = COUNT rows.
Proof.
  induction 1 as [|r rows Hr _ IH]; [reflexivity|].
  rewrite !tally_cons, COUNT_cons. pose proof (urgency_cases r Hr). lia.
Qed.

Lemma theme_rows_In (t : string) (db : list Row) (r : Row) :
  In r (theme_rows t db) <-> In r db /\ analyzed_row r /\ theme r = Some t.
Proof.
  unfold theme_rows. rewrite filter_In, holds_tri_and, andb_true_iff.
  unfold analyzed_row, is_analyzed, int_eq, text_eq, holds.
  split.
  - intros (Hin & Ht & Ha). split; [exact Hin|].
    destruct (theme r) as [s|]; [|discriminate]. simpl in Ht.
    destruct (String.eqb_spec s t); [subst|discriminate].
    destruct (analyzed r) as [z|]; [|discriminate]. simpl in Ha.
    destruct (Z.eqb_spec z 1); [subst|discriminate]. split; reflexivity.
  - intros (Hin & Ha & Ht). rewrite Ha, Ht. simpl. rewrite String.eqb_refl.
    repeat split. exact Hin.
Qed.

(** X10. When every analyzed row of the theme has an urgency among low,
    medium, high and critical and a sentiment among positive, neutral and
    negative, and there is such a row, the four urgency counts of the
    detail add up to its total, and so do the three sentiment counts. *)
Theorem getThemeDetail_breakdowns :
  forall (DATE : string -> option string) (db : list Row) (t : string)
         (detail : ThemeDetail.t),
    t <> "" ->
    theme_rows t db <> [] ->
    (forall r, In r db -> analyzed_row r -> theme r = Some t ->
       urgency_classified r /\ sentiment_classified r) ->
    theme_detail DATE db (Some t) = Some detail ->
    let stats := ThemeDetail.stats detail in
    exists c h m l p n g,
      ThemeStats.critical stats = Some c /\ ThemeStats.high stats = Some h
      /\ ThemeStats.medium stats = Some m /\ ThemeStats.low stats = Some l
      /\ c + h + m + l = ThemeStats.total stats
      /\ ThemeStats.positive stats = Some p /\ ThemeStats.neutral stats = Some n
      /\ ThemeStats.negative stats = Some g
      /\ p + n + g = ThemeStats.total stats.
Proof.
  intros DATE db t detail Hne Hrows Hdom Hdetail.
  unfold theme_detail in Hdetail. rewrite theme_detail_eq in Hdetail by assumption.
  cbn [body ok] in Hdetail. injection Hdetail as <-.
  cbn [ThemeDetail.stats]. unfold theme_stats.
  cbn [ThemeStats.critical ThemeStats.high ThemeStats.medium ThemeStats.low
       ThemeStats.total ThemeStats.positive ThemeStats.neutral ThemeStats.negative].
  rewrite !sum_case_nonempty by assumption.
  do 7 eexists. repeat split.
  - apply tally_urgencies. apply Forall_forall. intros r Hr.
    apply theme_rows_In in Hr. apply Hdom; tauto.
  - apply tally_sentiments. apply Forall_forall. intros r Hr.
    apply theme_rows_In in Hr. apply Hdom; tauto.
Qed.

Lemma getThemeDetail_breakdowns_witness :
  exists c h m l p n g,
    ThemeStats.critical (theme_stats (theme_rows "pricing" small_store)) = Some c
    /\ ThemeStats.high (theme_stats (theme_rows "pricing" small_store)) = Some h
    /\ ThemeStats.medium (theme_stats (theme_rows "pricing" small_store)) = Some m
    /\ ThemeStats.low (theme_stats (theme_rows "pricing" small_store)) = Some l
    /\ c + h + m + l = 2
    /\ ThemeStats.positive (theme_stats (theme_rows "pricing" small_store)) = Some p
    /\ ThemeStats.neutral (theme_stats (theme_rows "pricing" small_store)) = Some n
    /\ ThemeStats.negative (theme_stats (theme_rows "pricing" small_store)) = Some g
    /\ p + n + g = 2.
Proof.
  apply (getThemeDetail_breakdowns iso_day small_store "pricing"
           (ThemeDetail.mk "pricing" (theme_stats (theme_rows "pricing" small_store))
              (theme_channels (theme_rows "pricing" small_store))
              (theme_samples (theme_rows "pricing" small_store))
              (theme_trend iso_day small_store "pricing")
              (map content
                 (LIMIT 10 (order_by created_desc (theme_rows "pricing" small_store))))));
    [discriminate | discriminate | | reflexivity].
  intros r Hin Han Ht. unfold small_store in Hin. simpl in Hin.
  destruct Hin as [<- | [<- | [<- | [<- | []]]]];
    try discriminate Han; try discriminate Ht;
    split; eexists; (split; [reflexivity|simpl; tauto]).
Defined.

(** X11. The channel breakdown of a theme detail counts the analyzed
    rows of the theme: its counts add up to the detail's total, and each
    channel occurs once, with a positive count.  Both workers. *)
Theorem getThemeDetail_channels :
  forall (DATE : string -> option string) (db : list Row) (t : string)
         (detail : ThemeDetail.t),
    t <> "" ->
    theme_detail DATE db (Some t) = Some detail ->
    total_of (map ChannelCount.count (ThemeDetail.channels detail))
    = ThemeStats.total (ThemeDetail.stats detail)
    /\ NoDup (map ChannelCount.channel (ThemeDetail.channels detail))
    /\ (forall c, In c (ThemeDetail.channels detail) -> 0 < ChannelCount.count c)
    /\ option_map V1.ThemeDetail.channels (theme_detail_v1 DATE db (Some t))
       = Some (ThemeDetail.channels detail).
Proof.
  intros DATE db t detail Hne Hdetail.
  unfold theme_detail, theme_detail_v1 in *.
  rewrite theme_detail_eq in Hdetail by assumption.
  rewrite theme_detail_v1_eq by assumption.
  cbn [body ok] in *. injection Hdetail as <-.
  cbn [ThemeDetail.channels ThemeDetail.stats option_map V1.ThemeDetail.channels].
  unfold theme_channels, theme_stats. cbn [ThemeStats.total].
  split; [|split; [|split; [|reflexivity]]].
  - rewrite map_map.
    erewrite map_ext; [apply (group_by_sizes String.eqb string_eqb_spec)|].
    intros g. apply channel_count_count.
  - rewrite map_map.
    erewrite map_ext; [apply (group_by_NoDup String.eqb string_eqb_spec)|].
    intros g. apply channel_count_channel.
  - intros c Hc. apply in_map_iff in Hc. destruct Hc as (g & <- & Hg).
    rewrite channel_count_count.
    eapply (group_by_nonempty String.eqb string_eqb_spec), Hg.
Qed.

Lemma getThemeDetail_channels_witness :
  total_of (map ChannelCount.count (theme_channels (theme_rows "pricing" small_store)))
  = 2.
Proof.
  apply (getThemeDetail_channels iso_day small_store "pricing"
           (ThemeDetail.mk "pricing" (theme_stats (theme_rows "pricing" small_store))
              (theme_channels (theme_rows "pricing" small_store))
              (theme_samples (theme_rows "pricing" small_store))
              (theme_trend iso_day small_store "pricing")
              (map content
                 (LIMIT 10 (order_by created_desc (theme_rows "pricing" small_store))))));
    [discriminate | reflexivity].
Defined.

Lemma severity_then_recent_order (a b : Row) :
  severity_then_recent a b = true <-> sample_order a b.
Proof.
  unfold severity_then_recent, sample_order, no_older.
  destruct (Z.compare_spec (severity a) (severity b)) as [E | L | G];
    split; intros Hord; try discriminate; try reflexivity; try lia;
    try (right; split; assumption);
    try (destruct Hord as [Hord | [_ Hord]]; [lia|exact Hord]).
Qed.

Lemma sample_order_total (a b : Row) : sample_order a b \/ sample_order b a.
Proof.
  unfold sample_order, no_older.
  destruct (Z.lt_total (severity a) (severity b)) as [H | [H | H]]; try tauto.
  destruct (text_le_total (created_at b) (created_at a)); [left|right];
    right; split; congruence.
Qed.

Lemma sample_order_trans (a b c : Row) :
  sample_order a b -> sample_order b c -> sample_order a c.
Proof.
  unfold sample_order, no_older.
  intros [Hab | [Eab Hab]] [Hbc | [Ebc Hbc]]; try (left; lia).
  right. split; [lia|]. eapply text_le_trans; eassumption.
Qed.

Lemma theme_samples_sorted (rows : list Row) :
  StronglySorted sample_order (order_by severity_then_recent rows).
Proof.
  apply StronglySorted_weaken with (R := fun a b => severity_then_recent a b = true).
  - intros a b _ _. apply severity_then_recent_order.
  - apply order_by_sorted.
    + intros a b. rewrite !severity_then_recent_order. apply sample_order_total.
    + intros a b c. rewrite !severity_then_recent_order. apply sample_order_trans.
Qed.

(** X12. The samples of a theme detail are analyzed rows of the theme,
    at most ten, all of them when the theme has at most ten; they come
    most severe first (critical, high, medium, then anything else) and,
    at equal severity, newest first; a row of the theme that is left
    out could stand after every sample. *)
Theorem getThemeDetail_samples :
  forall (DATE : string -> option string) (db : list Row) (t : string)
         (detail : ThemeDetail.t),
    t <> "" ->
    theme_detail DATE db (Some t) = Some detail ->
    let samples := ThemeDetail.samples detail in
    StronglySorted sample_order samples
    /\ List.length samples = Nat.min 10 (List.length (theme_rows t db))
    /\ (forall r, In r samples -> In r db /\ analyzed_row r /\ theme r = Some t)
    /\ (forall r, In r db -> analyzed_row r -> theme r = Some t ->
          In r samples
          \/ (List.length samples = 10%nat
              /\ forall s, In s samples -> sample_order s r))
    /\ option_map V1.ThemeDetail.samples (theme_detail_v1 DATE db (Some t))
       = Some samples.
Proof.
  intros DATE db t detail Hne Hdetail.
  unfold theme_detail, theme_detail_v1 in *.
  rewrite theme_detail_eq in Hdetail by assumption.
  rewrite theme_detail_v1_eq by assumption.
  cbn [body ok] in *. injection Hdetail as <-.
  cbn [ThemeDetail.samples option_map V1.ThemeDetail.samples].
  unfold theme_samples. change 10 with (Z.of_nat 10). rewrite LIMIT_nat.
  split; [apply StronglySorted_firstn, theme_samples_sorted|].
  split; [rewrite length_firstn, order_by_length; reflexivity|].
  split.
  { intros r Hr. apply In_firstn in Hr. apply (proj1 (order_by_In _ _ _)) in Hr.
    apply theme_rows_In, Hr. }
  split; [|reflexivity].
  intros r Hin Han Ht.
  apply (firstn_sorted_cut sample_order 10 _ r (theme_samples_sorted _)).
  apply (proj2 (order_by_In _ _ _)). apply theme_rows_In. tauto.
Qed.

Lemma getThemeDetail_samples_witness :
  map urgency (theme_samples (theme_rows "pricing" same_instant))
  = [Some "critical"; Some "high"; Some "medium"; Some "low"]
  /\ StronglySorted sample_order (theme_samples (theme_rows "pricing" same_instant)).
Proof.
  split; [vm_compute; reflexivity|].
  apply (getThemeDetail_samples iso_day same_instant "pricing"
           (ThemeDetail.mk "pricing" (theme_stats (theme_rows "pricing" same_instant))
              (theme_channels (theme_rows "pricing" same_instant))
              (theme_samples (theme_rows "pricing" same_instant))
              (theme_trend iso_day same_instant "pricing")
              (map content
                 (LIMIT 10 (order_by created_desc (theme_rows "pricing" same_instant))))));
    [discriminate | reflexivity].
Defined.

Lemma summarize_request (ai : Ai.Request -> Ai.Outcome) (texts : list string)
  (label : string) :
  texts <> [] ->
  fst (summarize ai (Some texts) label)
  = [summary_request label (join separator (firstn 10 texts))].
Proof.
  intros Hne. destruct texts as [|x rest]; [congruence|].
  unfold summarize, summarizeFeedback, Ai.run. reflexivity.
Qed.

(** X13. The texts a theme detail hands over for the summary are the
    contents of analyzed rows of the theme, at most ten, all of them when
    the theme has at most ten.  Sent back to [summarizeFeedback], none of
    them is dropped: the request carries them all, joined; and when the
    theme has no analyzed row, the summary is the fixed no-feedback
    message and the capability is not called. *)
Theorem getThemeDetail_texts_summarized :
  forall (DATE : string -> option string) (ai : Ai.Request -> Ai.Outcome)
         (db : list Row) (t label : string) (detail : ThemeDetail.t),
    t <> "" ->
    theme_detail DATE db (Some t) = Some detail ->
    let texts := ThemeDetail.recentFeedbackTexts detail in
    List.length texts = Nat.min 10 (List.length (theme_rows t db))
    /\ (forall text, In text texts ->
          exists r, In r db /\ analyzed_row r /\ theme r = Some t /\ content r = text)
    /\ (theme_rows t db <> [] ->
        fst (summarize ai (Some texts) label)
        = [summary_request label (join separator texts)])
    /\ (theme_rows t db = [] ->
        summarize ai (Some texts) label = ([], Normal (ok no_feedback))).
Proof.
  intros DATE ai db t label detail Hne Hdetail.
  unfold theme_detail in Hdetail. rewrite theme_detail_eq in Hdetail by assumption.
  cbn [body ok] in Hdetail. injection Hdetail as <-.
  cbn [ThemeDetail.recentFeedbackTexts].
  change 10 with (Z.of_nat 10). rewrite LIMIT_nat.
  set (texts := map content (firstn 10 (order_by created_desc (theme_rows t db)))).
  assert (Hlen : List.length texts = Nat.min 10 (List.length (theme_rows t db))).
  { unfold texts. rewrite length_map, length_firstn, order_by_length. reflexivity. }
  split; [exact Hlen|]. split; [|split].
  - intros text Htext. unfold texts in Htext. apply in_map_iff in Htext.
    destruct Htext as (r & <- & Hr). apply In_firstn in Hr.
    apply (proj1 (order_by_In _ _ _)) in Hr. apply theme_rows_In in Hr.
    exists r. tauto.
  - intros Hrows.
    assert (Hfirst : firstn 10 texts = texts).
    { apply firstn_all2. rewrite Hlen. apply Nat.le_min_l. }
    rewrite <- Hfirst at 2. apply summarize_request. intros Hnil.
    rewrite Hnil in Hlen. simpl in Hlen.
    destruct (theme_rows t db); [congruence|discriminate Hlen].
  - intros Hnil. unfold texts. rewrite Hnil. reflexivity.
Qed.

Lemma getThemeDetail_texts_summarized_witness :
  fst (summarize (fails "quota exceeded")
         (Some (map content
                  (LIMIT 10 (order_by created_desc (theme_rows "pricing" small_store)))))
         "Pricing")
  = [summary_request "Pricing" (join separator ["text"; "text"])].
Proof.
  apply (getThemeDetail_texts_summarized iso_day (fails "quota exceeded") small_store
           "pricing" "Pricing"
           (ThemeDetail.mk "pricing" (theme_stats (theme_rows "pricing" small_store))
              (theme_channels (theme_rows "pricing" small_store))
              (theme_samples (theme_rows "pricing" small_store))
              (theme_trend iso_day small_store "pricing")
              (map content
                 (LIMIT 10 (order_by created_desc (theme_rows "pricing" small_store))))));
    [discriminate | reflexivity | discriminate].
Defined.

(* ================================================================== *)
(** * More on the feedback listing *)
(* ================================================================== *)

Lemma satisfies_meets (v col : option string) :
  satisfies v col -> meets v col = true.
Proof.
  unfold satisfies, meets. intros H.
  destruct (is_active v) eqn:E; [|reflexivity].
  rewrite (H eq_refl). destruct v as [s|]; [|discriminate E].
  simpl. rewrite String.eqb_refl. reflexivity.
Qed.

Lemma selected_iff (p : Params.t) (db : list Row) (r : Row) :
  In r (filter (selected p) db) <->
  In r db /\ analyzed_row r
  /\ satisfies (Params.sentiment p) (sentiment r)
  /\ satisfies (Params.theme p) (theme r)
  /\ satisfies (Params.urgency p) (urgency r)
  /\ satisfies (Params.channel p) (Some (channel r)).
Proof.
  split; [apply selected_In|].
  intros (Hin & Han & Hs & Ht & Hu & Hc). apply filter_In. split; [exact Hin|].
  unfold selected. rewrite !satisfies_meets by assumption.
  unfold is_analyzed, int_eq. rewrite Han. reflexivity.
Qed.

(** X14. The listing leaves out no row it could show.  With a limit
    [n] that reads as a 64-bit integer: when [n] is negative every
    analyzed row that meets the active criteria is returned; otherwise as
    many as there are, up to [n], and a row that is left out was created
    no later than each row returned.  With an integer limit outside that
    range (a parameter such as [limit=99999999999999999999]) the statement
    fails and nothing is listed. *)
Theorem getFeedback_complete :
  forall (parseInt : string -> option Z) (db : list Row) (p : Params.t) (n : Z),
    requested_limit parseInt p = Some n ->
    (limit_in_range n = true ->
     exists results,
       getFeedback parseInt db p = Normal (mkResponse 200 results)
       /\ (n < 0 -> Permutation results (filter (selected p) db))
       /\ (0 <= n ->
           List.length results
           = Nat.min (Z.to_nat n) (List.length (filter (selected p) db)))
       /\ (forall r,
             In r db -> analyzed_row r ->
             satisfies (Params.sentiment p) (sentiment r) ->
             satisfies (Params.theme p) (theme r) ->
             satisfies (Params.urgency p) (urgency r) ->
             satisfies (Params.channel p) (Some (channel r)) ->
             In r results
             \/ (COUNT results = n /\ forall s, In s results -> no_older s r)))
    /\ (limit_in_range n = false ->
        exists e, getFeedback parseInt db p = Throw e).
Proof.
  intros parseInt db p n Hn.
  split; [|intros Hrange; eexists;
           apply (getFeedback_out_of_range parseInt db p n Hn Hrange)].
  intros Hrange. eexists.
  split; [apply (getFeedback_rows parseInt db p n Hn Hrange)|].
  pose proof (order_by_sorted created_desc created_desc_total created_desc_trans
                (filter (selected p) db)) as Hsorted.
  unfold LIMIT. destruct (Z.ltb_spec n 0) as [Hneg | Hpos].
  - split; [intros _; apply order_by_perm|]. split; [lia|].
    intros r Hin Han Hs Ht Hu Hc. left.
    apply (proj2 (order_by_In _ _ _)). apply selected_iff. tauto.
  - split; [lia|]. split.
    + intros _. rewrite length_firstn, order_by_length. reflexivity.
    + intros r Hin Han Hs Ht Hu Hc.
      destruct (firstn_sorted_cut _ (Z.to_nat n) _ r Hsorted) as [H | [Hlen Hall]].
      * apply (proj2 (order_by_In _ _ _)). apply selected_iff. tauto.
      * left. exact H.
      * right. split; [unfold COUNT; rewrite Hlen; lia|exact Hall].
Qed.

Lemma getFeedback_complete_witness :
  requested_limit parse_int positive_two = Some 2
  /\ limit_in_range 2 = true
  /\ exists results,
       getFeedback parse_int small_store positive_two = Normal (mkResponse 200 results)
       /\ List.length results
          = Nat.min 2 (List.length (filter (selected positive_two) small_store)).
Proof.
  split; [reflexivity|]. split; [reflexivity|].
  destruct (getFeedback_complete parse_int small_store positive_two 2 eq_refl)
    as [H _].
  destruct (H eq_refl) as (results & Heq & _ & Hlen & _).
  exists results. split; [exact Heq|]. apply Hlen. lia.
Defined.

Lemma is_active_value (v : string) :
  v <> "" -> v <> "all" -> is_active (Some v) = true.
Proof.
  intros Hne Hall. unfold is_active.
  destruct (String.eqb_spec v "all") as [|_]; [contradiction|].
  destruct v; [congruence|reflexivity].
Qed.

(** X15. An empty criterion, as in [?sentiment=], constrains the listing
    no more than an absent one, and an empty [limit] is the default
    limit; a criterion of any other text than [all] is compared as it
    is, so that [All] or [ALL] select the rows whose column holds that
    very text. *)
Theorem getFeedback_empty_criterion :
  forall (parseInt : string -> option Z) (db : list Row) (p : Params.t),
    getFeedback parseInt db (with_sentiment (Some "") p)
    = getFeedback parseInt db (with_sentiment None p)
    /\ getFeedback parseInt db (with_theme (Some "") p)
       = getFeedback parseInt db (with_theme None p)
    /\ getFeedback parseInt db (with_urgency (Some "") p)
       = getFeedback parseInt db (with_urgency None p)
    /\ getFeedback parseInt db (with_channel (Some "") p)
       = getFeedback parseInt db (with_channel None p)
    /\ (Params.limit p = Some "" -> requested_limit parseInt p = parseInt "50")
    /\ (forall v, v <> "" -> v <> "all" ->
          forall n results,
            requested_limit parseInt p = Some n ->
            getFeedback parseInt db (with_sentiment (Some v) p) = Normal (ok results) ->
            forall r, In r results -> sentiment r = Some v).
Proof.
  intros parseInt db p.
  split; [reflexivity|]. split; [reflexivity|].
  split; [reflexivity|]. split; [reflexivity|].
  split.
  { intros Hlim. unfold requested_limit. rewrite Hlim. reflexivity. }
  intros v Hne Hall n results Hn Hres r Hr.
  destruct (limit_in_range n) eqn:Hrange.
  2: { rewrite (getFeedback_out_of_range parseInt db
                  (with_sentiment (Some v) p) n Hn Hrange) in Hres.
       discriminate Hres. }
  rewrite (getFeedback_rows parseInt db (with_sentiment (Some v) p) n Hn Hrange)
    in Hres.
  injection Hres as <-. apply LIMIT_In in Hr.
  apply (proj1 (order_by_In _ _ _)) in Hr. apply selected_In in Hr.
  destruct Hr as (_ & _ & Hs & _). apply Hs. apply is_active_value; assumption.
Qed.

Lemma getFeedback_empty_criterion_witness :
  exists results,
    getFeedback parse_int loud_store (with_sentiment (Some "ALL") positive_two)
    = Normal (ok results)
    /\ In loud_row results
    /\ sentiment loud_row = Some "ALL".
Proof.
  eexists. split; [vm_compute; reflexivity|]. split; [left; reflexivity|].
  destruct (getFeedback_empty_criterion parse_int loud_store positive_two)
    as (_ & _ & _ & _ & _ & H).
  apply (H "ALL" ltac:(discriminate) ltac:(discriminate) 2 _ eq_refl eq_refl).
  left. reflexivity.
Defined.

(* ================================================================== *)
(** * More on the classification pipeline *)
(* ================================================================== *)

Lemma after_first_open_app (pre rest : string) :
  has_char "{" pre = false ->
  after_first_open (pre ++ String "{" rest)%string = Some rest.
Proof.
  induction pre as [|c pre IH]; simpl; intros H; [reflexivity|].
  apply orb_false_iff in H. destruct H as [Hc Hpre]. rewrite Hc. apply IH, Hpre.
Qed.

Lemma upto_last_close_absent (post : string) :
  has_char "}" post = false -> upto_last_close post = None.
Proof.
  induction post as [|c post IH]; simpl; intros H; [reflexivity|].
  apply orb_false_iff in H. destruct H as [Hc Hpost].
  rewrite IH, Hc by exact Hpost. reflexivity.
Qed.

Lemma upto_last_close_app (mid post : string) :
  has_char "}" post = false ->
  upto_last_close (mid ++ String "}" post)%string = Some (mid ++ "}")%string.
Proof.
  intros Hpost. induction mid as [|c mid IH]; simpl.
  - rewrite upto_last_close_absent by exact Hpost. reflexivity.
  - rewrite IH. reflexivity.
Qed.

Lemma string_app_assoc (a b c : string) :
  ((a ++ b) ++ c)%string = (a ++ (b ++ c))%string.
Proof. induction a as [|x a IH]; simpl; [reflexivity|]. rewrite IH. reflexivity. Qed.

(** An object wrapped in prose free of braces is matched whole. *)
Lemma match_braces_wrapped (pre mid post : string) :
  has_char "{" pre = false -> has_char "}" post = false ->
  match_braces (pre ++ (String "{" mid ++ "}") ++ post)%string
  = Some (String "{" mid ++ "}")%string.
Proof.
  intros Hpre Hpost. unfold match_braces. simpl.
  rewrite after_first_open_app by exact Hpre.
  rewrite string_app_assoc. simpl.
  rewrite upto_last_close_app by exact Hpost. reflexivity.
Qed.

(** X16. Prose around the classifier's object does not matter: when the
    response is an object [{...}] between a text without an opening brace
    and a text without a closing brace, and the object decodes, the
    answer is the decoded object with status 200; when it does not
    decode, the answer is the fixed fallback carrying the whole
    response. *)
Theorem analyzeWithAI_ignores_prose :
  forall (JSON_parse : string -> Completion JsValue)
         (ai : Ai.Request -> Ai.Outcome) (content pre mid post : string),
    content <> "" ->
    has_char "{" pre = false ->
    has_char "}" post = false ->
    let object := (String "{" mid ++ "}")%string in
    let response := (pre ++ object ++ post)%string in
    ai (analysis_request content) = Ai.Resolved response ->
    classify JSON_parse ai content
    = match JSON_parse object with
      | Normal decoded => Normal (mkResponse 200 decoded)
      | Throw _ => Normal (mkResponse 200 (parse_fallback response))
      end.
Proof.
  intros JSON_parse ai content pre mid post Hne Hpre Hpost object response Hout.
  rewrite classify_nonempty by assumption. rewrite Hout.
  unfold analysis_reply, extract_analysis, response, object.
  rewrite match_braces_wrapped by assumption.
  destruct (JSON_parse _); reflexivity.
Qed.

Lemma analyzeWithAI_ignores_prose_witness :
  classify json_parse (answers wrapped_response) "Great pricing"
  = Normal (mkResponse 200
              (JObj [ ("sentiment", JStr "positive");
                      ("sentiment_score", JNum 7 (-1));
                      ("theme", JStr "pricing");
                      ("urgency", JStr "low");
                      ("summary", JStr "ok") ])).
Proof.
  exact (analyzeWithAI_ignores_prose json_parse (answers wrapped_response)
           "Great pricing" "Sure! "
           (requote "'sentiment':'positive','sentiment_score':0.7,'theme':'pricing','urgency':'low','summary':'ok'")
           " done" ltac:(discriminate) eq_refl eq_refl eq_refl).
Defined.

(** X17. [analyzeWithAI] calls the capability once for a non-empty
    content, whatever comes back (there is no second attempt), and not at
    all for an empty one, which it answers with status 400.  The user
    message of the request is a fixed text around the content, which is
    inserted as it is, without escaping. *)
Theorem analyzeWithAI_one_attempt :
  forall (JSON_parse : string -> Completion JsValue) (ai : Ai.Request -> Ai.Outcome),
    Ai.run ai (analyzeWithAI JSON_parse "")
    = ([], Normal (mkResponse 400 (JObj [("error", JStr "Content required")])))
    /\ (forall content,
          content <> "" ->
          fst (Ai.run ai (analyzeWithAI JSON_parse content))
          = [analysis_request content])
    /\ (exists system before after,
          forall content,
            analysis_request content
            = Ai.mkRequest "@cf/meta/llama-3-8b-instruct"
                [ Ai.mkMessage "system" system;
                  Ai.mkMessage "user" (before ++ content ++ after)%string ]
                200).
Proof.
  intros JSON_parse ai. split; [reflexivity|]. split.
  - intros content Hne. destruct content as [|c rest]; [congruence|]. reflexivity.
  - do 3 eexists. intros content. reflexivity.
Qed.

Lemma analyzeWithAI_one_attempt_witness :
  fst (Ai.run (fails "quota exceeded") (analyzeWithAI json_parse "slow"))
  = [analysis_request "slow"].
Proof.
  apply (analyzeWithAI_one_attempt json_parse (fails "quota exceeded")).
  discriminate.
Defined.

(* ================================================================== *)
(** * Properties of the request dispatcher *)
(* ================================================================== *)

Lemma run_handler_map {A B : Type} (f : A -> B) (ai : Ai.Request -> Ai.Outcome)
  (h : Ai.Handler A) :
  Ai.run ai (handler_map f h) = (fst (Ai.run ai h), f (snd (Ai.run ai h))).
Proof.
  induction h as [a | req k IH]; simpl; [reflexivity|].
  rewrite IH. destruct (Ai.run ai (k (ai req))). reflexivity.
Qed.

Lemma analysis_reply_ok (JSON_parse : string -> Completion JsValue) (o : Ai.Outcome) :
  exists b, analysis_reply JSON_parse o = Normal (mkResponse 200 b).
Proof.
  unfold analysis_reply, extract_analysis.
  destruct o as [response | e]; [|eexists; reflexivity].
  destruct (match_braces response) as [json|]; [|eexists; reflexivity].
  destruct (JSON_parse json); eexists; reflexivity.
Qed.

Lemma summary_reply_ok (o : Ai.Outcome) :
  exists b, summary_reply o = Normal (mkResponse 200 b).
Proof. destruct o; eexists; reflexivity. Qed.

Section DispatcherFacts.

Variable JSON_parse : string -> Completion JsValue.
Variable parseInt : string -> option Z.
Variable DATE : string -> option string.
Variable ToString : JsValue -> string.
Variable is_zero : Z -> Z -> bool.
Variable html : string.
Variable ai : Ai.Request -> Ai.Outcome.

Lemma internal_error_json {B : Type} (wrap : B -> Payload) (c : Completion (Response B)) :
  (forall r, c = Normal r -> status r = 200 \/ status r = 400) ->
  json_answer (internal_error (completion_map (json_reply wrap) c)).
Proof.
  intros Hst. destruct c as [r | e]; simpl.
  - split; [reflexivity|]. destruct (Hst r eq_refl); auto.
  - split; [reflexivity|]. auto.
Qed.

Lemma analyze_body_status (text : string) (r : Response JsValue) :
  snd (Ai.run ai (analyze_body JSON_parse ToString is_zero text)) = Normal r ->
  status r = 200 \/ status r = 400.
Proof.
  unfold analyze_body.
  destruct (request_json JSON_parse text) as [parsed | e]; [|discriminate].
  destruct (negb (to_boolean is_zero (get_prop parsed "content")));
    cbn [Ai.run snd].
  - intros H. injection H as <-. right. reflexivity.
  - match goal with
    | |- context [analysis_reply JSON_parse ?o] =>
        destruct (analysis_reply_ok JSON_parse o) as (b & ->)
    end.
    intros H. injection H as <-. left. reflexivity.
Qed.

Lemma summarize_body_status (text : string) (r : Response JsValue) :
  snd (Ai.run ai (summarize_body JSON_parse ToString is_zero text)) = Normal r ->
  status r = 200 \/ status r = 400.
Proof.
  unfold summarize_body.
  destruct (request_json JSON_parse text) as [parsed | e]; [|discriminate].
  destruct (negb (to_boolean is_zero (get_prop parsed "feedbackTexts"))
            || length_is_zero is_zero (get_prop parsed "feedbackTexts"));
    cbn [Ai.run snd].
  - intros H. injection H as <-. left. reflexivity.
  - destruct (get_prop parsed "feedbackTexts") as [[| | | | items |]|];
      cbn [Ai.run snd]; try discriminate.
    match goal with
    | |- context [summary_reply ?o] => destruct (summary_reply_ok o) as (b & ->)
    end.
    intros H. injection H as <-. left. reflexivity.
Qed.

Lemma getFeedback_status (db : list Row) (p : Params.t) (r : Response (list Row)) :
  getFeedback parseInt db p = Normal r -> status r = 200 \/ status r = 400.
Proof.
  unfold getFeedback. destruct (feedback_statement parseInt p) as [query params].
  destruct (d1_all query params db); [|discriminate].
  intros H. injection H as <-. left. reflexivity.
Qed.

Lemma getThemeDetail_status (db : list Row) (theme : option string) :
  status (getThemeDetail DATE db theme) = 200
  \/ status (getThemeDetail DATE db theme) = 400.
Proof. destruct theme as [[|c s]|]; simpl; auto. Qed.

End DispatcherFacts.

Ltac next_route req path :=
  destruct (is_path req path) eqn:?; cbn [orb andb existsb].

(** X18. What [fetch] of feedback-analyser-2 answers is settled in this
    order: an OPTIONS request gets the CORS preflight answer, whatever its
    path; then [/] and [/index.html] get the dashboard page; then a
    request with a route gets a JSON answer, with the CORS headers and
    status 200, 400 or 500; any other gets 404 [Not Found], without CORS
    headers.  The analysis and summary routes exist for POST only.  Only
    those two can reach the capability. *)
Theorem fetch_dispatch :
  forall (JSON_parse : string -> Completion JsValue) (parseInt : string -> option Z)
         (DATE : string -> option string) (ToString : JsValue -> string)
         (is_zero : Z -> Z -> bool) (html : string)
         (ai : Ai.Request -> Ai.Outcome) (db : list Row) (req : Request),
    let answer :=
      Ai.run ai (fetch JSON_parse parseInt DATE ToString is_zero html db req) in
    (if String.eqb (method req) "OPTIONS" then answer = ([], preflight)
     else if is_page req then answer = ([], serveDashboard html)
     else if routed req then json_answer (snd answer)
     else answer = ([], not_found))
    /\ (fst answer <> [] ->
        is_post req = true
        /\ (pathname req = "/api/analyze" \/ pathname req = "/api/summarize")).
Proof.
  intros JSON_parse parseInt DATE ToString is_zero html ai db req answer.
  subst answer. unfold fetch.
  destruct (String.eqb (method req) "OPTIONS"); [split; [reflexivity|intros []; reflexivity]|].
  rewrite run_handler_map. unfold route, is_page, routed. cbn [existsb fst snd].
  next_route req "/"; [split; [reflexivity|intros []; reflexivity]|].
  next_route req "/index.html"; [split; [reflexivity|intros []; reflexivity]|].
  next_route req "/api/overview";
    [split; [split; [reflexivity|auto]|intros []; reflexivity]|].
  next_route req "/api/feedback".
  { split; [|intros []; reflexivity]. cbn [Ai.run fst snd].
    apply internal_error_json, getFeedback_status. }
  next_route req "/api/themes";
    [split; [split; [reflexivity|auto]|intros []; reflexivity]|].
  next_route req "/api/sentiment-trend";
    [split; [split; [reflexivity|auto]|intros []; reflexivity]|].
  destruct (is_path req "/api/analyze") eqn:Ea; cbn [orb andb].
  { destruct (is_post req) eqn:Ep; cbn [orb andb].
    - rewrite run_handler_map. cbn [fst snd]. split.
      + next_route req "/api/theme-detail";
          [|next_route req "/api/distributions"];
          apply internal_error_json, analyze_body_status.
      + intros _. split; [reflexivity|left].
        apply String.eqb_eq. exact Ea.
    - apply String.eqb_eq in Ea. unfold is_path. rewrite Ea. cbn.
      split; [reflexivity|intros []; reflexivity]. }
  next_route req "/api/theme-detail".
  { split; [|intros []; reflexivity]. cbn [Ai.run fst snd].
    split; [reflexivity|]. unfold internal_error, json_reply. cbn [code].
    destruct (getThemeDetail_status DATE db (search_get (search req) "theme"))
      as [H | H]; rewrite H; auto. }
  next_route req "/api/distributions";
    [split; [split; [reflexivity|auto]|intros []; reflexivity]|].
  destruct (is_path req "/api/summarize") eqn:Es; cbn [orb andb].
  { destruct (is_post req) eqn:Ep; cbn [orb andb].
    - rewrite run_handler_map. cbn [fst snd]. split.
      + apply internal_error_json, summarize_body_status.
      + intros _. split; [reflexivity|right]. apply String.eqb_eq. exact Es.
    - split; [reflexivity|intros []; reflexivity]. }
  split; [reflexivity|intros []; reflexivity].
Qed.

Section BodyFacts.

Variable JSON_parse : string -> Completion JsValue.
Variable parseInt : string -> option Z.
Variable DATE : string -> option string.
Variable ToString : JsValue -> string.
Variable is_zero : Z -> Z -> bool.
Variable html : string.
Variable ai : Ai.Request -> Ai.Outcome.
Variable db : list Row.

(** What the dispatcher makes of the two POST routes. *)
Lemma dispatch_analyze (req : Request) :
  is_post req = true -> pathname req = "/api/analyze" ->
  Ai.run ai (fetch JSON_parse parseInt DATE ToString is_zero html db req)
  = (fst (Ai.run ai (analyze_body JSON_parse ToString is_zero (text req))),
     internal_error
       (completion_map (json_reply ValueJson)
          (snd (Ai.run ai (analyze_body JSON_parse ToString is_zero (text req)))))).
Proof.
  intros Hpost Hpath. unfold fetch.
  assert (Hm : String.eqb (method req) "OPTIONS" = false).
  { unfold is_post in Hpost. apply String.eqb_eq in Hpost. rewrite Hpost. reflexivity. }
  rewrite Hm, run_handler_map. unfold route, is_path. rewrite Hpath, Hpost.
  cbn [String.eqb Ascii.eqb Bool.eqb orb andb]. rewrite run_handler_map. reflexivity.
Qed.

Lemma dispatch_summarize (req : Request) :
  is_post req = true -> pathname req = "/api/summarize" ->
  Ai.run ai (fetch JSON_parse parseInt DATE ToString is_zero html db req)
  = (fst (Ai.run ai (summarize_body JSON_parse ToString is_zero (text req))),
     internal_error
       (completion_map (json_reply ValueJson)
          (snd (Ai.run ai (summarize_body JSON_parse ToString is_zero (text req)))))).
Proof.
  intros Hpost Hpath. unfold fetch.
  assert (Hm : String.eqb (method req) "OPTIONS" = false).
  { unfold is_post in Hpost. apply String.eqb_eq in Hpost. rewrite Hpost. reflexivity. }
  rewrite Hm, run_handler_map. unfold route, is_path. rewrite Hpath, Hpost.
  cbn [String.eqb Ascii.eqb Bool.eqb orb andb]. rewrite run_handler_map. reflexivity.
Qed.

End BodyFacts.

(** X19. A POST to the analysis or summary route whose body is not JSON,
    or is the JSON [null], is answered with status 500 and JSON headers,
    not with 400; the capability is not called; for a body that is not
    JSON the answer carries the parser's message. *)
Theorem fetch_bad_body :
  forall (JSON_parse : string -> Completion JsValue) (parseInt : string -> option Z)
         (DATE : string -> option string) (ToString : JsValue -> string)
         (is_zero : Z -> Z -> bool) (html : string)
         (ai : Ai.Request -> Ai.Outcome) (db : list Row) (req : Request),
    is_post req = true ->
    pathname req = "/api/analyze" \/ pathname req = "/api/summarize" ->
    (forall v, JSON_parse (text req) = Normal v -> v = JNull) ->
    let answer :=
      Ai.run ai (fetch JSON_parse parseInt DATE ToString is_zero html db req) in
    fst answer = []
    /\ code (snd answer) = 500
    /\ headers (snd answer) = json_headers
    /\ (forall e, JSON_parse (text req) = Throw e ->
          payload (snd answer) = ErrorJson (message e)).
Proof.
  intros JSON_parse parseInt DATE ToString is_zero html ai db req Hpost Hpath Hbad.
  assert (Hreq : exists e, request_json JSON_parse (text req) = Throw e
                           /\ forall e', JSON_parse (text req) = Throw e' -> e = e').
  { unfold request_json. destruct (JSON_parse (text req)) as [v | e].
    - rewrite (Hbad v eq_refl). eexists. split; [reflexivity|]. discriminate.
    - exists e. split; [reflexivity|]. congruence. }
  destruct Hreq as (e & Hreq & He).
  destruct Hpath as [Hpath | Hpath]; cbv zeta.
  - rewrite dispatch_analyze by assumption. unfold analyze_body. rewrite Hreq.
    cbn. repeat split. intros e' He'. rewrite (He e' He'). reflexivity.
  - rewrite dispatch_summarize by assumption. unfold summarize_body. rewrite Hreq.
    cbn. repeat split. intros e' He'. rewrite (He e' He'). reflexivity.
Qed.

Lemma fetch_bad_body_witness :
  code (snd (Ai.run (answers wrapped_response)
               (fetch json_parse parse_int iso_day (fun _ => "") (fun _ _ => false) ""
                  small_store (post "/api/analyze" "content=slow"))))
  = 500.
Proof.
  apply (fetch_bad_body json_parse parse_int iso_day (fun _ => "") (fun _ _ => false) ""
           (answers wrapped_response) small_store (post "/api/analyze" "content=slow")).
  - reflexivity.
  - left. reflexivity.
  - intros v Hv. vm_compute in Hv. discriminate Hv.
Defined.

(** X20. A summary request whose [feedbackTexts] is a non-empty string,
    [true], or an object without a [length], instead of an array, is
    answered with status 500; the capability is not called. *)
Theorem fetch_summarize_not_an_array :
  forall (JSON_parse : string -> Completion JsValue) (parseInt : string -> option Z)
         (DATE : string -> option string) (ToString : JsValue -> string)
         (is_zero : Z -> Z -> bool) (html : string)
         (ai : Ai.Request -> Ai.Outcome) (db : list Row) (req : Request)
         (parsed texts : JsValue),
    is_post req = true ->
    pathname req = "/api/summarize" ->
    JSON_parse (text req) = Normal parsed ->
    get_prop parsed "feedbackTexts" = Some texts ->
    (exists s, texts = JStr s /\ s <> "")
    \/ texts = JBool true
    \/ (exists props, texts = JObj props /\ obj_get props "length" = None) ->
    let answer :=
      Ai.run ai (fetch JSON_parse parseInt DATE ToString is_zero html db req) in
    fst answer = [] /\ code (snd answer) = 500 /\ headers (snd answer) = json_headers.
Proof.
  intros JSON_parse parseInt DATE ToString is_zero html ai db req parsed texts
         Hpost Hpath Hparse Htexts Hshape.
  cbv zeta. rewrite dispatch_summarize by assumption.
  unfold summarize_body, request_json. rewrite Hparse.
  destruct parsed as [| b | m e | str | items | props]; try discriminate Htexts.
  rewrite Htexts.
  destruct Hshape as [(s & -> & Hs) | [-> | (props' & -> & Hlen)]].
  - destruct s as [|c s']; [congruence|]. cbn. repeat split.
  - cbn. repeat split.
  - cbn. rewrite Hlen. cbn. repeat split.
Qed.

Lemma fetch_summarize_not_an_array_witness :
  code (snd (Ai.run (answers "fine")
               (fetch json_parse parse_int iso_day (fun _ => "") (fun _ _ => false) ""
                  small_store
                  (post "/api/summarize" (requote "{'feedbackTexts':'too slow'}")))))
  = 500.
Proof.
  apply (fetch_summarize_not_an_array json_parse parse_int iso_day (fun _ => "")
           (fun _ _ => false) "" (answers "fine") small_store
           (post "/api/summarize" (requote "{'feedbackTexts':'too slow'}"))
           (JObj [("feedbackTexts", JStr "too slow")]) (JStr "too slow")).
  - reflexivity.
  - reflexivity.
  - vm_compute. reflexivity.
  - reflexivity.
  - left. exists "too slow". split; [reflexivity|discriminate].
Defined.

Lemma element_texts (ToString : JsValue -> string) (n : nat) (texts : list string) :
  map (element_text ToString) (firstn n (map JStr texts)) = firstn n texts.
Proof.
  rewrite firstn_map, map_map. rewrite <- (map_id (firstn n texts)) at 2.
  apply map_ext. intros t. reflexivity.
Qed.

(** X21. A POST to the analysis route whose body is a JSON object with a
    string [content] is answered with what [analyzeWithAI] makes of that
    string, under JSON headers; when [content] is absent, [null], [false]
    or empty the answer is status 400 and the capability is not
    called. *)
Theorem fetch_analyze_content :
  forall (JSON_parse : string -> Completion JsValue) (parseInt : string -> option Z)
         (DATE : string -> option string) (ToString : JsValue -> string)
         (is_zero : Z -> Z -> bool) (html : string)
         (ai : Ai.Request -> Ai.Outcome) (db : list Row) (req : Request)
         (parsed : JsValue),
    is_post req = true ->
    pathname req = "/api/analyze" ->
    JSON_parse (text req) = Normal parsed ->
    parsed <> JNull ->
    let answer :=
      Ai.run ai (fetch JSON_parse parseInt DATE ToString is_zero html db req) in
    (forall content,
       get_prop parsed "content" = Some (JStr content) ->
       answer
       = (fst (Ai.run ai (analyzeWithAI JSON_parse content)),
          internal_error
            (completion_map (json_reply ValueJson) (classify JSON_parse ai content))))
    /\ (get_prop parsed "content" = None
        \/ get_prop parsed "content" = Some JNull
        \/ get_prop parsed "content" = Some (JBool false)
        \/ get_prop parsed "content" = Some (JStr "") ->
        answer
        = ([], mkReply 400 json_headers
                 (ValueJson (JObj [("error", JStr "Content required")])))).
Proof.
  intros JSON_parse parseInt DATE ToString is_zero html ai db req parsed
         Hpost Hpath Hparse Hnull.
  cbv zeta. rewrite dispatch_analyze by assumption.
  assert (Hreq : request_json JSON_parse (text req) = Normal parsed).
  { unfold request_json. rewrite Hparse. destruct parsed; congruence. }
  unfold analyze_body. rewrite Hreq. split.
  - intros content Hc. rewrite Hc. unfold classify, analyzeWithAI.
    cbn [to_boolean template to_string].
    destruct (negb (truthy (Some content))); reflexivity.
  - intros [Hc | [Hc | [Hc | Hc]]]; rewrite Hc; reflexivity.
Qed.

Lemma fetch_analyze_content_witness :
  Ai.run (fails "quota exceeded")
    (fetch json_parse parse_int iso_day (fun _ => "") (fun _ _ => false) ""
       small_store (post "/api/analyze" (requote "{'title':'slow'}")))
  = ([], mkReply 400 json_headers
           (ValueJson (JObj [("error", JStr "Content required")]))).
Proof.
  apply (fetch_analyze_content json_parse parse_int iso_day (fun _ => "")
           (fun _ _ => false) "" (fails "quota exceeded") small_store
           (post "/api/analyze" (requote "{'title':'slow'}"))
           (JObj [("title", JStr "slow")])).
  - reflexivity.
  - reflexivity.
  - vm_compute. reflexivity.
  - discriminate.
  - left. reflexivity.
Defined.

(** X22. A POST to the summary route whose body is a JSON object with
    an array of strings [feedbackTexts] and a string [theme] is answered
    with what [summarizeFeedback] makes of them, under JSON headers, and
    calls the capability as it does; without [feedbackTexts] the answer is
    the fixed no-feedback message and the capability is not called. *)
Theorem fetch_summarize_texts :
  forall (JSON_parse : string -> Completion JsValue) (parseInt : string -> option Z)
         (DATE : string -> option string) (ToString : JsValue -> string)
         (is_zero : Z -> Z -> bool) (html : string)
         (ai : Ai.Request -> Ai.Outcome) (db : list Row) (req : Request)
         (parsed : JsValue),
    is_post req = true ->
    pathname req = "/api/summarize" ->
    JSON_parse (text req) = Normal parsed ->
    parsed <> JNull ->
    let answer :=
      Ai.run ai (fetch JSON_parse parseInt DATE ToString is_zero html db req) in
    (forall texts theme,
       get_prop parsed "feedbackTexts" = Some (JArr (map JStr texts)) ->
       get_prop parsed "theme" = Some (JStr theme) ->
       answer
       = (fst (summarize ai (Some texts) theme),
          internal_error
            (completion_map (json_reply ValueJson)
               (snd (summarize ai (Some texts) theme)))))
    /\ (get_prop parsed "feedbackTexts" = None ->
        answer = ([], mkReply 200 json_headers (ValueJson no_feedback))).
Proof.
  intros JSON_parse parseInt DATE ToString is_zero html ai db req parsed
         Hpost Hpath Hparse Hnull.
  cbv zeta. rewrite dispatch_summarize by assumption.
  assert (Hreq : request_json JSON_parse (text req) = Normal parsed).
  { unfold request_json. rewrite Hparse. destruct parsed; congruence. }
  unfold summarize_body. rewrite Hreq. split.
  - intros texts theme Ht Hth. rewrite Ht, Hth. unfold summarize, summarizeFeedback.
    destruct texts as [|t rest]; [reflexivity|].
    cbn [to_boolean length_is_zero map negb orb template to_string].
    change (JStr t :: map JStr rest) with (map JStr (t :: rest)).
    rewrite element_texts. reflexivity.
  - intros Hnone. rewrite Hnone. reflexivity.
Qed.

Lemma fetch_summarize_texts_witness :
  Ai.run (fails "quota exceeded")
    (fetch json_parse parse_int iso_day (fun _ => "") (fun _ _ => false) ""
       small_store (post "/api/summarize" (requote "{'theme':'Pricing'}")))
  = ([], mkReply 200 json_headers (ValueJson no_feedback)).
Proof.
  apply (fetch_summarize_texts json_parse parse_int iso_day (fun _ => "")
           (fun _ _ => false) "" (fails "quota exceeded") small_store
           (post "/api/summarize" (requote "{'theme':'Pricing'}"))
           (JObj [("theme", JStr "Pricing")])).
  - reflexivity.
  - reflexivity.
  - vm_compute. reflexivity.
  - discriminate.
  - reflexivity.
Defined.

(** X23. The older worker has no distributions and no summary route:
    it answers both with 404.  On [/] and [/index.html] each worker
    serves its own dashboard page.  On every request to another path
    than those, the overview and the theme detail, the two workers give
    the same answer, whatever their pages. *)
Theorem fetch_v1_routes :
  forall (JSON_parse : string -> Completion JsValue) (parseInt : string -> option Z)
         (DATE : string -> option string) (ToString : JsValue -> string)
         (is_zero : Z -> Z -> bool) (html html_v1 : string)
         (ai : Ai.Request -> Ai.Outcome) (db : list Row) (req : Request),
    (String.eqb (method req) "OPTIONS" = false ->
     pathname req = "/api/distributions" \/ pathname req = "/api/summarize" ->
     Ai.run ai (fetch_v1 JSON_parse parseInt DATE ToString is_zero html_v1 db req)
     = ([], not_found))
    /\ (String.eqb (method req) "OPTIONS" = false ->
        pathname req = "/" \/ pathname req = "/index.html" ->
        Ai.run ai (fetch_v1 JSON_parse parseInt DATE ToString is_zero html_v1 db req)
        = ([], mkReply 200 [("Content-Type", "text/html")] (Text html_v1))
        /\ Ai.run ai (fetch JSON_parse parseInt DATE ToString is_zero html db req)
           = ([], mkReply 200 [("Content-Type", "text/html")] (Text html)))
    /\ (pathname req <> "/" -> pathname req <> "/index.html" ->
        pathname req <> "/api/overview" -> pathname req <> "/api/theme-detail" ->
        pathname req <> "/api/distributions" -> pathname req <> "/api/summarize" ->
        fetch_v1 JSON_parse parseInt DATE ToString is_zero html_v1 db req
        = fetch JSON_parse parseInt DATE ToString is_zero html db req).
Proof.
  intros JSON_parse parseInt DATE ToString is_zero html html_v1 ai db req.
  split; [|split].
  - intros Hm Hpath. unfold fetch_v1, route_v1, is_path. rewrite Hm.
    destruct Hpath as [-> | ->]; reflexivity.
  - intros Hm Hpath. unfold fetch_v1, fetch, route_v1, route, is_path. rewrite Hm.
    destruct Hpath as [-> | ->]; split; reflexivity.
  - intros Hr Hi Ho Ht Hd Hs. unfold fetch_v1, fetch, route_v1, route, is_path.
    destruct (String.eqb_spec (pathname req) "/"); [contradiction|].
    destruct (String.eqb_spec (pathname req) "/index.html"); [contradiction|].
    destruct (String.eqb_spec (pathname req) "/api/overview"); [contradiction|].
    destruct (String.eqb_spec (pathname req) "/api/theme-detail"); [contradiction|].
    destruct (String.eqb_spec (pathname req) "/api/distributions"); [contradiction|].
    destruct (String.eqb_spec (pathname req) "/api/summarize"); [contradiction|].
    reflexivity.
Qed.

Lemma fetch_v1_routes_witness :
  Ai.run (answers "fine")
    (fetch_v1 json_parse parse_int iso_day (fun _ => "") (fun _ _ => false)
       "older page" small_store (get "/api/distributions"))
  = ([], not_found)
  /\ Ai.run (answers "fine")
       (fetch_v1 json_parse parse_int iso_day (fun _ => "") (fun _ _ => false)
          "older page" small_store (get "/"))
     = ([], mkReply 200 [("Content-Type", "text/html")] (Text "older page")).
Proof.
  split.
  - apply (fetch_v1_routes json_parse parse_int iso_day (fun _ => "")
             (fun _ _ => false) "newer page" "older page"
             (answers "fine") small_store (get "/api/distributions")).
    + reflexivity.
    + left. reflexivity.
  - apply (fetch_v1_routes json_parse parse_int iso_day (fun _ => "")
             (fun _ _ => false) "newer page" "older page"
             (answers "fine") small_store (get "/")).
    + reflexivity.
    + left. reflexivity.
Defined.

Example fetch_options_anywhere :
  Ai.run (answers "fine")
    (fetch json_parse parse_int iso_day (fun _ => "") (fun _ _ => false) ""
       small_store (mkRequest "OPTIONS" "/no/such/path" [] ""))
  = ([], preflight).
Proof. reflexivity. Qed.

Example fetch_get_analyze :
  Ai.run (answers "fine")
    (fetch json_parse parse_int iso_day (fun _ => "") (fun _ _ => false) ""
       small_store (get "/api/analyze"))
  = ([], not_found).
Proof. reflexivity. Qed.

(** A limit beyond the 64-bit integers: the statement fails and the
    dispatcher answers 500. *)
Example fetch_feedback_huge_limit :
  code (snd (Ai.run (answers "fine")
               (fetch json_parse parse_int iso_day (fun _ => "") (fun _ _ => false) ""
                  small_store
                  (mkRequest "GET" "/api/feedback"
                     [("limit", "99999999999999999999")] ""))))
  = 500.
Proof. vm_compute. reflexivity. Qed.
